(** * SOFR / CNBC scrapers: normalisation and upsert pipelines

    Shallow embedding of the three scripts of the repository

    - [CNBC.py]                    (module [CNBC]),
    - [CNBC_US10YTIP_History.py]   (module [History]),
    - [CMESOFR.py]                 (module [CMESOFR]),

    together with the Python values they compute with: text, binary64
    floats ([float], [str], [int]), [decimal.Decimal], aware datetimes and
    the key-value table the items are put into. *)

From Stdlib Require Import ZArith List String Ascii Bool Lia.
From Stdlib Require Import Reals Lra DecimalPos.
From Stdlib Require Import Floats.SpecFloat.
From stdpp Require Import gmap strings list sorting.

Local Open Scope string_scope.
Local Open Scope Z_scope.

(* ===================================================================== *)
(** * Python text *)
(* ===================================================================== *)

Module Text.

Definition is_upper (c : ascii) : bool :=
  let n := nat_of_ascii c in (65 <=? n)%nat && (n <=? 90)%nat.

(** [str.lower] on the ASCII range. *)
Definition lower_char (c : ascii) : ascii :=
  if is_upper c then ascii_of_nat (nat_of_ascii c + 32) else c.

Fixpoint lower (s : string) : string :=
  match s with
  | EmptyString => EmptyString
  | String c r => String (lower_char c) (lower r)
  end.

(** [s.startswith(p)]. *)
Fixpoint startswith (s p : string) {struct p} : bool :=
  match p, s with
  | EmptyString, _ => true
  | String a p', String b s' => Ascii.eqb a b && startswith s' p'
  | String _ _, EmptyString => false
  end.

(** [p in s] for two strings. *)
Fixpoint contains (s p : string) : bool :=
  startswith s p ||
  match s with
  | EmptyString => false
  | String _ s' => contains s' p
  end.

(** [s.replace(c, '')] for a one-character [c]. *)
Fixpoint remove_char (c : ascii) (s : string) : string :=
  match s with
  | EmptyString => EmptyString
  | String a r => if Ascii.eqb a c then remove_char c r else String a (remove_char c r)
  end.

(** The ASCII characters [str.strip] and the numeric constructors drop:
    tab, line feed, vertical tab, form feed, carriage return, the four
    separators 0x1c-0x1f and the space. *)
Definition is_space (c : ascii) : bool :=
  let n := nat_of_ascii c in
  ((9 <=? n)%nat && (n <=? 13)%nat) || ((28 <=? n)%nat && (n <=? 32)%nat).

Fixpoint lstrip (s : string) : string :=
  match s with
  | String c r => if is_space c then lstrip r else s
  | EmptyString => EmptyString
  end.

Fixpoint rstrip (s : string) : string :=
  match s with
  | EmptyString => EmptyString
  | String c r =>
      match rstrip r with
      | EmptyString => if is_space c then EmptyString else String c EmptyString
      | r' => String c r'
      end
  end.

Definition strip (s : string) : string := rstrip (lstrip s).

Definition digit_val (c : ascii) : option Z :=
  let n := nat_of_ascii c in
  if (48 <=? n)%nat && (n <=? 57)%nat then Some (Z.of_nat (n - 48)) else None.

Definition digit_char (d : Z) : ascii := ascii_of_nat (48 + Z.to_nat d).

(** Decimal digits of a positive number, most significant first. *)
Fixpoint uint_digits (u : Decimal.uint) : string :=
  match u with
  | Decimal.Nil => EmptyString
  | Decimal.D0 r => String "0" (uint_digits r)
  | Decimal.D1 r => String "1" (uint_digits r)
  | Decimal.D2 r => String "2" (uint_digits r)
  | Decimal.D3 r => String "3" (uint_digits r)
  | Decimal.D4 r => String "4" (uint_digits r)
  | Decimal.D5 r => String "5" (uint_digits r)
  | Decimal.D6 r => String "6" (uint_digits r)
  | Decimal.D7 r => String "7" (uint_digits r)
  | Decimal.D8 r => String "8" (uint_digits r)
  | Decimal.D9 r => String "9" (uint_digits r)
  end.

Definition pos_digits (p : positive) : string := uint_digits (Pos.to_uint p).

(** [str(n)] for an [int]. *)
Definition str_int (z : Z) : string :=
  match z with
  | Z0 => "0"
  | Zpos p => pos_digits p
  | Zneg p => String "-" (pos_digits p)
  end.

Fixpoint zeros (n : nat) : string :=
  match n with
  | O => EmptyString
  | S k => String "0" (zeros k)
  end.

Fixpoint take (n : nat) (s : string) : string :=
  match n, s with
  | S k, String c r => String c (take k r)
  | _, _ => EmptyString
  end.

Fixpoint drop (n : nat) (s : string) : string :=
  match n, s with
  | S k, String _ r => drop k r
  | _, _ => s
  end.

End Text.

(* ===================================================================== *)
(** * Decimal literals

    [float] and [decimal.Decimal] read the same numeric literals: optional
    sign, digits with an optional point, optional exponent.  A literal is
    read to a sign, a coefficient and a power of ten. *)
(* ===================================================================== *)

Module Literal.

Record t := mk { neg : bool; coeff : Z; exp10 : Z }.

(** Reads a run of digits; [acc] is the value so far and [n] the number
    of digits read.  An underscore is accepted between two digits. *)
Fixpoint digits (s : string) (acc : Z) (n : Z) : Z * Z * string :=
  match s with
  | String c r =>
      match Text.digit_val c with
      | Some d => digits r (10 * acc + d) (n + 1)
      | None =>
          if Ascii.eqb c "_" && (0 <? n) then
            match r with
            | String c' _ =>
                match Text.digit_val c' with
                | Some _ => digits r acc n
                | None => (acc, n, s)
                end
            | EmptyString => (acc, n, s)
            end
          else (acc, n, s)
      end
  | EmptyString => (acc, n, s)
  end.

Definition sign (s : string) : bool * string :=
  match s with
  | String "-" r => (true, r)
  | String "+" r => (false, r)
  | _ => (false, s)
  end.

(** The exponent part: [e] or [E], an optional sign, at least one digit. *)
Definition exponent (s : string) : option Z :=
  match s with
  | EmptyString => Some 0
  | String c r =>
      if Ascii.eqb c "e" || Ascii.eqb c "E" then
        let '(sg, r1) := sign r in
        match digits r1 0 0 with
        | (v, n, EmptyString) => if 0 <? n then Some (if sg then - v else v) else None
        | _ => None
        end
      else None
  end.

(** An unsigned literal: [ddd], [ddd.], [ddd.ddd] or [.ddd], then the
    exponent.  The result is the coefficient and the power of ten. *)
Definition unsigned (s : string) : option (Z * Z) :=
  let '(i, ni, r) := digits s 0 0 in
  let '(c, nf, r') :=
    match r with
    | String "." r1 => let '(c, nf, r2) := digits r1 i 0 in (c, nf, r2)
    | _ => (i, 0, r)
    end in
  if 0 <? ni + nf then
    match exponent r' with
    | Some e => Some (c, e - nf)
    | None => None
    end
  else None.

Definition parse (s : string) : option t :=
  let '(sg, r) := sign s in
  match unsigned r with
  | Some (c, e) => Some (mk sg c e)
  | None => None
  end.

End Literal.

(* ===================================================================== *)
(** * Python floats (IEEE 754 binary64) *)
(* ===================================================================== *)

Module Float.

Abbreviation t := spec_float.

Definition zero : t := S754_zero false.
Definition nan : t := S754_nan.

(** Nearest integer of [n / d] for [d > 0], ties to even. *)
Definition round_half_even (n d : Z) : Z :=
  let q := n / d in
  let r := n mod d in
  match 2 * r ?= d with
  | Lt => q
  | Gt => q + 1
  | Eq => if Z.even q then q else q + 1
  end.

(** [floor (log2 (n / d))] for positive [n] and [d]. *)
Definition ilog2 (n d : Z) : Z :=
  let k := Z.log2 n - Z.log2 d in
  if (if 0 <=? k then n <? d * 2 ^ k else n * 2 ^ (- k) <? d) then k - 1 else k.

(** [n / d / 2^e] as a fraction. *)
Definition scale2 (n d e : Z) : Z * Z :=
  if 0 <=? e then (n, d * 2 ^ e) else (n * 2 ^ (- e), d).

(** The binary64 nearest to the quotient of two positive integers, ties
    to even.  The exponent is the one that leaves the quotient 53 bits,
    and not less than the least exponent -1074; the scaled quotient is
    rounded to an integer; a mantissa of 54 bits is brought back to 53;
    past the largest exponent the result is an infinity. *)
Definition of_ratio (s : bool) (n d : Z) : t :=
  if n <=? 0 then S754_zero s
  else
    let e := Z.max (ilog2 n d - 52) (-1074) in
    let '(a, b) := scale2 n d e in
    let m := round_half_even a b in
    let '(m, e) := if m =? 2 ^ 53 then (2 ^ 52, e + 1) else (m, e) in
    match m with
    | Zpos p => if e <=? 971 then S754_finite s p e else S754_infinity s
    | _ => S754_zero s
    end.

(** The binary64 nearest to [c * 10^q]. *)
Definition of_decimal (s : bool) (c q : Z) : t :=
  if 0 <=? q then of_ratio s (c * 10 ^ q) 1 else of_ratio s c (10 ^ (- q)).

Definition of_literal (l : Literal.t) : t :=
  of_decimal (Literal.neg l) (Literal.coeff l) (Literal.exp10 l).

(** [float(s)] for a string: surrounding white space is dropped; the
    words [inf], [infinity] and [nan] are read in any letter case after
    an optional sign; anything else must be a decimal literal.  [None]
    is [ValueError]. *)
Definition of_string (s : string) : option t :=
  let s' := Text.strip s in
  let '(sg, w) := Literal.sign s' in
  let w' := Text.lower w in
  if String.eqb w' "inf" || String.eqb w' "infinity" then Some (S754_infinity sg)
  else if String.eqb w' "nan" then Some S754_nan
  else option_map of_literal (Literal.parse s').

(** [float(n)] for an [int]; [None] is [OverflowError]. *)
Definition of_int (z : Z) : option t :=
  match of_ratio (z <? 0) (Z.abs z) 1 with
  | S754_infinity _ => None
  | x => Some x
  end.

(** [a / b] for two [int]s, correctly rounded; [None] is
    [ZeroDivisionError] or [OverflowError]. *)
Definition int_truediv (a b : Z) : option t :=
  if b =? 0 then None
  else
    match of_ratio (xorb (a <? 0) (b <? 0)) (Z.abs a) (Z.abs b) with
    | S754_infinity _ => None
    | x => Some x
    end.

(** [x * y]: the exact product, rounded. *)
Definition mul (x y : t) : t :=
  match x, y with
  | S754_nan, _ | _, S754_nan => S754_nan
  | S754_infinity _, S754_zero _ | S754_zero _, S754_infinity _ => S754_nan
  | S754_infinity sx, S754_infinity sy
  | S754_infinity sx, S754_finite sy _ _
  | S754_finite sx _ _, S754_infinity sy => S754_infinity (xorb sx sy)
  | S754_zero sx, S754_zero sy
  | S754_zero sx, S754_finite sy _ _
  | S754_finite sx _ _, S754_zero sy => S754_zero (xorb sx sy)
  | S754_finite sx mx ex, S754_finite sy my ey =>
      if 0 <=? ex + ey then of_ratio (xorb sx sy) (Zpos mx * Zpos my * 2 ^ (ex + ey)) 1
      else of_ratio (xorb sx sy) (Zpos mx * Zpos my) (2 ^ (- (ex + ey)))
  end.

Definition is_nan (x : t) : bool :=
  match x with S754_nan => true | _ => false end.

Definition is_finite (x : t) : bool :=
  match x with S754_zero _ | S754_finite _ _ _ => true | _ => false end.

(** The integer part, towards zero, and the fraction left as a pair
    numerator, denominator: [math.modf] without rounding. *)
Definition modf (x : t) : option (Z * (Z * Z)) :=
  match x with
  | S754_zero _ => Some (0, (0, 1))
  | S754_finite s m e =>
      let sgn := if s then -1 else 1 in
      if 0 <=? e then Some (sgn * (Zpos m * 2 ^ e), (0, 1))
      else
        let d := 2 ^ (- e) in
        Some (sgn * (Zpos m / d), (sgn * (Zpos m mod d), d))
  | _ => None
  end.

(** [int(x)]: truncation towards zero; [None] for an infinity or a
    nan ([OverflowError], [ValueError]). *)
Definition trunc (x : t) : option Z := option_map fst (modf x).

(** Nearest integer of a finite float, ties to even. *)
Definition round_to_int (x : t) : option Z :=
  match modf x with
  | Some (i, (n, d)) => Some (i + round_half_even n d)
  | None => None
  end.

(** ** [repr]: the shortest decimal string that reads back as the float *)

(** Number of decimal digits of a positive integer: one more for each
    division by ten that leaves something.  The binary logarithm bounds
    the number of divisions. *)
Fixpoint ndigits_aux (fuel : nat) (z : Z) : Z :=
  match fuel with
  | O => 1
  | S f => if z <? 10 then 1 else 1 + ndigits_aux f (z / 10)
  end.

Definition ndigits (z : Z) : Z := ndigits_aux (Z.to_nat (Z.log2 z)) z.

(** [floor (log10 (n / d))] for positive [n] and [d]. *)
Definition ilog10 (n d : Z) : Z :=
  if d <=? n then ndigits (n / d) - 1 else - ndigits ((d - 1) / n).

(** A positive finite float as an exact fraction. *)
Definition to_ratio (m : positive) (e : Z) : Z * Z :=
  if 0 <=? e then (Zpos m * 2 ^ e, 1) else (Zpos m, 2 ^ (- e)).

(** [n / d / 10^q] as a fraction. *)
Definition scale10 (n d q : Z) : Z * Z :=
  if 0 <=? q then (n, d * 10 ^ q) else (n * 10 ^ (- q), d).

Definition same (x y : t) : bool :=
  match x, y with
  | S754_zero a, S754_zero b => Bool.eqb a b
  | S754_infinity a, S754_infinity b => Bool.eqb a b
  | S754_nan, S754_nan => true
  | S754_finite a m e, S754_finite b m' e' => Bool.eqb a b && Pos.eqb m m' && (e =? e')
  | _, _ => false
  end.

(** The decimals of [k] significant digits next to the float [m * 2^e]:
    the one below and the one above it.  The result is the one that reads
    back as the float, the nearer of the two when both do. *)
Definition candidate (m : positive) (e : Z) (k : Z) : option (Z * Z) :=
  let x := S754_finite false m e in
  let '(n, d) := to_ratio m e in
  let q := ilog10 n d - k + 1 in
  let '(a, b) := scale10 n d q in
  let lo := a / b in
  let hi := lo + 1 in
  match same (of_decimal false lo q) x, same (of_decimal false hi q) x with
  | true, true => Some (round_half_even a b, q)
  | true, false => Some (lo, q)
  | false, true => Some (hi, q)
  | false, false => None
  end.

(** The decimal of [k] significant digits nearest to [m * 2^e]. *)
Definition nearest_decimal (m : positive) (e : Z) (k : Z) : Z * Z :=
  let '(n, d) := to_ratio m e in
  let q := ilog10 n d - k + 1 in
  let '(a, b) := scale10 n d q in
  (round_half_even a b, q).

Fixpoint search (m : positive) (e : Z) (ks : list Z) : Z * Z :=
  match ks with
  | [] => nearest_decimal m e 17
  | k :: ks' =>
      match candidate m e k with
      | Some r => r
      | None => search m e ks'
      end
  end.

(** Shortest digits of a positive finite float: the fewest significant
    digits, from 1 up to 17, that identify it. *)
Definition shortest_digits (m : positive) (e : Z) : Z * Z :=
  search m e [1; 2; 3; 4; 5; 6; 7; 8; 9; 10; 11; 12; 13; 14; 15; 16; 17].

Fixpoint strip_zeros (s : string) : string :=
  match s with
  | EmptyString => EmptyString
  | String c r =>
      match strip_zeros r with
      | EmptyString => if Ascii.eqb c "0" then EmptyString else String c EmptyString
      | r' => String c r'
      end
  end.

(** The exponent of the scientific form: a sign and at least two digits. *)
Definition str_exp (x : Z) : string :=
  let a := Text.str_int (Z.abs x) in
  String (if x <? 0 then "-"%char else "+"%char)
    (if Z.abs x <? 10 then String "0" a else a).

(** Lays the digits out as [repr] does: plain notation when the decimal
    point falls within (-4, 16], scientific notation otherwise. *)
Definition format_digits (ds : string) (decpt : Z) : string :=
  let n := Z.of_nat (String.length ds) in
  if (-4 <? decpt) && (decpt <=? 16) then
    if decpt <=? 0 then "0." ++ Text.zeros (Z.to_nat (- decpt)) ++ ds
    else if n <=? decpt then ds ++ Text.zeros (Z.to_nat (decpt - n)) ++ ".0"
    else Text.take (Z.to_nat decpt) ds ++ "." ++ Text.drop (Z.to_nat decpt) ds
  else
    Text.take 1 ds
    ++ (if 1 <? n then "." ++ Text.drop 1 ds else "")
    ++ "e" ++ str_exp (decpt - 1).

Definition repr_pos (m : positive) (e : Z) : string :=
  let '(c, q) := shortest_digits m e in
  let ds := Text.str_int c in
  format_digits (strip_zeros ds) (Z.of_nat (String.length ds) + q).

(** [str(x)] and [repr(x)] for a float. *)
Definition repr (x : t) : string :=
  match x with
  | S754_nan => "nan"
  | S754_infinity s => if s then "-inf" else "inf"
  | S754_zero s => if s then "-0.0" else "0.0"
  | S754_finite s m e => (if s then "-" else "") ++ repr_pos m e
  end.

End Float.

(* ===================================================================== *)
(** * Exceptions *)
(* ===================================================================== *)

Inductive exn :=
| ValueError | TypeError | AttributeError | OverflowError | OSError
| ZeroDivisionError | InvalidOperation
| HTTPError | RequestException | JSONDecodeError
| WebDriverException | TimeoutException | IndexError.

Inductive result (A : Type) :=
| Ok (a : A)
| Raise (e : exn).

Arguments Ok {A} a.
Arguments Raise {A} e.

#[global] Instance result_ret : MRet result := fun A a => Ok a.

#[global] Instance result_bind : MBind result := fun A B k r =>
  match r with
  | Ok a => k a
  | Raise e => Raise e
  end.

(** [try: body except (classes): handler]. *)
Definition try_except {A} (body : result A) (classes : exn -> bool)
  (handler : result A) : result A :=
  match body with
  | Raise e => if classes e then handler else Raise e
  | ok => ok
  end.

Definition of_option {A} (e : exn) (o : option A) : result A :=
  match o with
  | Some a => Ok a
  | None => Raise e
  end.

(** [except (ValueError, TypeError)]; [JSONDecodeError] derives from
    [ValueError]. *)
Definition value_or_type_error (e : exn) : bool :=
  match e with
  | ValueError | TypeError | JSONDecodeError => true
  | _ => false
  end.

(** [except ValueError]. *)
Definition value_error (e : exn) : bool :=
  match e with
  | ValueError | JSONDecodeError => true
  | _ => false
  end.

(** [except (ValueError, TypeError, decimal.InvalidOperation)]. *)
Definition conversion_error (e : exn) : bool :=
  match e with
  | ValueError | TypeError | JSONDecodeError | InvalidOperation => true
  | _ => false
  end.

(** [except Exception]. *)
Definition any_exception (e : exn) : bool := true.

(* ===================================================================== *)
(** * [decimal.Decimal] *)
(* ===================================================================== *)

Module PyDecimal.

(** A decimal is a sign, a coefficient and a power of ten, or one of the
    special values. *)
Inductive t :=
| Finite (neg : bool) (coeff : Z) (exp : Z)
| Infinity (neg : bool)
| NaN (neg : bool) (signalling : bool) (payload : Z).

(** The digits after [nan]: the payload, possibly empty. *)
Definition payload (s : string) : option Z :=
  match Literal.digits s 0 0 with
  | (v, _, EmptyString) => Some v
  | _ => None
  end.

(** [decimal.Decimal(s)]: white space around the text and every
    underscore are dropped; the rest is an optional sign and a literal,
    [inf], [infinity], [nan] or [snan] in any letter case.  Nothing is
    rounded.  [None] is [InvalidOperation]. *)
Definition of_string (s : string) : option t :=
  let s' := Text.remove_char "_" (Text.strip s) in
  let '(sg, w) := Literal.sign s' in
  let w' := Text.lower w in
  if String.eqb w' "inf" || String.eqb w' "infinity" then Some (Infinity sg)
  else if Text.startswith w' "nan" then
    option_map (NaN sg false) (payload (Text.drop 3 w'))
  else if Text.startswith w' "snan" then
    option_map (NaN sg true) (payload (Text.drop 4 w'))
  else
    match Literal.parse s' with
    | Some l => Some (Finite (Literal.neg l) (Literal.coeff l) (Literal.exp10 l))
    | None => None
    end.

Definition Decimal (s : string) : result t := of_option InvalidOperation (of_string s).

Definition is_nan (d : t) : bool :=
  match d with NaN _ _ _ => true | _ => false end.


End PyDecimal.

(* ===================================================================== *)
(** * Aware datetimes in UTC *)
(* ===================================================================== *)

Module DateTime.

(** An aware UTC [datetime] is its number of microseconds since the
    epoch; [datetime.min] and [datetime.max] bound it. *)
Definition t := Z.

Definition min_seconds : Z := -62135596800.
Definition max_seconds : Z := 253402300799.

(** The seconds a 64-bit [time_t] holds, and the ones whose calendar
    year still fits the C library's [struct tm]. *)
Definition time_t_fits (s : Z) : bool := (- 2 ^ 63 <=? s) && (s <? 2 ^ 63).
Definition gmtime_fits (s : Z) : bool :=
  (-67768040609740800 <=? s) && (s <=? 67767976233532799).

(** [datetime.fromtimestamp(x, tz=timezone.utc)]: the float is split
    into its integer part and its fraction, the fraction is multiplied by
    10^6 as a float and rounded to the nearest integer, ties to even. *)
Definition fromtimestamp (x : Float.t) : result t :=
  match Float.modf x with
  | None => Raise (if Float.is_nan x then ValueError else OverflowError)
  | Some (i, (n, d)) =>
      let us := Float.round_to_int (Float.of_ratio (n <? 0) (Z.abs n * 1000000) d) in
      match us with
      | None => Raise OverflowError
      | Some u =>
          let total := i * 1000000 + u in
          let s := total / 1000000 in
          if negb (time_t_fits i) then Raise OverflowError
          else if negb (gmtime_fits s) then Raise OSError
          else if (min_seconds <=? s) && (s <=? max_seconds) then Ok total
          else Raise ValueError
      end
  end.

(** [dt.timestamp()]: the microseconds over 10^6, as a float. *)
Definition timestamp (dt : t) : Float.t :=
  Float.of_ratio (dt <? 0) (Z.abs dt) 1000000.

(** The civil date of a day number (days since 1970-01-01). *)
Definition civil_of_days (z : Z) : Z * Z * Z :=
  let z := z + 719468 in
  let era := z / 146097 in
  let doe := z - era * 146097 in
  let yoe := (doe - doe / 1460 + doe / 36524 - doe / 146096) / 365 in
  let y := yoe + era * 400 in
  let doy := doe - (365 * yoe + yoe / 4 - yoe / 100) in
  let mp := (5 * doy + 2) / 153 in
  let d := doy - (153 * mp + 2) / 5 + 1 in
  let m := if mp <? 10 then mp + 3 else mp - 9 in
  (if m <=? 2 then y + 1 else y, m, d).

(** A number written on at least [w] digits; the year is written as it
    is. *)
Definition pad (w : nat) (z : Z) : string :=
  let s := Text.str_int z in
  Text.zeros (w - String.length s) ++ s.

(** [dt.strftime('%Y-%m-%d')]. *)
Definition strftime_date (dt : t) : string :=
  let '(y, m, d) := civil_of_days (dt / 86400000000) in
  Text.str_int y ++ "-" ++ pad 2 m ++ "-" ++ pad 2 d.

(** [dt.strftime('%Y-%m-%d %H:%M:%S')]. *)
Definition strftime_seconds (dt : t) : string :=
  let s := (dt / 1000000) mod 86400 in
  strftime_date dt ++ " " ++ pad 2 (s / 3600) ++ ":" ++ pad 2 (s / 60 mod 60)
  ++ ":" ++ pad 2 (s mod 60).

(** [dt.strftime('%Y-%m-%d %H:%M:%S %Z')]. *)
Definition strftime_seconds_tz (dt : t) : string := strftime_seconds dt ++ " UTC".

End DateTime.

(* ===================================================================== *)
(** * Parsed JSON *)
(* ===================================================================== *)

(** What [json.loads] and [response.json()] return: [None], [bool],
    [int], [float], [str], [list] and [dict].  An object is the list of
    its members, each key at most once. *)
#[local] Set Warnings "-register-all".

Inductive json :=
| JNull
| JBool (b : bool)
| JInt (z : Z)
| JFloat (f : Float.t)
| JStr (s : string)
| JArr (l : list json)
| JObj (kv : list (string * json)).

Module Json.

Fixpoint lookup (k : string) (kv : list (string * json)) : option json :=
  match kv with
  | [] => None
  | (k', v) :: r => if String.eqb k k' then Some v else lookup k r
  end.

(** [k in d] for a dict. *)
Definition has_key (k : string) (kv : list (string * json)) : bool :=
  match lookup k kv with Some _ => true | None => false end.

(** [d.get(k)]: [None] when the key is missing; calling [.get] on
    anything but a dict raises [AttributeError]. *)
Definition get (j : json) (k : string) : result json :=
  match j with
  | JObj kv => Ok (default JNull (lookup k kv))
  | _ => Raise AttributeError
  end.

(** [d.get(k, dflt)]. *)
Definition get_default (j : json) (k : string) (dflt : json) : result json :=
  match j with
  | JObj kv => Ok (default dflt (lookup k kv))
  | _ => Raise AttributeError
  end.

Definition is_none (j : json) : bool :=
  match j with JNull => true | _ => false end.

(** [isinstance(j, dict)]. *)
Definition is_dict (j : json) : bool :=
  match j with JObj _ => true | _ => false end.

(** Truth value of an object in a condition. *)
Definition truthy (j : json) : bool :=
  match j with
  | JNull => false
  | JBool b => b
  | JInt z => negb (z =? 0)
  | JFloat f => match f with S754_zero _ => false | _ => true end
  | JStr s => negb (String.eqb s "")
  | JArr l => match l with [] => false | _ => true end
  | JObj kv => match kv with [] => false | _ => true end
  end.

Fixpoint chars (s : string) : list json :=
  match s with
  | EmptyString => []
  | String c r => JStr (String c EmptyString) :: chars r
  end.

(** The elements a [for] loop visits: the items of a list, the
    characters of a string, the keys of a dict; other values are not
    iterable. *)
Definition iterate (j : json) : result (list json) :=
  match j with
  | JArr l => Ok l
  | JStr s => Ok (chars s)
  | JObj kv => Ok (map (fun p => JStr (fst p)) kv)
  | _ => Raise TypeError
  end.

(** [str(j)] for a scalar.  The text of a list or of a dict is not
    spelled out ([None]); it starts with a bracket. *)
Definition str (j : json) : option string :=
  match j with
  | JNull => Some "None"
  | JBool b => Some (if b then "True" else "False")
  | JInt z => Some (Text.str_int z)
  | JFloat f => Some (Float.repr f)
  | JStr s => Some s
  | JArr _ | JObj _ => None
  end.

(** [int(s)] for a string: white space around, a sign, digits. *)
Definition int_of_string (s : string) : option Z :=
  let '(sg, r) := Literal.sign (Text.strip s) in
  match Literal.digits r 0 0 with
  | (v, n, EmptyString) => if 0 <? n then Some (if sg then - v else v) else None
  | _ => None
  end.

(** [int(j)]. *)
Definition int (j : json) : result Z :=
  match j with
  | JInt z => Ok z
  | JBool b => Ok (if b then 1 else 0)
  | JFloat f =>
      match Float.trunc f with
      | Some z => Ok z
      | None => Raise (if Float.is_nan f then ValueError else OverflowError)
      end
  | JStr s => of_option ValueError (int_of_string s)
  | JNull | JArr _ | JObj _ => Raise TypeError
  end.

(** [float(j)]. *)
Definition float (j : json) : result Float.t :=
  match j with
  | JInt z => of_option OverflowError (Float.of_int z)
  | JBool b => Ok (if b then S754_finite false 4503599627370496 (-52) else Float.zero)
  | JFloat f => Ok f
  | JStr s => of_option ValueError (Float.of_string s)
  | JNull | JArr _ | JObj _ => Raise TypeError
  end.

End Json.

(* ===================================================================== *)
(** * The table *)
(* ===================================================================== *)

(** An item of the table: [metricId] is the partition key and
    [timestamp] the sort key. *)
Record item := Item {
  metricId : string;
  timestamp : Z;
  value : PyDecimal.t;
  sourceDate : string;
  unit : option string
}.

(** The table is the store the scripts write to and never read.  It is
    a finite map from the composite key to the item last put under it. *)
Abbreviation table := (gmap (string * Z) item).

Definition key (it : item) : string * Z := (metricId it, timestamp it).

(** [batch.put_item(Item=item)]: the item replaces whatever the table
    holds under its key; no condition is checked. *)
Definition put_item (tb : table) (it : item) : table := <[key it := it]> tb.


(* ===================================================================== *)
(** * The network *)
(* ===================================================================== *)

(** What one [requests.get] followed by [raise_for_status] and [json()]
    comes to: the request fails, the status is not 2xx, the body is not
    JSON, or the body parses. *)
Inductive response :=
| ConnectionFailed
| BadStatus
| NotJson
| Body (data : json).

(** What the process does to the outside, in order. *)
Inductive event :=
| Get (symbol time_range : string)
| Sleep (seconds : Z)
| BrowserGet
| BatchWrite (items : nat).

(** How a process ends: its exit status, what it did, the table. *)
Record exit := Exit { status : Z; events : list event; final : table }.

(* ===================================================================== *)
(** * CNBC.py *)
(* ===================================================================== *)

Module CNBC.

(** A row of the DataFrame: columns [DateTime] and [Value]. *)
Record row := Row { DateTime : DateTime.t; Value : Float.t }.

Abbreviation DataFrame := (list row).

Definition by_DateTime (a b : row) : Prop := DateTime a <= DateTime b.

(** What the script asks of pandas.  [sort_values] rearranges the rows
    in ascending order of the column; the script leaves the sorting
    algorithm to pandas' default, which does not promise an order among
    equal keys.  [Series.is_finite] is called on every value that is not
    missing: [has_is_finite] tells whether the installed pandas has that
    method; if it has not the call raises [AttributeError]. *)
Class Pandas := {
  sort_values : DataFrame -> DataFrame;
  sort_values_perm : forall df, Permutation (sort_values df) df;
  sort_values_sorted : forall df, Sorted by_DateTime (sort_values df);
  has_is_finite : bool
}.

Section Script.

Context `{Pandas}.

Definition max_retries : nat := 3.
Definition retry_delay : Z := 5.

(** The guard on the response: [data.data.chartData.priceBars] is
    looked up step by step; [None] is the branch taken when a step is
    missing, falsy or not a dict. *)
Definition price_bars (data : json) : result (option json) :=
  d ← Json.get data "data";
  if Json.truthy d && Json.is_dict d then
    c ← Json.get d "chartData";
    if Json.truthy c && Json.is_dict c then
      p ← Json.get c "priceBars";
      Ok (if Json.truthy p then Some p else None)
    else Ok None
  else Ok None.

(** [float(close_value_str)], the percent signs removed if there are
    any. *)
Definition close_value (close_value_str : string) : result Float.t :=
  if Text.contains close_value_str "%" then
    of_option ValueError (Float.of_string (Text.remove_char "%" close_value_str))
  else of_option ValueError (Float.of_string close_value_str).

(** The body of the loop over the bars: [None] is [continue]. *)
Definition process_bar (bar : json) : result (option row) :=
  try_except
    (timestamp_val ← Json.get bar "tradeTimeinMills";
     if Json.is_none timestamp_val then Ok None
     else
       timestamp_ms ← Json.int timestamp_val;
       seconds ← of_option OverflowError (Float.int_truediv timestamp_ms 1000);
       dt_object ← DateTime.fromtimestamp seconds;
       close ← Json.get_default bar "close" (JStr "0");
       try_except
         (value_to_store ←
            match Json.str close with
            | Some close_value_str => close_value close_value_str
            | None => Raise ValueError
            end;
          Ok (Some (Row dt_object value_to_store)))
         value_error (Ok None))
    value_or_type_error (Ok None).

Fixpoint process_bars (bars : list json) : result (list row) :=
  match bars with
  | [] => Ok []
  | bar :: rest =>
      r ← process_bar bar;
      rows ← process_bars rest;
      Ok (match r with Some x => x :: rows | None => rows end)
  end.

(** The body of the [try] of one attempt. *)
Definition attempt (r : response) : result DataFrame :=
  match r with
  | ConnectionFailed => Raise RequestException
  | BadStatus => Raise HTTPError
  | NotJson => Raise JSONDecodeError
  | Body data =>
      pb ← price_bars data;
      match pb with
      | Some price_bars =>
          bars ← Json.iterate price_bars;
          processed_data ← process_bars bars;
          Ok (match processed_data with
              | [] => []
              | _ => sort_values processed_data
              end)
      | None => Ok []
      end
  end.

(** The loop [for attempt in range(max_retries)]: [left] attempts are
    left and [n] is the number of the current one.  The four handlers do
    the same: on the last attempt return an empty DataFrame, otherwise
    sleep and go round. *)
Fixpoint attempts (net : nat -> response) (symbol time_range : string)
  (left n : nat) : DataFrame * list event :=
  match left with
  | O => ([], [])
  | S left' =>
      match attempt (net n) with
      | Ok df => (df, [Get symbol time_range])
      | Raise _ =>
          if (n + 1 =? max_retries)%nat then ([], [Get symbol time_range])
          else
            let '(df, tr) := attempts net symbol time_range left' (S n) in
            (df, Get symbol time_range :: Sleep retry_delay :: tr)
      end
  end.

Definition fetch_cnbc_data (net : nat -> response) (symbol_to_fetch time_range : string)
  : DataFrame * list event :=
  attempts net symbol_to_fetch time_range max_retries 0.

(** [int(datetime_obj.timestamp() * 1000)]. *)
Definition db_timestamp (datetime_obj : DateTime.t) : result Z :=
  of_option OverflowError
    (Float.trunc (Float.mul (DateTime.timestamp datetime_obj)
                    (S754_finite false 8796093022208000 (-43)))).

(** [pd.Series(v).is_finite().all()]. *)
Definition series_is_finite (v : Float.t) : result bool :=
  if has_is_finite then Ok (Float.is_finite v) else Raise AttributeError.

(** The value of a row as a decimal; [None] is [continue]. *)
Definition row_value (r : row) : result (option PyDecimal.t) :=
  try_except
    (if Float.is_nan (Value r) then Ok None
     else
       finite ← series_is_finite (Value r);
       if negb finite then Ok None
       else
         value ← PyDecimal.Decimal (Float.repr (Value r));
         Ok (Some value))
    conversion_error (Ok None).

(** The item a row gives, if any. *)
Definition row_item (metric_id_to_store unit : string) (r : row) : result (option item) :=
  ts ← db_timestamp (DateTime r);
  v ← row_value r;
  Ok (match v with
      | Some value =>
          Some (Item metric_id_to_store ts value
                  (DateTime.strftime_seconds_tz (DateTime r)) (Some unit))
      | None => None
      end).

(** The loop over the rows inside [with table.batch_writer() as batch]:
    the count so far, the table so far.  An exception leaves the loop;
    the batch writer still flushes what was put before it. *)
Fixpoint store_rows (metric_id_to_store unit : string) (rows : list row)
  (count : nat) (tb : table) : result nat * table :=
  match rows with
  | [] => (Ok count, tb)
  | r :: rest =>
      match row_item metric_id_to_store unit r with
      | Raise e => (Raise e, tb)
      | Ok (Some it) => store_rows metric_id_to_store unit rest (S count) (put_item tb it)
      | Ok None => store_rows metric_id_to_store unit rest count tb
      end
  end.

(** [store_data_in_dynamodb(df, metric_id_to_store, unit)]: the number
    of items put, or the exception that escapes, and the table
    afterwards. *)
Definition store_data_in_dynamodb (tb : table) (df : DataFrame)
  (metric_id_to_store unit : string) : result nat * table :=
  match df with
  | [] => (Ok O, tb)
  | _ => store_rows metric_id_to_store unit df O tb
  end.

End Script.

(** ** The script run as a program *)

(** What the process finds around it: its configuration, whether
    [boto3.resource] and [dynamodb.Table] succeed, the answers of the
    network, the table as it is. *)
Record world := World {
  SYMBOL_TO_FETCH : string;
  TIME_RANGE_TO_FETCH : string;
  METRIC_ID_PREFIX : string;
  METRIC_NAME_SUFFIX : string;
  UNIT_FOR_METRIC : string;
  boto3_ok : bool;
  net : nat -> response;
  table0 : table
}.

Definition METRIC_ID_FOR_DYNAMODB (w : world) : string :=
  METRIC_ID_PREFIX w ++ "_" ++ SYMBOL_TO_FETCH w ++ "_" ++ TIME_RANGE_TO_FETCH w
  ++ "_" ++ METRIC_NAME_SUFFIX w.

Section Program.

Context `{Pandas}.

(** Module initialisation, then the [__main__] block.  When the table
    handle cannot be made the handler prints and raises again: the
    process ends there with status 1.  An exception that leaves
    [store_data_in_dynamodb] is not caught either. *)
Definition main (w : world) : exit :=
  if negb (boto3_ok w) then Exit 1 [] (table0 w)
  else
    let '(df_data, evs) := fetch_cnbc_data (net w) (SYMBOL_TO_FETCH w) (TIME_RANGE_TO_FETCH w) in
    match df_data with
    | [] => Exit 0 evs (table0 w)
    | _ =>
        match store_data_in_dynamodb (table0 w) df_data (METRIC_ID_FOR_DYNAMODB w)
                (UNIT_FOR_METRIC w) with
        | (Ok items_written, tb) => Exit 0 (evs ++ [BatchWrite items_written]) tb
        | (Raise _, tb) => Exit 1 evs tb
        end
    end.

End Program.

End CNBC.

(* ===================================================================== *)
(** * CNBC_US10YTIP_History.py *)
(* ===================================================================== *)

Module History.

(** A row of the DataFrame: columns [DateTime] and [Close Price].  The
    script builds naive datetimes in the local zone of the process; the
    zone is taken to be UTC. *)
Record row := Row { DateTime : DateTime.t; Close_Price : Float.t }.

Abbreviation DataFrame := (list row).

Definition TIME_RANGE_TO_FETCH : string := "1D".
Definition METRIC_ID_FOR_DYNAMODB : string := "CNBC_US10YTIP_Close".
Definition UNIT_FOR_METRIC : string := "%".

Definition process_bar (bar : json) : result (option row) :=
  try_except
    (timestamp_val ← Json.get bar "tradeTimeinMills";
     if Json.is_none timestamp_val then Ok None
     else
       timestamp_ms ← Json.int timestamp_val;
       seconds ← of_option OverflowError (Float.int_truediv timestamp_ms 1000);
       dt_object ← DateTime.fromtimestamp seconds;
       close ← Json.get_default bar "close" (JStr "0");
       try_except
         (close_price ←
            match Json.str close with
            | Some close_value_str => CNBC.close_value close_value_str
            | None => Raise ValueError
            end;
          Ok (Some (Row dt_object close_price)))
         value_error (Ok None))
    value_or_type_error (Ok None).

Fixpoint process_bars (bars : list json) : result (list row) :=
  match bars with
  | [] => Ok []
  | bar :: rest =>
      r ← process_bar bar;
      rows ← process_bars rest;
      Ok (match r with Some x => x :: rows | None => rows end)
  end.

(** The body of the [try]: the DataFrame, or [None] when the
    [priceBars] are not found. *)
Definition attempt (r : response) : result (option DataFrame) :=
  match r with
  | ConnectionFailed => Raise RequestException
  | BadStatus => Raise HTTPError
  | NotJson => Raise JSONDecodeError
  | Body data =>
      pb ← CNBC.price_bars data;
      match pb with
      | Some price_bars =>
          bars ← Json.iterate price_bars;
          processed_data ← process_bars bars;
          Ok (Some processed_data)
      | None => Ok None
      end
  end.

(** One request; every exception is answered by [None]. *)
Definition fetch_cnbc_data (net : nat -> response) (symbol_to_fetch time_range : string)
  : option DataFrame * list event :=
  (match attempt (net O) with
   | Ok df => df
   | Raise _ => None
   end, [Get symbol_to_fetch time_range]).

Definition row_item (metric_id_to_store unit : string) (r : row) : result (option item) :=
  ts ← CNBC.db_timestamp (DateTime r);
  v ← try_except
        (value ← PyDecimal.Decimal (Float.repr (Close_Price r)); Ok (Some value))
        conversion_error (Ok None);
  Ok (match v with
      | Some value =>
          Some (Item metric_id_to_store ts value
                  (DateTime.strftime_seconds (DateTime r)) (Some unit))
      | None => None
      end).

Fixpoint store_rows (metric_id_to_store unit : string) (rows : list row)
  (count : nat) (tb : table) : result nat * table :=
  match rows with
  | [] => (Ok count, tb)
  | r :: rest =>
      match row_item metric_id_to_store unit r with
      | Raise e => (Raise e, tb)
      | Ok (Some it) => store_rows metric_id_to_store unit rest (S count) (put_item tb it)
      | Ok None => store_rows metric_id_to_store unit rest count tb
      end
  end.

Definition store_yield_data_in_dynamodb (tb : table) (df : option DataFrame)
  (metric_id_to_store unit : string) : result nat * table :=
  match df with
  | None | Some [] => (Ok O, tb)
  | Some rows => store_rows metric_id_to_store unit rows O tb
  end.

Record world := World {
  boto3_ok : bool;
  net : nat -> response;
  table0 : table
}.

(** The table handle is made at import time with no handler around it:
    an exception there ends the process. *)
Definition main (w : world) : exit :=
  if negb (boto3_ok w) then Exit 1 [] (table0 w)
  else
    let '(df_tips_data, evs) := fetch_cnbc_data (net w) "US10YTIP" TIME_RANGE_TO_FETCH in
    match df_tips_data with
    | None | Some [] => Exit 0 evs (table0 w)
    | Some _ =>
        match store_yield_data_in_dynamodb (table0 w) df_tips_data
                METRIC_ID_FOR_DYNAMODB UNIT_FOR_METRIC with
        | (Ok items_written, tb) => Exit 0 (evs ++ [BatchWrite items_written]) tb
        | (Raise _, tb) => Exit 1 evs tb
        end
    end.

End History.

(* ===================================================================== *)
(** * CMESOFR.py *)
(* ===================================================================== *)

Module CMESOFR.

(** A pandas [Timestamp]: its instant in microseconds since the epoch and
    the offset of its zone. *)
Record Timestamp := Stamp { instant : Z; utcoffset : Z }.

(** A row of the DataFrame.  [D] is the type of the [Date] column: the
    label as found in the payload, then what [pd.to_datetime] makes of
    it ([None] is [NaT]).  The four term columns and the overnight
    column hold a float or [None]; the others hold what the payload
    has. *)
Record row (D : Type) := Row {
  Date : D;
  Overnight_SOFR : option Float.t;
  SOFR_1M : option Float.t;
  SOFR_3M : option Float.t;
  SOFR_6M : option Float.t;
  SOFR_1Y : option Float.t;
  Avg_30_Day : json;
  Avg_90_Day : json;
  Avg_180_Day : json;
  SOFR_Index : json
}.

Arguments Row {D}.
Arguments Date {D}.
Arguments Overnight_SOFR {D}.
Arguments SOFR_1M {D}.
Arguments SOFR_3M {D}.
Arguments SOFR_6M {D}.
Arguments SOFR_1Y {D}.
Arguments Avg_30_Day {D}.
Arguments Avg_90_Day {D}.
Arguments Avg_180_Day {D}.
Arguments SOFR_Index {D}.

Abbreviation DataFrame := (list (row (option Timestamp))).

(** What the script asks of pandas: [pd.to_datetime] turns the column
    of date labels into timestamps, one per label, or raises. *)
Class Pandas := {
  to_datetime : list json -> result (list (option Timestamp));
  to_datetime_length : forall l r, to_datetime l = Ok r -> length r = length l
}.

(** What the browser session comes to: the driver cannot be set up, the
    page does not load in time, or the text of the page is there, JSON
    or not. *)
Inductive page :=
| NoDriver
| NoPage
| PageText (data : option json).

(** The overnight rate: the text of the field, [N/A] when the field is
    missing; one of the four sentinels in any letter case is no rate, and
    so is a text that [float] rejects. *)
Definition overnight_rate (day_data : list (string * json)) : option Float.t :=
  match Json.str (default (JStr "N/A") (Json.lookup "overnight" day_data)) with
  | Some overnight_rate_str =>
      let l := Text.lower overnight_rate_str in
      if String.eqb l "-" || String.eqb l "n/a" || String.eqb l "none" || String.eqb l ""
      then None
      else Float.of_string overnight_rate_str
  | None => None
  end.

(** ['sofrRatesFixing' in rates] followed by [rates['sofrRatesFixing']]:
    membership is defined on dicts, lists and strings, subscription by
    a string on dicts only. *)
Definition rates_fixing (rates : json) : result (option json) :=
  match rates with
  | JObj kv => Ok (Json.lookup "sofrRatesFixing" kv)
  | JArr l =>
      if existsb (fun j => match j with JStr s => String.eqb s "sofrRatesFixing" | _ => false end) l
      then Raise TypeError else Ok None
  | JStr s => if Text.contains s "sofrRatesFixing" then Raise TypeError else Ok None
  | _ => Raise TypeError
  end.

(** [rates_by_term[term].append(rate_info_item)]. *)
Fixpoint append_rate (term : string) (rate_info_item : json)
  (rates_by_term : list (string * list json)) : list (string * list json) :=
  match rates_by_term with
  | [] => [(term, [rate_info_item])]
  | (t, l) :: r =>
      if String.eqb t term then (t, (l ++ [rate_info_item])%list) :: r
      else (t, l) :: append_rate term rate_info_item r
  end.

(** The first loop over the fixings: they are grouped by [term].  A
    term that is a list or a dict cannot be a key; a term that is not a
    string is never one of the four expected terms and is left out. *)
Fixpoint group_by_term (items : list json) (rates_by_term : list (string * list json))
  : result (list (string * list json)) :=
  match items with
  | [] => Ok rates_by_term
  | rate_info_item :: rest =>
      term ← Json.get rate_info_item "term";
      if Json.truthy term then
        match term with
        | JStr t => group_by_term rest (append_rate t rate_info_item rates_by_term)
        | JArr _ | JObj _ => Raise TypeError
        | _ => group_by_term rest rates_by_term
        end
      else group_by_term rest rates_by_term
  end.

(** [r.get('timestamp', '')]. *)
Definition timestamp_of (r : json) : result json :=
  Json.get_default r "timestamp" (JStr "").

(** [r.get('timestamp', '').startswith(date_str)]: the timestamp must
    be a string, and so must the date. *)
Definition on_date (date_str : json) (r : json) : result bool :=
  ts ← timestamp_of r;
  match ts with
  | JStr t =>
      match date_str with
      | JStr d => Ok (Text.startswith t d)
      | _ => Raise TypeError
      end
  | _ => Raise AttributeError
  end.

(** ['T10:00' in r.get('timestamp', '')], on rates that passed
    [on_date]. *)
Definition at_ten (r : json) : bool :=
  match timestamp_of r with
  | Ok (JStr t) => Text.contains t "T10:00"
  | _ => false
  end.

Fixpoint filter_result {A} (f : A -> result bool) (l : list A) : result (list A) :=
  match l with
  | [] => Ok []
  | x :: r =>
      b ← f x;
      kept ← filter_result f r;
      Ok (if b : bool then x :: kept else kept)
  end.

(** The rate chosen among the rates of one term. *)
Definition selected_rate_info (date_str : json) (L_rates_info : list json) : result json :=
  match L_rates_info with
  | [r] => Ok r
  | _ =>
      on_date_rates ← filter_result (on_date date_str) L_rates_info;
      match on_date_rates with
      | _ :: _ =>
          let t10_rates := List.filter at_ten on_date_rates in
          match t10_rates with
          | r :: _ => Ok r
          | [] => of_option IndexError (head on_date_rates)
          end
      | [] => of_option IndexError (head L_rates_info)
      end
  end.

(** [float(selected_rate_info['price'])] under its handler: [None] when
    there is no price or it does not convert. *)
Definition price_of (selected : json) : result (option Float.t) :=
  match selected with
  | JObj kv =>
      match Json.lookup "price" kv with
      | Some price =>
          if Json.truthy selected then
            try_except (f ← Json.float price; Ok (Some f)) value_or_type_error (Ok None)
          else Ok None
      | None => Ok None
      end
  | _ => Raise AttributeError
  end.

Definition expected_term (t : string) : bool :=
  String.eqb t "1M" || String.eqb t "3M" || String.eqb t "6M" || String.eqb t "1Y".

(** The second loop: [term_rates] maps a term to its rate.  A term
    that is not expected is skipped; a price that does not convert
    leaves the entry as it was. *)
Fixpoint fill_term_rates (date_str : json) (rates_by_term : list (string * list json))
  (term_rates : gmap string Float.t) : result (gmap string Float.t) :=
  match rates_by_term with
  | [] => Ok term_rates
  | (term_key, L_rates_info) :: rest =>
      if negb (expected_term term_key) then fill_term_rates date_str rest term_rates
      else
        selected ← selected_rate_info date_str L_rates_info;
        p ← price_of selected;
        fill_term_rates date_str rest
          (match p with
           | Some f => <[term_key := f]> term_rates
           | None => term_rates
           end)
  end.

(** The term rates of a day. *)
Definition term_rates (date_str : json) (day_data : list (string * json))
  : result (gmap string Float.t) :=
  match Json.lookup "rates" day_data with
  | Some rates =>
      fixing ← rates_fixing rates;
      match fixing with
      | Some f =>
          items ← Json.iterate f;
          rates_by_term ← group_by_term items [];
          fill_term_rates date_str rates_by_term ∅
      | None => Ok ∅
      end
  | None => Ok ∅
  end.

(** The body of the loop over the days. *)
Definition process_day (day : json) : result (row json) :=
  match day with
  | JObj day_data =>
      let date_str := default JNull (Json.lookup "date" day_data) in
      tr ← term_rates date_str day_data;
      Ok (Row date_str (overnight_rate day_data)
            (tr !! "1M") (tr !! "3M") (tr !! "6M") (tr !! "1Y")
            (default JNull (Json.lookup "average30day" day_data))
            (default JNull (Json.lookup "average90day" day_data))
            (default JNull (Json.lookup "average180day" day_data))
            (default JNull (Json.lookup "index" day_data)))
  | _ => Raise AttributeError
  end.

Fixpoint process_days (days : list json) : result (list (row json)) :=
  match days with
  | [] => Ok []
  | d :: rest =>
      r ← process_day d;
      rows ← process_days rest;
      Ok (r :: rows)
  end.

Definition with_date (r : row json) (d : option Timestamp) : row (option Timestamp) :=
  Row d (Overnight_SOFR r) (SOFR_1M r) (SOFR_3M r) (SOFR_6M r) (SOFR_1Y r)
    (Avg_30_Day r) (Avg_90_Day r) (Avg_180_Day r) (SOFR_Index r).

Fixpoint zip_dates (rows : list (row json)) (dates : list (option Timestamp)) : DataFrame :=
  match rows, dates with
  | r :: rows', d :: dates' => with_date r d :: zip_dates rows' dates'
  | _, _ => []
  end.

Section Script.

Context `{Pandas}.

(** What follows [json.loads]: only the first five days are visited. *)
Definition parse_strips (data : json) : result DataFrame :=
  match data with
  | JObj kv =>
      match Json.lookup "resultsStrip" kv with
      | Some daily_strips =>
          days ← Json.iterate daily_strips;
          processed_data ← process_days (take 5 days);
          match processed_data with
          | [] => Ok []
          | _ =>
              dates ← to_datetime (map Date processed_data);
              Ok (zip_dates processed_data dates)
          end
      | None => Ok []
      end
  | _ => Ok []
  end.

(** [fetch_sofr_strip_rates_with_selenium()]: every exception is
    answered by an empty DataFrame. *)
Definition fetch_sofr_strip_rates_with_selenium (browser : page) : DataFrame * list event :=
  match browser with
  | NoDriver => ([], [])
  | NoPage => ([], [BrowserGet])
  | PageText None => ([], [BrowserGet])
  | PageText (Some data) =>
      (match parse_strips data with
       | Ok df => df
       | Raise _ => []
       end, [BrowserGet])
  end.

End Script.

(** [convert_date_to_utc_timestamp_ms(date_obj)]. *)
Definition convert_date_to_utc_timestamp_ms (date_obj : option Timestamp) : result (option Z) :=
  match date_obj with
  | None => Ok None
  | Some ts => z ← CNBC.db_timestamp (instant ts); Ok (Some z)
  end.

(** The columns that become metrics, in the order of [metric_mapping]:
    the cell of the column, the metric and its unit. *)
Definition cell_of_float (c : option Float.t) : json :=
  match c with
  | Some f => JFloat f
  | None => JNull
  end.

Definition metric_mapping (r : row (option Timestamp)) : list (json * string * option string) :=
  [ (cell_of_float (Overnight_SOFR r), "SOFR_Overnight", Some "%");
    (cell_of_float (SOFR_1M r), "SOFR_1M_Term", Some "%");
    (cell_of_float (SOFR_3M r), "SOFR_3M_Term", Some "%");
    (cell_of_float (SOFR_6M r), "SOFR_6M_Term", Some "%");
    (cell_of_float (SOFR_1Y r), "SOFR_1Y_Term", Some "%");
    (Avg_30_Day r, "SOFR_30D_Avg", Some "%");
    (Avg_90_Day r, "SOFR_90D_Avg", Some "%");
    (Avg_180_Day r, "SOFR_180D_Avg", Some "%");
    (SOFR_Index r, "SOFR_Index", None) ].

(** [not pd.isna(cell)]: on a list the answer is an array, whose truth
    value is an error when it has more than one element. *)
Definition not_na (cell : json) : result bool :=
  match cell with
  | JNull => Ok false
  | JFloat f => Ok (negb (Float.is_nan f))
  | JArr (_ :: _ :: _) => Raise ValueError
  | _ => Ok true
  end.

(** The value of a cell as a decimal; [None] is [continue]. *)
Definition cell_value (cell : json) : result (option PyDecimal.t) :=
  present ← not_na cell;
  if present : bool then
    try_except
      (value ←
         match Json.str cell with
         | Some value_str => PyDecimal.Decimal value_str
         | None => Raise InvalidOperation
         end;
       Ok (Some value))
      conversion_error (Ok None)
  else Ok None.

(** The inner loop over the columns of one row. *)
Fixpoint store_cells (db_timestamp : Z) (source_date_str : string)
  (cells : list (json * string * option string)) (count : nat) (tb : table)
  : result nat * table :=
  match cells with
  | [] => (Ok count, tb)
  | (cell, metric, u) :: rest =>
      match cell_value cell with
      | Raise e => (Raise e, tb)
      | Ok (Some value) =>
          store_cells db_timestamp source_date_str rest (S count)
            (put_item tb (Item metric db_timestamp value source_date_str u))
      | Ok None => store_cells db_timestamp source_date_str rest count tb
      end
  end.

(** The loop over the rows. *)
Fixpoint store_rows (rows : DataFrame) (count : nat) (tb : table) : result nat * table :=
  match rows with
  | [] => (Ok count, tb)
  | r :: rest =>
      match convert_date_to_utc_timestamp_ms (Date r) with
      | Raise e => (Raise e, tb)
      | Ok None => store_rows rest count tb
      | Ok (Some db_timestamp) =>
          let source_date_str :=
            match Date r with
            | Some ts => DateTime.strftime_date (instant ts + utcoffset ts)
            | None => ""
            end in
          match store_cells db_timestamp source_date_str (metric_mapping r) count tb with
          | (Ok count', tb') => store_rows rest count' tb'
          | (Raise e, tb') => (Raise e, tb')
          end
      end
  end.

(** [store_sofr_data_in_dynamodb(df)]; [handle] tells whether the
    global [table] is set. *)
Definition store_sofr_data_in_dynamodb (handle : bool) (tb : table) (df : DataFrame)
  : result nat * table :=
  match df with
  | [] => (Ok O, tb)
  | _ => if handle then store_rows df O tb else (Ok O, tb)
  end.

Record world := World {
  boto3_ok : bool;
  browser : page;
  table0 : table
}.

Section Program.

Context `{Pandas}.

(** Module initialisation, then the [__main__] block.  When the table
    handle cannot be made the handler prints and sets [table = None];
    the run goes on, and the storing is skipped. *)
Definition main (w : world) : exit :=
  let '(sofr_data_selenium_df, evs) := fetch_sofr_strip_rates_with_selenium (browser w) in
  match sofr_data_selenium_df with
  | [] => Exit 0 evs (table0 w)
  | _ =>
      if boto3_ok w then
        match store_sofr_data_in_dynamodb true (table0 w) sofr_data_selenium_df with
        | (Ok items_written, tb) => Exit 0 (evs ++ [BatchWrite items_written]) tb
        | (Raise _, tb) => Exit 1 evs tb
        end
      else Exit 0 evs (table0 w)
  end.

End Program.

End CMESOFR.

(* ===================================================================== *)
(** * The vocabulary of the statements *)
(* ===================================================================== *)

(** ** The response of CNBC *)

(** The [data.chartData.priceBars] path of a response, followed through
    objects only. *)
Definition price_bars_path (body : json) : option json :=
  match body with
  | JObj kv =>
      match Json.lookup "data" kv with
      | Some (JObj d) =>
          match Json.lookup "chartData" d with
          | Some (JObj c) => Json.lookup "priceBars" c
          | _ => None
          end
      | _ => None
      end
  | _ => None
  end.



(** ** The rates of one term *)

(** The text of the timestamp of a rate, the empty text when the rate
    has none. *)
Definition timestamp_text (r : json) : option string :=
  match CMESOFR.timestamp_of r with
  | Ok (JStr t) => Some t
  | _ => None
  end.

(** A same-day candidate: its timestamp starts with the date label. *)
Definition same_day (date : string) (r : json) : bool :=
  match timestamp_text r with
  | Some t => Text.startswith t date
  | None => false
  end.

(** A candidate of the 10:00 fixing: its timestamp contains [T10:00]. *)
Definition ten_o_clock (r : json) : bool :=
  match timestamp_text r with
  | Some t => Text.contains t "T10:00"
  | None => false
  end.

(** The rule in the words of the specification: among the same-day
    candidates the first of the 10:00 fixing, else the first same-day
    candidate; with no same-day candidate, the first candidate. *)
Definition spec_select (date : string) (candidates : list json) : option json :=
  let same := List.filter (same_day date) candidates in
  match List.find ten_o_clock same with
  | Some r => Some r
  | None =>
      match same with
      | r :: _ => Some r
      | [] => head candidates
      end
  end.

(** ** The overnight field *)

(** Two texts that differ at most in the case of their letters. *)
Fixpoint same_letters (s t : string) : Prop :=
  match s, t with
  | EmptyString, EmptyString => True
  | String a s', String b t' => Text.lower_char a = Text.lower_char b /\ same_letters s' t'
  | _, _ => False
  end.

(** One of the texts [-], [n/a], [none] and the empty text, in any
    letter case. *)
Definition sentinel (s : string) : Prop :=
  same_letters s "-" \/ same_letters s "n/a" \/ same_letters s "none" \/ same_letters s "".

(** ** Day records *)

(** Eight day records. *)
Definition eight_days : list json :=
  [JObj [("date", JStr "2024-01-10"); ("overnight", JStr "5.31")];
   JObj [("date", JStr "2024-01-09"); ("overnight", JStr "5.32")];
   JObj [("date", JStr "2024-01-08"); ("overnight", JStr "5.33")];
   JObj [("date", JStr "2024-01-05"); ("overnight", JStr "5.34")];
   JObj [("date", JStr "2024-01-04"); ("overnight", JStr "5.35")];
   JObj [("date", JStr "2024-01-03"); ("overnight", JStr "5.36")];
   JObj [("date", JStr "2024-01-02"); ("overnight", JStr "5.37")];
   JObj [("date", JStr "2023-12-29"); ("overnight", JStr "5.38")]].

(** ** The characters and the digits of a number *)



(** The value of a run of digits, read from the left after [acc]. *)
Fixpoint horner (s : string) (acc : Z) : Z :=
  match s with
  | EmptyString => acc
  | String c r => horner r (10 * acc + default 0 (Text.digit_val c))
  end.



(** ** Floats and decimals as real numbers *)

(** The value of a mantissa and a binary exponent, of a coefficient and a
    decimal exponent. *)
Definition F2R (m e : Z) : R := (IZR m * powerRZ 2 e)%R.




(** ** The metrics and the cells of CMESOFR.py *)

(** The metrics of CMESOFR.py, in the order of [metric_mapping]. *)
Definition sofr_metrics : list string :=
  ["SOFR_Overnight"; "SOFR_1M_Term"; "SOFR_3M_Term"; "SOFR_6M_Term"; "SOFR_1Y_Term";
   "SOFR_30D_Avg"; "SOFR_90D_Avg"; "SOFR_180D_Avg"; "SOFR_Index"].

(** The unit of a metric of CMESOFR.py: the index has none. *)
Definition sofr_unit (metric : string) : option string :=
  if String.eqb metric "SOFR_Index" then None else Some "%".




(** ** The fixings of a day *)

(** The rate carries the term [t]. *)
Definition has_term (t : string) (r : json) : bool :=
  match r with
  | JObj kv =>
      match Json.lookup "term" kv with
      | Some (JStr t') => String.eqb t' t
      | _ => false
      end
  | _ => false
  end.

(** The rates grouped under the term [t]. *)
Fixpoint rates_of (t : string) (rates_by_term : list (string * list json)) : list json :=
  match rates_by_term with
  | [] => []
  | (t', l) :: r => if String.eqb t' t then l else rates_of t r
  end.

(** The rate [v] of the term [t] of a day: none when no fixing carries
    the term, else the price of the fixing selected among those that carry
    it. *)
Definition term_rate_is (date : json) (items : list json) (t : string)
  (v : option Float.t) : Prop :=
  match List.filter (has_term t) items with
  | [] => v = None
  | L => exists sel, CMESOFR.selected_rate_info date L = Ok sel /\ CMESOFR.price_of sel = Ok v
  end.

(** Four fixings of a day: two of one month, one of three months and one
    of a term that is not expected. *)
Definition four_fixings : list json :=
  [JObj [("term", JStr "1M"); ("price", JStr "5.34"); ("timestamp", JStr "2024-01-02T14:00:00Z")];
   JObj [("term", JStr "3M"); ("price", JStr "5.36"); ("timestamp", JStr "2024-01-02T10:00:00Z")];
   JObj [("term", JStr "2Y"); ("price", JStr "4.90"); ("timestamp", JStr "2024-01-02T10:00:00Z")];
   JObj [("term", JStr "1M"); ("price", JStr "5.33"); ("timestamp", JStr "2024-01-02T10:00:00Z")]].

(* ===================================================================== *)
(** * Instances of the pandas interfaces *)
(* ===================================================================== *)

#[global] Instance by_DateTime_dec (a b : CNBC.row) : Decision (CNBC.by_DateTime a b).
Proof. unfold CNBC.by_DateTime. apply _. Defined.

#[global] Instance by_DateTime_total : Total CNBC.by_DateTime.
Proof. intros a b. unfold CNBC.by_DateTime. lia. Qed.

(** A pandas whose sort is a merge sort. *)
Definition merge_pandas (has_is_finite : bool) : CNBC.Pandas :=
  {| CNBC.sort_values := merge_sort CNBC.by_DateTime;
     CNBC.sort_values_perm := merge_sort_Permutation CNBC.by_DateTime;
     CNBC.sort_values_sorted := Sorted_merge_sort CNBC.by_DateTime;
     CNBC.has_is_finite := has_is_finite |}.

Module IsoDate.

(** Days since 1970-01-01 of a civil date. *)
Definition days_from_civil (y m d : Z) : Z :=
  let y := if m <=? 2 then y - 1 else y in
  let era := y / 400 in
  let yoe := y - era * 400 in
  let doy := (153 * (if 2 <? m then m - 3 else m + 9) + 2) / 5 + d - 1 in
  let doe := yoe * 365 + yoe / 4 - yoe / 100 + doy in
  era * 146097 + doe - 719468.

Definition number (s : string) : option Z :=
  match Literal.digits s 0 0 with
  | (v, n, EmptyString) => if n =? Z.of_nat (String.length s) then Some v else None
  | _ => None
  end.

(** A label [YYYY-MM-DD] read as midnight UTC of that day. *)
Definition parse (s : string) : option CMESOFR.Timestamp :=
  if (String.length s =? 10)%nat
     && String.eqb (Text.take 1 (Text.drop 4 s)) "-"
     && String.eqb (Text.take 1 (Text.drop 7 s)) "-" then
    match number (Text.take 4 s), number (Text.take 2 (Text.drop 5 s)),
          number (Text.drop 8 s) with
    | Some y, Some m, Some d =>
        let days := days_from_civil y m d in
        let '(y', m', d') := DateTime.civil_of_days days in
        if (1 <=? y) && (y' =? y) && (m' =? m) && (d' =? d)
        then Some (CMESOFR.Stamp (days * 86400000000) 0) else None
    | _, _, _ => None
    end
  else None.

End IsoDate.

Fixpoint iso_dates (labels : list json) : result (list (option CMESOFR.Timestamp)) :=
  match labels with
  | [] => Ok []
  | l :: rest =>
      d ← match l with
          | JNull => Ok None
          | JStr s => of_option ValueError (option_map Some (IsoDate.parse s))
          | _ => Raise TypeError
          end;
      ds ← iso_dates rest;
      Ok (d :: ds)
  end.

Lemma iso_dates_length l r : iso_dates l = Ok r -> length r = length l.
Proof.
  revert r. induction l as [|x l IH]; intros r; simpl.
  - intros [= <-]. reflexivity.
  - destruct (match x with JNull => _ | _ => _ end) as [d|e]; simpl; [|discriminate].
    destruct (iso_dates l) as [ds|e]; simpl; [|discriminate].
    intros [= <-]. simpl. f_equal. apply IH. reflexivity.
Qed.

(** A pandas that reads ISO calendar dates. *)
Definition iso_pandas : CMESOFR.Pandas :=
  {| CMESOFR.to_datetime := iso_dates;
     CMESOFR.to_datetime_length := iso_dates_length |}.

(* ===================================================================== *)
(** * The table: last write wins *)
(* ===================================================================== *)

Section Table.

Implicit Types (tb : table) (it : item) (its : list item) (k : string * Z).






End Table.

(* ===================================================================== *)
(** * The store functions put a batch that does not depend on the table *)
(* ===================================================================== *)







(* ===================================================================== *)
(** * The retry loop of CNBC.py *)
(* ===================================================================== *)

Section Retry.

Context `{CNBC.Pandas}.

Variables (net : nat -> response) (symbol time_range : string).

Let get := Get symbol time_range.

(** The loop unrolled on the three attempts. *)
Lemma fetch_cnbc_data_unfold :
  CNBC.fetch_cnbc_data net symbol time_range =
  match CNBC.attempt (net 0%nat) with
  | Ok df => (df, [get])
  | Raise _ =>
      match CNBC.attempt (net 1%nat) with
      | Ok df => (df, [get; Sleep 5; get])
      | Raise _ =>
          match CNBC.attempt (net 2%nat) with
          | Ok df => (df, [get; Sleep 5; get; Sleep 5; get])
          | Raise _ => ([], [get; Sleep 5; get; Sleep 5; get])
          end
      end
  end.
Proof.
  unfold CNBC.fetch_cnbc_data, CNBC.max_retries. cbn [CNBC.attempts].
  destruct (CNBC.attempt (net 0%nat)); [reflexivity|].
  cbn [Nat.add Nat.eqb CNBC.max_retries].
  destruct (CNBC.attempt (net 1%nat)); [reflexivity|].
  destruct (CNBC.attempt (net 2%nat)); reflexivity.
Qed.



End Retry.




(* ===================================================================== *)
(** * The order of the rows handed to the Store Writer *)
(* ===================================================================== *)

Lemma CNBC_attempt_sorted `{CNBC.Pandas} r df :
  CNBC.attempt r = Ok df -> Sorted CNBC.by_DateTime df.
Proof.
  destruct r as [| | |data]; simpl; try discriminate.
  destruct (CNBC.price_bars data) as [[pb|]|e]; simpl; try discriminate.
  - destruct (Json.iterate pb) as [bars|e]; simpl; [|discriminate].
    destruct (CNBC.process_bars bars) as [[|r rows]|e]; simpl; [| |discriminate].
    + intros [= <-]. constructor.
    + intros [= <-]. apply CNBC.sort_values_sorted.
  - intros [= <-]. constructor.
Qed.

(** C5 (as amended). In CNBC.py the rows that [fetch_cnbc_data] returns,
    which are the rows handed to [store_data_in_dynamodb], are in
    ascending order of [DateTime], and they are the rows made from the
    bars, rearranged.  Nothing is said on the order of two rows with the
    same [DateTime]. *)
Theorem C5_rows_sorted_by_timestamp `{CNBC.Pandas} :
  (forall net symbol time_range,
     Sorted CNBC.by_DateTime (fst (CNBC.fetch_cnbc_data net symbol time_range))) /\
  (forall data price_bars bars rows,
     CNBC.price_bars data = Ok (Some price_bars) ->
     Json.iterate price_bars = Ok bars ->
     CNBC.process_bars bars = Ok rows ->
     exists df, CNBC.attempt (Body data) = Ok df /\ Permutation df rows).
Proof.
  split.
  - intros net symbol time_range. rewrite fetch_cnbc_data_unfold.
    destruct (CNBC.attempt (net 0%nat)) eqn:H0; [eapply CNBC_attempt_sorted; eauto|].
    destruct (CNBC.attempt (net 1%nat)) eqn:H1; [eapply CNBC_attempt_sorted; eauto|].
    destruct (CNBC.attempt (net 2%nat)) eqn:H2; [eapply CNBC_attempt_sorted; eauto|].
    constructor.
  - intros data pb bars rows Hpb Hit Hrows. simpl. rewrite Hpb. simpl.
    rewrite Hit. simpl. rewrite Hrows. simpl.
    destruct rows as [|r rows].
    + exists []. split; reflexivity.
    + eexists. split; [reflexivity|]. apply CNBC.sort_values_perm.
Qed.

(** Two bars out of order, as CNBC.py sorts them. *)
Lemma C5_rows_sorted_by_timestamp_witness :
  exists df,
    @CNBC.attempt (merge_pandas true)
      (Body (JObj [("data", JObj [("chartData", JObj [("priceBars",
         JArr [JObj [("tradeTimeinMills", JStr "1704189660000"); ("close", JStr "1.72")];
               JObj [("tradeTimeinMills", JStr "1704189600000"); ("close", JStr "1.71")]])])])]))
    = Ok df /\
    Permutation df
      [CNBC.Row 1704189660000000 (S754_finite false 7746191359077253 (-52));
       CNBC.Row 1704189600000000 (S754_finite false 7701155362803548 (-52))].
Proof.
  eapply (proj2 (@C5_rows_sorted_by_timestamp (merge_pandas true))).
  - reflexivity.
  - reflexivity.
  - vm_compute. reflexivity.
Defined.

(** C5, where the claim fails.  CNBC_US10YTIP_History.py returns the
    rows in the order of the bars: two bars out of order stay out of
    order. *)
Lemma C5_history_rows_not_sorted :
  exists df,
    fst (History.fetch_cnbc_data
           (fun _ => Body (JObj [("data", JObj [("chartData", JObj [("priceBars",
              JArr [JObj [("tradeTimeinMills", JStr "1704189660000"); ("close", JStr "1.72")];
                    JObj [("tradeTimeinMills", JStr "1704189600000"); ("close", JStr "1.71")]])])])]))
           "US10YTIP" "1D") = Some df /\
    map History.DateTime df = [1704189660000000; 1704189600000000] /\
    ~ Sorted Z.le (map History.DateTime df).
Proof.
  eexists. split; [vm_compute; reflexivity|]. split; [reflexivity|].
  simpl. intros Hs. inversion Hs as [|? ? _ Hd]; subst. inversion Hd; subst. lia.
Qed.

(** The contract of [sort_values] does not fix the order of equal keys:
    with the merge sort, the two bars of the same time below come out in
    the order opposite to the payload's. *)
Remark sort_values_ties_not_in_source_order :
  fst (@CNBC.fetch_cnbc_data (merge_pandas true)
         (fun _ => Body (JObj [("data", JObj [("chartData", JObj [("priceBars",
            JArr [JObj [("tradeTimeinMills", JStr "1704189600000"); ("close", JStr "1.70")];
                  JObj [("tradeTimeinMills", JStr "1704189660000"); ("close", JStr "1.71")];
                  JObj [("tradeTimeinMills", JStr "1704189660000"); ("close", JStr "1.72")]])])])]))
         "US10YTIP" "1D")
  = [CNBC.Row 1704189600000000 (S754_finite false 7656119366529843 (-52));
     CNBC.Row 1704189660000000 (S754_finite false 7746191359077253 (-52));
     CNBC.Row 1704189660000000 (S754_finite false 7701155362803548 (-52))].
Proof. vm_compute. reflexivity. Qed.

(* ===================================================================== *)
(** * How the three processes end *)
(* ===================================================================== *)




(* ===================================================================== *)
(** * The choice among the rates of one term *)
(* ===================================================================== *)

Lemma filter_result_on_date date L :
  Forall (fun r => exists t, timestamp_text r = Some t) L ->
  CMESOFR.filter_result (CMESOFR.on_date (JStr date)) L = Ok (List.filter (same_day date) L).
Proof.
  induction 1 as [|r L [t Ht] _ IH]; [reflexivity|].
  simpl. rewrite IH. unfold same_day. rewrite Ht.
  unfold timestamp_text in Ht. unfold CMESOFR.on_date.
  destruct (CMESOFR.timestamp_of r) as [[| | | |t'| |]|e]; try discriminate.
  injection Ht as ->. simpl. destruct (Text.startswith t date); reflexivity.
Qed.

Lemma at_ten_ten_o_clock r : CMESOFR.at_ten r = ten_o_clock r.
Proof.
  unfold CMESOFR.at_ten, ten_o_clock, timestamp_text.
  destruct (CMESOFR.timestamp_of r) as [[| | | |t| |]|e]; reflexivity.
Qed.

Lemma filter_head_find {A} (f : A -> bool) (l : list A) :
  head (List.filter f l) = List.find f l.
Proof.
  induction l as [|x l IH]; [reflexivity|]. simpl. destruct (f x); [reflexivity|exact IH].
Qed.

Lemma filter_ext_at_ten l : List.filter CMESOFR.at_ten l = List.filter ten_o_clock l.
Proof. apply List.filter_ext. intros r. apply at_ten_ten_o_clock. Qed.

(** C3. For a day whose date label is the text [date] and a term with
    more than one candidate, each with a text (or no) timestamp, the
    Normalizer selects one candidate, and it is the one the rule names:
    among the candidates whose timestamp starts with [date], the first
    whose timestamp contains [T10:00], else the first of them; when no
    timestamp starts with [date], the first candidate of all.  In
    particular, of the candidates of 10:00 and of 14:00 on 2024-01-02 for
    the term 1M, in either order, the 10:00 one is selected and its price
    becomes the day's 1M rate. *)
Theorem C3_term_selection :
  (forall (date : string) (L : list json),
     (1 < length L)%nat ->
     Forall (fun r => exists t, timestamp_text r = Some t) L ->
     exists r, CMESOFR.selected_rate_info (JStr date) L = Ok r /\
               spec_select date L = Some r /\ r ∈ L) /\
  (let ten := JObj [("term", JStr "1M"); ("price", JStr "5.33");
                    ("timestamp", JStr "2024-01-02T10:00:00Z")] in
   let two := JObj [("term", JStr "1M"); ("price", JStr "5.34");
                    ("timestamp", JStr "2024-01-02T14:00:00Z")] in
   CMESOFR.selected_rate_info (JStr "2024-01-02") [ten; two] = Ok ten /\
   CMESOFR.selected_rate_info (JStr "2024-01-02") [two; ten] = Ok ten /\
   (forall rates, rates = [ten; two] \/ rates = [two; ten] ->
      option_map CMESOFR.SOFR_1M
        (match CMESOFR.process_day
                 (JObj [("date", JStr "2024-01-02");
                        ("rates", JObj [("sofrRatesFixing", JArr rates)])]) with
         | Ok row => Some row
         | Raise _ => None
         end)
      = Some (Float.of_string "5.33"))).
Proof.
  split.
  - intros date L Hlen Hts.
    assert (Hsel : CMESOFR.selected_rate_info (JStr date) L
                   = of_option IndexError (spec_select date L)).
    { assert (Hmany : CMESOFR.selected_rate_info (JStr date) L
                      = on_date_rates ← CMESOFR.filter_result (CMESOFR.on_date (JStr date)) L;
                        match on_date_rates with
                        | _ :: _ =>
                            match List.filter CMESOFR.at_ten on_date_rates with
                            | r :: _ => Ok r
                            | [] => of_option IndexError (head on_date_rates)
                            end
                        | [] => of_option IndexError (head L)
                        end).
      { destruct L as [|a [|b L]]; [reflexivity|simpl in Hlen; lia|reflexivity]. }
      rewrite Hmany, (filter_result_on_date date _ Hts). unfold spec_select.
      unfold mbind, result_bind.
      destruct (List.filter (same_day date) L) as [|s same] eqn:Hsame.
      - reflexivity.
      - rewrite filter_ext_at_ten.
        rewrite <- (filter_head_find ten_o_clock (s :: same)).
        destruct (List.filter ten_o_clock (s :: same)); reflexivity. }
    rewrite Hsel.
    assert (Hin : exists r, spec_select date L = Some r /\ r ∈ L).
    { unfold spec_select.
      destruct (List.find ten_o_clock (List.filter (same_day date) L)) as [r|] eqn:Hf.
      - exists r. split; [reflexivity|].
        apply List.find_some in Hf as [Hin _].
        apply List.filter_In in Hin as [Hin _]. apply list_elem_of_In. exact Hin.
      - destruct (List.filter (same_day date) L) as [|s same] eqn:Hsame.
        + destruct L as [|a L]; [simpl in Hlen; lia|]. exists a. split; [reflexivity|left].
        + exists s. split; [reflexivity|].
          assert (Hin : List.In s (List.filter (same_day date) L)) by (rewrite Hsame; left; reflexivity).
          apply List.filter_In in Hin as [Hin _]. apply list_elem_of_In. exact Hin. }
    destruct Hin as (r & Hr & Hin). exists r. rewrite Hr. auto.
  - intros ten two. split; [reflexivity|]. split; [reflexivity|].
    intros rates [-> | ->]; vm_compute; reflexivity.
Qed.

(** Three candidates for 3M on 2024-01-02, none at 10:00: the first
    same-day candidate is selected. *)
Lemma C3_term_selection_witness :
  exists r,
    CMESOFR.selected_rate_info (JStr "2024-01-02")
      [JObj [("term", JStr "3M"); ("price", JStr "5.36"); ("timestamp", JStr "2024-01-01T10:00:00Z")];
       JObj [("term", JStr "3M"); ("price", JStr "5.37"); ("timestamp", JStr "2024-01-02T11:00:00Z")];
       JObj [("term", JStr "3M"); ("price", JStr "5.38"); ("timestamp", JStr "2024-01-02T16:00:00Z")]]
    = Ok r /\
    spec_select "2024-01-02"
      [JObj [("term", JStr "3M"); ("price", JStr "5.36"); ("timestamp", JStr "2024-01-01T10:00:00Z")];
       JObj [("term", JStr "3M"); ("price", JStr "5.37"); ("timestamp", JStr "2024-01-02T11:00:00Z")];
       JObj [("term", JStr "3M"); ("price", JStr "5.38"); ("timestamp", JStr "2024-01-02T16:00:00Z")]]
    = Some r /\
    r ∈ [JObj [("term", JStr "3M"); ("price", JStr "5.36"); ("timestamp", JStr "2024-01-01T10:00:00Z")];
         JObj [("term", JStr "3M"); ("price", JStr "5.37"); ("timestamp", JStr "2024-01-02T11:00:00Z")];
         JObj [("term", JStr "3M"); ("price", JStr "5.38"); ("timestamp", JStr "2024-01-02T16:00:00Z")]].
Proof.
  apply (proj1 C3_term_selection).
  - simpl. lia.
  - repeat constructor; eexists; reflexivity.
Defined.

(* ===================================================================== *)
(** * The overnight sentinels *)
(* ===================================================================== *)

Lemma same_letters_lower s t : same_letters s t -> Text.lower s = Text.lower t.
Proof.
  revert t. induction s as [|a s IH]; intros [|b t]; simpl; try tauto.
  intros [Hab Hst]. rewrite Hab, (IH t Hst). reflexivity.
Qed.

Lemma sentinel_overnight_rate day_data ov s :
  Json.lookup "overnight" day_data = Some ov ->
  Json.str ov = Some s ->
  sentinel s ->
  CMESOFR.overnight_rate day_data = None.
Proof.
  intros Hov Hs Hsent. unfold CMESOFR.overnight_rate. rewrite Hov. simpl. rewrite Hs.
  destruct Hsent as [H | [H | [H | H]]]; apply same_letters_lower in H; rewrite H; reflexivity.
Qed.

(** Storing the cells of a row leaves alone the keys of a metric that no
    cell with a value carries. *)
Lemma store_cells_other_metric metric z ts sd cells c tb :
  Forall (fun cmu => snd (fst cmu) = metric -> CMESOFR.cell_value (fst (fst cmu)) = Ok None)
    cells ->
  snd (CMESOFR.store_cells ts sd cells c tb) !! (metric, z) = tb !! (metric, z).
Proof.
  intros Hcells. revert c tb.
  induction Hcells as [|[[cell m] u] cells Hc _ IH]; intros c tb; [reflexivity|].
  simpl in Hc. simpl.
  destruct (CMESOFR.cell_value cell) as [[v|]|e] eqn:Hv; [|apply IH|reflexivity].
  rewrite IH. unfold put_item, key. simpl. apply lookup_insert_ne.
  intros Heq. injection Heq as Hm _. specialize (Hc Hm). discriminate.
Qed.

(** C7. For a day record whose overnight field reads, as text, one of
    [-], [n/a], [none] or the empty text in any letter case, the
    overnight rate is absent (it is not zero): the row made from the day
    has no overnight value, and storing that row, whatever its date
    becomes, puts no item under the metric SOFR_Overnight. *)
Theorem C7_overnight_sentinels (day_data : list (string * json)) (overnight : json) (s : string) :
  Json.lookup "overnight" day_data = Some overnight ->
  Json.str overnight = Some s ->
  sentinel s ->
  CMESOFR.overnight_rate day_data = None /\
  (forall row, CMESOFR.process_day (JObj day_data) = Ok row ->
     CMESOFR.Overnight_SOFR row = None /\
     forall date db_timestamp source_date_str count tb z,
       snd (CMESOFR.store_cells db_timestamp source_date_str
              (CMESOFR.metric_mapping (CMESOFR.with_date row date)) count tb)
         !! ("SOFR_Overnight", z)
       = tb !! ("SOFR_Overnight", z)).
Proof.
  intros Hov Hs Hsent.
  pose proof (sentinel_overnight_rate _ _ _ Hov Hs Hsent) as Hnone.
  split; [exact Hnone|].
  intros row Hrow.
  assert (Hcell : CMESOFR.Overnight_SOFR row = None).
  { unfold CMESOFR.process_day in Hrow.
    destruct (CMESOFR.term_rates _ day_data) as [tr|e]; simpl in Hrow; [|discriminate].
    injection Hrow as <-. exact Hnone. }
  split; [exact Hcell|].
  intros date ts sd count tb z. apply store_cells_other_metric.
  unfold CMESOFR.metric_mapping, CMESOFR.with_date. simpl. rewrite Hcell.
  repeat constructor; simpl; try discriminate; try reflexivity.
Qed.

(** The overnight field [N/A]: no rate, no SOFR_Overnight item. *)
Lemma C7_overnight_sentinels_witness :
  CMESOFR.overnight_rate [("date", JStr "2024-01-01"); ("overnight", JStr "N/A")] = None.
Proof.
  apply (C7_overnight_sentinels [("date", JStr "2024-01-01"); ("overnight", JStr "N/A")]
           (JStr "N/A") "N/A").
  - reflexivity.
  - reflexivity.
  - right. left. simpl. auto.
Defined.

(* ===================================================================== *)
(** * Only the first five days *)
(* ===================================================================== *)

Lemma process_days_length days rows :
  CMESOFR.process_days days = Ok rows -> length rows = length days.
Proof.
  revert rows. induction days as [|d days IH]; intros rows; simpl.
  - intros [= <-]. reflexivity.
  - destruct (CMESOFR.process_day d) as [r|e]; simpl; [|discriminate].
    destruct (CMESOFR.process_days days) as [rs|e]; simpl; [|discriminate].
    intros [= <-]. simpl. f_equal. apply IH. reflexivity.
Qed.

Lemma zip_dates_length rows dates :
  length dates = length rows -> length (CMESOFR.zip_dates rows dates) = length rows.
Proof.
  revert dates. induction rows as [|r rows IH]; intros [|d dates]; simpl; try lia.
  intros Hl. f_equal. apply IH. lia.
Qed.

(** C8. Of the day records of a strip-rate payload only the first five
    are normalized: the DataFrame is the one the payload cut to its first
    five day records gives, and when the normalization goes through the
    DataFrame has one row for each of those days and none for the others;
    with eight day records it has five rows. *)
Theorem C8_first_five_days `{CMESOFR.Pandas} (kv : list (string * json))
  (daily_strips : json) (days : list json) :
  Json.lookup "resultsStrip" kv = Some daily_strips ->
  Json.iterate daily_strips = Ok days ->
  CMESOFR.parse_strips (JObj kv)
  = CMESOFR.parse_strips (JObj [("resultsStrip", JArr (take 5 days))]) /\
  (forall rows dates,
     CMESOFR.process_days (take 5 days) = Ok rows ->
     CMESOFR.to_datetime (map CMESOFR.Date rows) = Ok dates ->
     CMESOFR.parse_strips (JObj kv) = Ok (CMESOFR.zip_dates rows dates) /\
     length (CMESOFR.zip_dates rows dates) = Nat.min 5 (length days)) /\
  (forall df, CMESOFR.parse_strips (JObj kv) = Ok df ->
     exists rows dates,
       CMESOFR.process_days (take 5 days) = Ok rows /\
       df = CMESOFR.zip_dates rows dates /\
       length df = Nat.min 5 (length days)) /\
  (forall df, length days = 8%nat -> CMESOFR.parse_strips (JObj kv) = Ok df ->
     length df = 5%nat).
Proof.
  intros Hkv Hdays.
  assert (Hparse : CMESOFR.parse_strips (JObj kv)
                   = processed_data ← CMESOFR.process_days (take 5 days);
                     match processed_data with
                     | [] => Ok []
                     | _ => dates ← CMESOFR.to_datetime (map CMESOFR.Date processed_data);
                            Ok (CMESOFR.zip_dates processed_data dates)
                     end).
  { unfold CMESOFR.parse_strips. rewrite Hkv, Hdays. reflexivity. }
  assert (Hlen : forall rows dates,
             CMESOFR.process_days (take 5 days) = Ok rows ->
             CMESOFR.to_datetime (map CMESOFR.Date rows) = Ok dates ->
             length (CMESOFR.zip_dates rows dates) = Nat.min 5 (length days)).
  { intros rows dates Hrows Hdates.
    rewrite zip_dates_length.
    - rewrite (process_days_length _ _ Hrows), length_take. reflexivity.
    - rewrite (CMESOFR.to_datetime_length _ _ Hdates), length_map. reflexivity. }
  assert (Hdf : forall df, CMESOFR.parse_strips (JObj kv) = Ok df ->
             exists rows dates,
               CMESOFR.process_days (take 5 days) = Ok rows /\
               df = CMESOFR.zip_dates rows dates /\
               length df = Nat.min 5 (length days)).
  { intros df. rewrite Hparse.
    destruct (CMESOFR.process_days (take 5 days)) as [rows|e] eqn:Hrows; simpl; [|discriminate].
    destruct rows as [|r rows].
    - intros [= <-]. exists [], []. split; [reflexivity|]. split; [reflexivity|].
      apply process_days_length in Hrows. rewrite length_take in Hrows. simpl in *. lia.
    - destruct (CMESOFR.to_datetime (map CMESOFR.Date (r :: rows))) as [dates|e] eqn:Hdates;
        simpl; [|discriminate].
      intros [= <-]. exists (r :: rows), dates. split; [reflexivity|]. split; [reflexivity|].
      apply (Hlen _ _ eq_refl Hdates). }
  refine (conj _ (conj _ (conj Hdf _))).
  - rewrite Hparse.
    change (CMESOFR.parse_strips (JObj [("resultsStrip", JArr (take 5 days))]))
      with (processed_data ← CMESOFR.process_days (take 5 (take 5 days));
            match processed_data with
            | [] => Ok []
            | _ => dates ← CMESOFR.to_datetime (map CMESOFR.Date processed_data);
                   Ok (CMESOFR.zip_dates processed_data dates)
            end).
    rewrite take_idemp. reflexivity.
  - intros rows dates Hrows Hdates. split; [|apply (Hlen _ _ Hrows Hdates)].
    rewrite Hparse, Hrows. simpl. destruct rows as [|r rows]; [reflexivity|].
    rewrite Hdates. reflexivity.
  - intros df H8 Hok. destruct (Hdf df Hok) as (rows & dates & _ & _ & Hl).
    rewrite Hl, H8. reflexivity.
Qed.

(** Of eight day records the first five are normalized. *)
Lemma C8_first_five_days_witness :
  exists rows dates,
    (@CMESOFR.parse_strips iso_pandas (JObj [("resultsStrip", JArr eight_days)])
     = Ok (CMESOFR.zip_dates rows dates) /\
     length (CMESOFR.zip_dates rows dates) = 5%nat) /\
    map (fun r => option_map CMESOFR.instant (CMESOFR.Date r)) (CMESOFR.zip_dates rows dates)
    = [Some 1704844800000000; Some 1704758400000000; Some 1704672000000000;
       Some 1704412800000000; Some 1704326400000000].
Proof.
  eexists. eexists. split.
  - eapply (proj1 (proj2 (@C8_first_five_days iso_pandas
                            [("resultsStrip", JArr eight_days)] (JArr eight_days) eight_days
                            eq_refl eq_refl))).
    + vm_compute. reflexivity.
    + vm_compute. reflexivity.
  - vm_compute. reflexivity.
Defined.

(* ===================================================================== *)
(** * A point is emitted only for a close that reads as a number *)
(* ===================================================================== *)



Lemma try_except_emits {A} (body : result (option A)) classes x :
  try_except body classes (Ok None) = Ok (Some x) -> body = Ok (Some x).
Proof.
  unfold try_except. destruct body as [o|e]; [tauto|].
  destruct (classes e); discriminate.
Qed.



(* ===================================================================== *)
(** * The text of a finite float is never read as a NaN *)
(* ===================================================================== *)


























(** CNBC_US10YTIP_History.py has no test for NaN before the item is
    made: the close [nan] is stored as the decimal NaN. *)
Remark History_stores_nan :
  final (History.main
           (History.World true
              (fun _ => Body (JObj [("data", JObj [("chartData", JObj [("priceBars",
                 JArr [JObj [("tradeTimeinMills", JStr "1704189600000");
                             ("close", JStr "nan")]])])])]))
              ∅))
    !! ("CNBC_US10YTIP_Close", 1704189600000)
  = Some (Item "CNBC_US10YTIP_Close" 1704189600000 (PyDecimal.NaN false false 0)
            "2024-01-02 10:00:00" (Some "%")).
Proof. vm_compute. reflexivity. Qed.

(* ===================================================================== *)
(** * Milliseconds to datetime and back *)
(* ===================================================================== *)

(** C10, at an input where the claim fails.  The bar of time
    1073741824001 ms (2004-01-10 13:37:04.001 UTC) becomes the datetime
    of that instant, but [int(datetime_obj.timestamp() * 1000)] is
    1073741824000: the product is the float just below 1073741824001 and
    [int] cuts it.  The item is stored under 1073741824000 by both CNBC
    scripts, and nothing under 1073741824001.  The same happens at 1001
    ms. *)
Theorem C10_timestamp_off_by_one :
  CNBC.process_bar (JObj [("tradeTimeinMills", JInt 1073741824001); ("close", JStr "1.71")])
  = Ok (Some (CNBC.Row 1073741824001000 (S754_finite false 7701155362803548 (-52)))) /\
  CNBC.db_timestamp 1073741824001000 = Ok 1073741824000 /\
  CNBC.db_timestamp 1001000 = Ok 1000 /\
  (let tb := final (@CNBC.main (merge_pandas true)
               (CNBC.World "US10YTIP" "ALL" "CNBC" "Close" "%" true
                  (fun _ => Body (JObj [("data", JObj [("chartData", JObj [("priceBars",
                     JArr [JObj [("tradeTimeinMills", JInt 1073741824001);
                                 ("close", JStr "1.71")]])])])]))
                  ∅)) in
   tb !! ("CNBC_US10YTIP_ALL_Close", 1073741824001) = None /\
   tb !! ("CNBC_US10YTIP_ALL_Close", 1073741824000)
   = Some (Item "CNBC_US10YTIP_ALL_Close" 1073741824000 (PyDecimal.Finite false 171 (-2))
             "2004-01-10 13:37:04 UTC" (Some "%"))) /\
  (let tb := final (History.main
               (History.World true
                  (fun _ => Body (JObj [("data", JObj [("chartData", JObj [("priceBars",
                     JArr [JObj [("tradeTimeinMills", JInt 1073741824001);
                                 ("close", JStr "1.71")]])])])]))
                  ∅)) in
   tb !! ("CNBC_US10YTIP_Close", 1073741824001) = None /\
   tb !! ("CNBC_US10YTIP_Close", 1073741824000)
   = Some (Item "CNBC_US10YTIP_Close" 1073741824000 (PyDecimal.Finite false 171 (-2))
             "2004-01-10 13:37:04" (Some "%"))).
Proof. repeat split; vm_compute; reflexivity. Qed.

(* ===================================================================== *)
(** * Rounding to the nearest float, as real numbers *)
(* ===================================================================== *)

Lemma IZR_pow (b k : Z) : 0 <= k -> IZR (b ^ k) = powerRZ (IZR b) k.
Proof.
  intros Hk. rewrite <- (Z2Nat.id k Hk) at 1.
  rewrite <- pow_IZR, pow_powerRZ, Z2Nat.id by exact Hk. reflexivity.
Qed.

Lemma Rabs_le_bounds x y : (Rabs x <= y -> - y <= x <= y)%R.
Proof. unfold Rabs. destruct (Rcase_abs x); lra. Qed.

Lemma pow2_pos e : (0 < powerRZ 2 e)%R.
Proof. apply powerRZ_lt. lra. Qed.


Lemma powerRZ_sub_r (x : R) (a b : Z) :
  (x <> 0)%R -> powerRZ x (a - b) = (powerRZ x a / powerRZ x b)%R.
Proof.
  intros Hx. unfold Z.sub. rewrite powerRZ_add, powerRZ_neg' by exact Hx. reflexivity.
Qed.

(** [round_half_even n d] is within one half of [n / d]. *)
Lemma round_half_even_near n d :
  0 < d -> - d <= 2 * (n - d * Float.round_half_even n d) <= d.
Proof.
  intros Hd. unfold Float.round_half_even. cbv zeta.
  pose proof (Z.div_mod n d ltac:(lia)) as Hnd.
  pose proof (Z.mod_pos_bound n d Hd) as Hr.
  set (q := n / d) in *. set (r := n mod d) in *.
  destruct (2 * r ?= d) eqn:Hc.
  - apply Z.compare_eq in Hc. destruct (Z.even q); nia.
  - rewrite Z.compare_lt_iff in Hc. nia.
  - rewrite Z.compare_gt_iff in Hc. nia.
Qed.

Lemma round_half_even_floor n d :
  0 < d ->
  Float.round_half_even n d = n / d \/ Float.round_half_even n d = n / d + 1.
Proof.
  intros Hd. unfold Float.round_half_even. cbv zeta.
  destruct (2 * (n mod d) ?= d); [destruct (Z.even (n / d))| |]; auto.
Qed.

Lemma round_half_even_near_R n d :
  0 < d -> (Rabs (IZR n / IZR d - IZR (Float.round_half_even n d)) <= 1 / 2)%R.
Proof.
  intros Hd. pose proof (round_half_even_near n d Hd) as [Hlo Hhi].
  set (r := Float.round_half_even n d) in *.
  assert (Hd' : (0 < IZR d)%R) by (apply IZR_lt; exact Hd).
  apply IZR_le in Hlo, Hhi.
  rewrite opp_IZR in Hlo. rewrite mult_IZR, minus_IZR, mult_IZR in Hlo, Hhi.
  replace (IZR n / IZR d - IZR r)%R with ((IZR n - IZR d * IZR r) / IZR d)%R
    by (field; lra).
  apply Rabs_le. split.
  - apply Rmult_le_reg_r with (IZR d); [exact Hd'|].
    unfold Rdiv. rewrite Rmult_assoc, Rinv_l by lra. lra.
  - apply Rmult_le_reg_r with (IZR d); [exact Hd'|].
    unfold Rdiv. rewrite Rmult_assoc, Rinv_l by lra. lra.
Qed.

(** The fraction [scale2 n d e] is [n / d / 2^e]. *)
Lemma scale2_value n d e a b :
  0 < d -> Float.scale2 n d e = (a, b) ->
  0 < b /\ (IZR a / IZR b = IZR n / IZR d / powerRZ 2 e)%R.
Proof.
  intros Hd. unfold Float.scale2.
  assert (Hd' : (0 < IZR d)%R) by (apply IZR_lt; exact Hd).
  pose proof (pow2_pos e) as He.
  destruct (0 <=? e) eqn:Hs; intros [= <- <-].
  - apply Z.leb_le in Hs. split; [apply Z.mul_pos_pos; [exact Hd|apply Z.pow_pos_nonneg; lia]|].
    rewrite mult_IZR, IZR_pow by exact Hs. field. split; lra.
  - apply Z.leb_gt in Hs. split; [exact Hd|].
    rewrite mult_IZR, IZR_pow by lia. rewrite powerRZ_neg'. field. split; lra.
Qed.








(* ===================================================================== *)
(** * The rounding depends on the quotient only *)
(* ===================================================================== *)

Lemma pow2_le a b : a <= b -> (powerRZ 2 a <= powerRZ 2 b)%R.
Proof.
  intros Hab. replace b with (a + (b - a)) by lia.
  rewrite powerRZ_add by lra. rewrite <- (IZR_pow 2 (b - a)) by lia.
  pose proof (pow2_pos a) as Ha.
  assert (H1 : (1 <= IZR (2 ^ (b - a)))%R).
  { apply IZR_le. pose proof (Z.pow_pos_nonneg 2 (b - a) ltac:(lia) ltac:(lia)). lia. }
  nra.
Qed.


Lemma pow2_succ a : powerRZ 2 (a + 1) = (2 * powerRZ 2 a)%R.
Proof. rewrite powerRZ_add, powerRZ_1 by lra. ring. Qed.


(** [ilog2 n d] is the integer [k] with [2^k <= n / d < 2^(k+1)]. *)
Lemma ilog2_spec n d :
  0 < n -> 0 < d ->
  (powerRZ 2 (Float.ilog2 n d) * IZR d <= IZR n
   < powerRZ 2 (Float.ilog2 n d + 1) * IZR d)%R.
Proof.
  intros Hn Hd. unfold Float.ilog2.
  pose proof (Z.log2_spec n Hn) as [Hn1 Hn2].
  pose proof (Z.log2_spec d Hd) as [Hd1 Hd2].
  pose proof (Z.log2_nonneg n) as Hln. pose proof (Z.log2_nonneg d) as Hld.
  set (l1 := Z.log2 n) in *. set (l2 := Z.log2 d) in *.
  apply IZR_le in Hn1, Hd1. apply IZR_lt in Hn2, Hd2.
  rewrite Z.pow_succ_r, mult_IZR in Hn2, Hd2 by assumption.
  rewrite IZR_pow in Hn1, Hn2, Hd1, Hd2 by assumption.
  set (k := l1 - l2).
  assert (Hk : powerRZ 2 l1 = (powerRZ 2 k * powerRZ 2 l2)%R).
  { unfold k. rewrite powerRZ_sub_r by lra. pose proof (pow2_pos l2). field. lra. }
  pose proof (pow2_pos k) as Hk0. pose proof (pow2_pos l2) as Hl2.
  assert (Htest : (if 0 <=? k then n <? d * 2 ^ k else n * 2 ^ (- k) <? d) = true
                  <-> (IZR n < powerRZ 2 k * IZR d)%R).
  { destruct (0 <=? k) eqn:Hs.
    - apply Z.leb_le in Hs. rewrite Z.ltb_lt. split; intros Hlt.
      + apply IZR_lt in Hlt. rewrite mult_IZR, IZR_pow in Hlt by exact Hs. lra.
      + apply lt_IZR. rewrite mult_IZR, IZR_pow by exact Hs. lra.
    - apply Z.leb_gt in Hs. rewrite Z.ltb_lt.
      assert (Hinv : (powerRZ 2 k * powerRZ 2 (- k) = 1)%R).
      { rewrite <- powerRZ_add by lra. replace (k + - k) with 0 by lia. reflexivity. }
      pose proof (pow2_pos (- k)) as Hnk.
      split; intros Hlt.
      + apply IZR_lt in Hlt. rewrite mult_IZR, IZR_pow in Hlt by lia. nra.
      + apply lt_IZR. rewrite mult_IZR, IZR_pow by lia. nra. }
  destruct (if 0 <=? k then n <? d * 2 ^ k else n * 2 ^ (- k) <? d) eqn:Ht.
  - apply proj1 in Htest. specialize (Htest eq_refl).
    replace (k - 1 + 1) with k by lia. split; [|exact Htest].
    assert (Hk1 : powerRZ 2 k = (2 * powerRZ 2 (k - 1))%R).
    { rewrite <- pow2_succ. f_equal. lia. }
    pose proof (pow2_pos (k - 1)). nra.
  - assert (Hge : (powerRZ 2 k * IZR d <= IZR n)%R).
    { destruct (Rle_or_lt (powerRZ 2 k * IZR d) (IZR n)) as [H|H]; [exact H|].
      apply Htest in H. discriminate. }
    split; [exact Hge|]. rewrite pow2_succ. nra.
Qed.

Lemma ilog2_unique n d k :
  0 < n -> 0 < d ->
  (powerRZ 2 k * IZR d <= IZR n < powerRZ 2 (k + 1) * IZR d)%R ->
  Float.ilog2 n d = k.
Proof.
  intros Hn Hd [Hk1 Hk2]. pose proof (ilog2_spec n d Hn Hd) as [Hl1 Hl2].
  set (l := Float.ilog2 n d) in *.
  assert (Hd' : (0 < IZR d)%R) by (apply IZR_lt; exact Hd).
  destruct (Z.lt_trichotomy l k) as [Hlt|[Heq|Hgt]]; [|exact Heq|].
  - pose proof (pow2_le (l + 1) k ltac:(lia)). nra.
  - pose proof (pow2_le (k + 1) l ltac:(lia)). nra.
Qed.

Lemma ilog2_scale n d t :
  0 < n -> 0 < d -> 0 < t -> Float.ilog2 (n * t) (d * t) = Float.ilog2 n d.
Proof.
  intros Hn Hd Ht. apply ilog2_unique; [nia|nia|].
  pose proof (ilog2_spec n d Hn Hd) as [H1 H2].
  rewrite !mult_IZR. apply IZR_lt in Ht.
  pose proof (pow2_pos (Float.ilog2 n d)). pose proof (pow2_pos (Float.ilog2 n d + 1)).
  split; nra.
Qed.

Lemma round_half_even_scale a b t :
  0 < b -> 0 < t -> Float.round_half_even (a * t) (b * t) = Float.round_half_even a b.
Proof.
  intros Hb Ht. unfold Float.round_half_even. cbv zeta.
  rewrite Z.div_mul_cancel_r by lia. rewrite Zmult_mod_distr_r.
  replace (2 * (a mod b * t)) with (2 * (a mod b) * t) by ring.
  rewrite <- Zmult_compare_compat_r by lia. reflexivity.
Qed.

Lemma scale2_scale n d t e :
  Float.scale2 (n * t) (d * t) e
  = (fst (Float.scale2 n d e) * t, snd (Float.scale2 n d e) * t).
Proof.
  unfold Float.scale2. destruct (0 <=? e); simpl; f_equal; ring.
Qed.

(** [of_ratio] on a fraction and on the same fraction scaled. *)
Lemma of_ratio_scale s n d t :
  0 < n -> 0 < d -> 0 < t -> Float.of_ratio s (n * t) (d * t) = Float.of_ratio s n d.
Proof.
  intros Hn Hd Ht. unfold Float.of_ratio.
  rewrite (ilog2_scale n d t Hn Hd Ht).
  replace (n * t <=? 0) with (n <=? 0) by (apply eq_true_iff_eq; rewrite !Z.leb_le; nia).
  destruct (n <=? 0); [reflexivity|].
  set (e := Z.max (Float.ilog2 n d - 52) (-1074)).
  rewrite scale2_scale.
  destruct (Float.scale2 n d e) as [a b] eqn:Hab. simpl fst. simpl snd.
  assert (Hb : 0 < b).
  { unfold Float.scale2 in Hab. destruct (0 <=? e) eqn:He; injection Hab as <- <-; [|exact Hd].
    apply Z.leb_le in He. pose proof (Z.pow_pos_nonneg 2 e ltac:(lia) He). nia. }
  rewrite (round_half_even_scale a b t Hb Ht). reflexivity.
Qed.


(* ===================================================================== *)
(** * Decimal logarithms *)
(* ===================================================================== *)




(* ===================================================================== *)
(** * The shortest digits of the float of a short decimal *)
(* ===================================================================== *)






Section Candidate.

Variables (m : positive) (e : Z).

Let x := S754_finite false m e.



Hypothesis full_mantissa : 2 ^ 52 <= Zpos m.

Variables (c q : Z).

Hypothesis short : 0 < c < 10 ^ 15.
Hypothesis reads : Float.of_decimal false c q = x.




End Candidate.

(* ===================================================================== *)
(** * Reading back the text of a float *)
(* ===================================================================== *)
























Lemma horner_scale s acc : horner s acc = acc * 10 ^ Z.of_nat (String.length s) + horner s 0.
Proof.
  revert acc. induction s as [|c s IH]; intros acc.
  - simpl. lia.
  - cbn [horner String.length]. rewrite IH, (IH (10 * 0 + _)).
    rewrite Nat2Z.inj_succ, Z.pow_succ_r by lia. ring.
Qed.

Lemma horner_nonneg s acc : 0 <= acc -> 0 <= horner s acc.
Proof.
  revert acc. induction s as [|c s IH]; intros acc Ha; [exact Ha|].
  cbn [horner]. apply IH. unfold Text.digit_val.
  destruct (_ && _); simpl; lia.
Qed.




















(** ** The two readers of a text *)











(* ===================================================================== *)
(** * What a store function writes, and where *)
(* ===================================================================== *)

Lemma bind_raise {A B} (r : result A) (k : A -> result B) e :
  (x ← r; k x) = Raise e -> r = Raise e \/ exists a, r = Ok a /\ k a = Raise e.
Proof. destruct r as [a|e']; simpl; [eauto|]. intros [= <-]. auto. Qed.

Lemma try_except_raise {A} (body : result A) classes (v : A) e :
  try_except body classes (Ok v) = Raise e -> body = Raise e /\ classes e = false.
Proof.
  unfold try_except. destruct body as [a|e']; [discriminate|].
  destruct (classes e') eqn:Hc; [discriminate|]. intros [= <-]. auto.
Qed.

Lemma CNBC_row_item_fields `{CNBC.Pandas} m u r it :
  CNBC.row_item m u r = Ok (Some it) ->
  metricId it = m /\ unit it = Some u /\
  CNBC.db_timestamp (CNBC.DateTime r) = Ok (timestamp it) /\
  sourceDate it = DateTime.strftime_seconds_tz (CNBC.DateTime r).
Proof.
  unfold CNBC.row_item.
  destruct (CNBC.db_timestamp (CNBC.DateTime r)) as [ts|]; simpl; [|discriminate].
  destruct (CNBC.row_value r) as [[v|]|]; simpl; try discriminate.
  intros [= <-]. auto.
Qed.

Lemma History_row_item_fields m u r it :
  History.row_item m u r = Ok (Some it) ->
  metricId it = m /\ unit it = Some u /\
  CNBC.db_timestamp (History.DateTime r) = Ok (timestamp it) /\
  sourceDate it = DateTime.strftime_seconds (History.DateTime r).
Proof.
  unfold History.row_item.
  destruct (CNBC.db_timestamp (History.DateTime r)) as [ts|]; simpl; [|discriminate].
  destruct (try_except _ _ _) as [[v|]|]; simpl; try discriminate.
  intros [= <-]. auto.
Qed.

Lemma CNBC_store_rows_frame `{CNBC.Pandas} metric u rows c tb m z :
  m <> metric \/ (forall r, r ∈ rows -> CNBC.db_timestamp (CNBC.DateTime r) <> Ok z) ->
  snd (CNBC.store_rows metric u rows c tb) !! (m, z) = tb !! (m, z).
Proof.
  revert c tb. induction rows as [|r rows IH]; intros c tb Hk; [reflexivity|].
  assert (Hk' : m <> metric \/
                (forall r', r' ∈ rows -> CNBC.db_timestamp (CNBC.DateTime r') <> Ok z)).
  { destruct Hk as [Hk|Hk]; [auto|]. right. intros r' Hr'. apply Hk. right. exact Hr'. }
  simpl. destruct (CNBC.row_item metric u r) as [[it|]|e] eqn:Hr; simpl;
    [|apply IH, Hk'|reflexivity].
  rewrite (IH _ _ Hk'). apply CNBC_row_item_fields in Hr as (Hm & _ & Hts & _).
  unfold put_item, key. apply lookup_insert_ne. intros [= Hm' Hz].
  destruct Hk as [Hk|Hk]; [congruence|].
  apply (Hk r); [left|]. rewrite Hts, Hz. reflexivity.
Qed.

Lemma History_store_rows_frame metric u rows c tb m z :
  m <> metric \/ (forall r, r ∈ rows -> CNBC.db_timestamp (History.DateTime r) <> Ok z) ->
  snd (History.store_rows metric u rows c tb) !! (m, z) = tb !! (m, z).
Proof.
  revert c tb. induction rows as [|r rows IH]; intros c tb Hk; [reflexivity|].
  assert (Hk' : m <> metric \/
                (forall r', r' ∈ rows -> CNBC.db_timestamp (History.DateTime r') <> Ok z)).
  { destruct Hk as [Hk|Hk]; [auto|]. right. intros r' Hr'. apply Hk. right. exact Hr'. }
  simpl. destruct (History.row_item metric u r) as [[it|]|e] eqn:Hr; simpl;
    [|apply IH, Hk'|reflexivity].
  rewrite (IH _ _ Hk'). apply History_row_item_fields in Hr as (Hm & _ & Hts & _).
  unfold put_item, key. apply lookup_insert_ne. intros [= Hm' Hz].
  destruct Hk as [Hk|Hk]; [congruence|].
  apply (Hk r); [left|]. rewrite Hts, Hz. reflexivity.
Qed.

Lemma CMESOFR_store_cells_frame ts sd cells c tb m z :
  z <> ts \/ m ∉ map (fun cmu => snd (fst cmu)) cells ->
  snd (CMESOFR.store_cells ts sd cells c tb) !! (m, z) = tb !! (m, z).
Proof.
  revert c tb. induction cells as [|[[cell metric] u] cells IH]; intros c tb Hk; [reflexivity|].
  assert (Hk' : z <> ts \/ m ∉ map (fun cmu => snd (fst cmu)) cells).
  { destruct Hk as [Hk|Hk]; [auto|]. right. intros Hin. apply Hk. right. exact Hin. }
  simpl. destruct (CMESOFR.cell_value cell) as [[v|]|e]; [|apply IH, Hk'|reflexivity].
  rewrite (IH _ _ Hk'). unfold put_item, key. simpl. apply lookup_insert_ne.
  intros [= Hm Hz]. destruct Hk as [Hk|Hk]; [congruence|]. apply Hk.
  simpl. rewrite Hm. left.
Qed.

Lemma CMESOFR_store_rows_frame rows c tb m z :
  m ∉ sofr_metrics \/
  (forall r, r ∈ rows -> CMESOFR.convert_date_to_utc_timestamp_ms (CMESOFR.Date r) <> Ok (Some z)) ->
  snd (CMESOFR.store_rows rows c tb) !! (m, z) = tb !! (m, z).
Proof.
  revert c tb. induction rows as [|r rows IH]; intros c tb Hk; [reflexivity|].
  assert (Hk' : m ∉ sofr_metrics \/
                (forall r', r' ∈ rows ->
                   CMESOFR.convert_date_to_utc_timestamp_ms (CMESOFR.Date r') <> Ok (Some z))).
  { destruct Hk as [Hk|Hk]; [auto|]. right. intros r' Hr'. apply Hk. right. exact Hr'. }
  cbn [CMESOFR.store_rows].
  destruct (CMESOFR.convert_date_to_utc_timestamp_ms (CMESOFR.Date r)) as [[ts|]|e] eqn:Hts;
    [|apply IH, Hk'|reflexivity].
  match goal with
  | |- context [CMESOFR.store_cells ts ?sd ?cells c tb] =>
      pose proof (CMESOFR_store_cells_frame ts sd cells c tb m z) as Hcells;
      destruct (CMESOFR.store_cells ts sd cells c tb) as [[c'|e] tb'] eqn:Hs
  end; simpl in Hcells.
  - rewrite (IH _ _ Hk'). apply Hcells.
    destruct Hk as [Hk|Hk]; [right; exact Hk|]. left. intros ->.
    apply (Hk r); [left|exact Hts].
  - simpl. apply Hcells.
    destruct Hk as [Hk|Hk]; [right; exact Hk|]. left. intros ->.
    apply (Hk r); [left|exact Hts].
Qed.

(** X1. A store function writes under its own keys only.  After
    [store_data_in_dynamodb] and [store_yield_data_in_dynamodb] a key
    holds what it held before unless its metric is the metric of the call
    and its timestamp is the converted time of a row; after
    [store_sofr_data_in_dynamodb], unless its metric is one of the nine
    metrics of [metric_mapping] and its timestamp is the converted date of
    a row. *)
Theorem store_writers_touch_only_their_keys `{CNBC.Pandas} :
  (forall tb df metric unit m z,
     m <> metric \/ (forall r, r ∈ df -> CNBC.db_timestamp (CNBC.DateTime r) <> Ok z) ->
     snd (CNBC.store_data_in_dynamodb tb df metric unit) !! (m, z) = tb !! (m, z)) /\
  (forall tb df metric unit m z,
     m <> metric \/
     (forall rows r, df = Some rows -> r ∈ rows ->
                     CNBC.db_timestamp (History.DateTime r) <> Ok z) ->
     snd (History.store_yield_data_in_dynamodb tb df metric unit) !! (m, z) = tb !! (m, z)) /\
  (forall handle tb df m z,
     m ∉ sofr_metrics \/
     (forall r, r ∈ df ->
        CMESOFR.convert_date_to_utc_timestamp_ms (CMESOFR.Date r) <> Ok (Some z)) ->
     snd (CMESOFR.store_sofr_data_in_dynamodb handle tb df) !! (m, z) = tb !! (m, z)).
Proof.
  split; [|split].
  - intros tb df metric unit m z Hk. unfold CNBC.store_data_in_dynamodb.
    destruct df as [|r rows]; [reflexivity|]. apply CNBC_store_rows_frame, Hk.
  - intros tb df metric unit m z Hk. unfold History.store_yield_data_in_dynamodb.
    destruct df as [[|r rows]|]; try reflexivity.
    apply History_store_rows_frame. destruct Hk as [Hk|Hk]; [auto|].
    right. intros r' Hr'. apply (Hk _ r' eq_refl Hr').
  - intros handle tb df m z Hk. unfold CMESOFR.store_sofr_data_in_dynamodb.
    destruct df as [|r rows]; [reflexivity|]. destruct handle; [|reflexivity].
    apply CMESOFR_store_rows_frame, Hk.
Qed.

(** The store of CNBC.py leaves a key of SOFR_Index alone. *)
Lemma store_writers_touch_only_their_keys_witness :
  snd (@CNBC.store_data_in_dynamodb (merge_pandas true)
         ∅ [CNBC.Row 1704189600000000 (S754_finite false 7701155362803548 (-52))]
         "CNBC_US10YTIP_1D_Close" "%") !! ("SOFR_Index", 1704189600000)
  = (∅ : table) !! ("SOFR_Index", 1704189600000).
Proof.
  apply (proj1 (@store_writers_touch_only_their_keys (merge_pandas true))).
  left. discriminate.
Defined.

(* ===================================================================== *)
(** * The count a store function returns *)
(* ===================================================================== *)

Lemma size_put_item (tb : table) it : (size (put_item tb it) <= S (size tb))%nat.
Proof.
  unfold put_item. destruct (tb !! key it) eqn:Hk.
  - rewrite map_size_insert_Some by eauto. lia.
  - rewrite map_size_insert_None by exact Hk. lia.
Qed.

Lemma CNBC_store_rows_count `{CNBC.Pandas} m u rows c tb n :
  fst (CNBC.store_rows m u rows c tb) = Ok n ->
  (c <= n <= c + length rows)%nat /\
  (size (snd (CNBC.store_rows m u rows c tb)) + c <= size tb + n)%nat.
Proof.
  revert c tb. induction rows as [|r rows IH]; intros c tb; simpl.
  - intros [= <-]. lia.
  - destruct (CNBC.row_item m u r) as [[it|]|e]; simpl; [| |discriminate].
    + intros Hn. destruct (IH _ _ Hn) as [Hc Hs]. pose proof (size_put_item tb it). lia.
    + intros Hn. destruct (IH _ _ Hn) as [Hc Hs]. lia.
Qed.

Lemma History_store_rows_count m u rows c tb n :
  fst (History.store_rows m u rows c tb) = Ok n ->
  (c <= n <= c + length rows)%nat /\
  (size (snd (History.store_rows m u rows c tb)) + c <= size tb + n)%nat.
Proof.
  revert c tb. induction rows as [|r rows IH]; intros c tb; simpl.
  - intros [= <-]. lia.
  - destruct (History.row_item m u r) as [[it|]|e]; simpl; [| |discriminate].
    + intros Hn. destruct (IH _ _ Hn) as [Hc Hs]. pose proof (size_put_item tb it). lia.
    + intros Hn. destruct (IH _ _ Hn) as [Hc Hs]. lia.
Qed.

Lemma CMESOFR_store_cells_count ts sd cells c tb :
  match fst (CMESOFR.store_cells ts sd cells c tb) with
  | Ok n =>
      (c <= n <= c + length cells)%nat /\
      (size (snd (CMESOFR.store_cells ts sd cells c tb)) + c <= size tb + n)%nat
  | Raise _ => True
  end.
Proof.
  revert c tb. induction cells as [|[[cell metric] u] cells IH]; intros c tb; simpl.
  - lia.
  - destruct (CMESOFR.cell_value cell) as [[v|]|e]; simpl; [| |exact I].
    + specialize (IH (S c) (put_item tb (Item metric ts v sd u))).
      destruct (fst (CMESOFR.store_cells _ _ _ _ _)); [|exact I].
      pose proof (size_put_item tb (Item metric ts v sd u)). lia.
    + specialize (IH c tb). destruct (fst (CMESOFR.store_cells _ _ _ _ _)); [|exact I]. lia.
Qed.

Lemma CMESOFR_store_rows_count rows c tb n :
  fst (CMESOFR.store_rows rows c tb) = Ok n ->
  (c <= n <= c + 9 * length rows)%nat /\
  (size (snd (CMESOFR.store_rows rows c tb)) + c <= size tb + n)%nat.
Proof.
  revert c tb. induction rows as [|r rows IH]; intros c tb.
  - simpl. intros [= <-]. lia.
  - cbn [CMESOFR.store_rows length].
    destruct (CMESOFR.convert_date_to_utc_timestamp_ms (CMESOFR.Date r)) as [[ts|]|e];
      [| |discriminate].
    + match goal with
      | |- context [CMESOFR.store_cells ts ?sd ?cells c tb] =>
          pose proof (CMESOFR_store_cells_count ts sd cells c tb) as Hcells;
          destruct (CMESOFR.store_cells ts sd cells c tb) as [[c'|e] tb'] eqn:Hs
      end; simpl in Hcells; [|discriminate].
      intros Hn. destruct (IH _ _ Hn) as [Hc Hsz]. lia.
    + intros Hn. destruct (IH _ _ Hn) as [Hc Hsz]. lia.
Qed.

(** X2. The count a store function returns is at most the number of rows
    (nine times the number of rows for CMESOFR.py, one item per column),
    and the table has grown by at most that count. *)
Theorem store_count_bounds `{CNBC.Pandas} :
  (forall tb df metric unit n,
     fst (CNBC.store_data_in_dynamodb tb df metric unit) = Ok n ->
     (n <= length df)%nat /\
     (size (snd (CNBC.store_data_in_dynamodb tb df metric unit)) <= size tb + n)%nat) /\
  (forall tb rows metric unit n,
     fst (History.store_yield_data_in_dynamodb tb (Some rows) metric unit) = Ok n ->
     (n <= length rows)%nat /\
     (size (snd (History.store_yield_data_in_dynamodb tb (Some rows) metric unit))
      <= size tb + n)%nat) /\
  (forall handle tb df n,
     fst (CMESOFR.store_sofr_data_in_dynamodb handle tb df) = Ok n ->
     (n <= 9 * length df)%nat /\
     (size (snd (CMESOFR.store_sofr_data_in_dynamodb handle tb df)) <= size tb + n)%nat).
Proof.
  split; [|split].
  - intros tb df metric unit n. unfold CNBC.store_data_in_dynamodb.
    destruct df as [|r rows]; [simpl; intros [= <-]; lia|].
    intros Hn. apply CNBC_store_rows_count in Hn. lia.
  - intros tb rows metric unit n. unfold History.store_yield_data_in_dynamodb.
    destruct rows as [|r rows]; [simpl; intros [= <-]; lia|].
    intros Hn. apply History_store_rows_count in Hn. lia.
  - intros handle tb df n. unfold CMESOFR.store_sofr_data_in_dynamodb.
    destruct df as [|r rows]; [simpl; intros [= <-]; lia|].
    destruct handle; [|simpl; intros [= <-]; lia].
    intros Hn. apply CMESOFR_store_rows_count in Hn. lia.
Qed.

(** One row, one item at most. *)
Lemma store_count_bounds_witness :
  let df := [CNBC.Row 1704189600000000 (S754_finite false 7701155362803548 (-52))] in
  (1 <= length df)%nat /\
  (size (snd (@CNBC.store_data_in_dynamodb (merge_pandas true) ∅ df
                "CNBC_US10YTIP_1D_Close" "%")) <= size (∅ : table) + 1)%nat.
Proof.
  apply (proj1 (@store_count_bounds (merge_pandas true))).
  vm_compute. reflexivity.
Defined.

(* ===================================================================== *)
(** * A pandas without [Series.is_finite] *)
(* ===================================================================== *)

Lemma CNBC_row_value_no_is_finite `{CNBC.Pandas} r :
  CNBC.has_is_finite = false ->
  CNBC.row_value r = if Float.is_nan (CNBC.Value r) then Ok None else Raise AttributeError.
Proof.
  intros Hno. unfold CNBC.row_value, CNBC.series_is_finite. rewrite Hno.
  destruct (Float.is_nan (CNBC.Value r)); reflexivity.
Qed.

Lemma CNBC_row_item_no_is_finite `{CNBC.Pandas} m u r :
  CNBC.has_is_finite = false ->
  (Float.is_nan (CNBC.Value r) = true -> forall it, CNBC.row_item m u r <> Ok (Some it)) /\
  (Float.is_nan (CNBC.Value r) = false -> exists e, CNBC.row_item m u r = Raise e).
Proof.
  intros Hno. unfold CNBC.row_item. rewrite (CNBC_row_value_no_is_finite r Hno).
  destruct (CNBC.db_timestamp (CNBC.DateTime r)) as [ts|e]; simpl.
  - destruct (Float.is_nan (CNBC.Value r)); simpl; split; try discriminate; eauto.
  - split; [discriminate|eauto].
Qed.

Lemma CNBC_store_rows_no_is_finite `{CNBC.Pandas} m u rows c tb :
  CNBC.has_is_finite = false ->
  snd (CNBC.store_rows m u rows c tb) = tb /\
  (Exists (fun r => Float.is_nan (CNBC.Value r) = false) rows ->
   exists e, fst (CNBC.store_rows m u rows c tb) = Raise e).
Proof.
  intros Hno. revert c. induction rows as [|r rows IH]; intros c.
  - split; [reflexivity|]. intros Hex. inversion Hex.
  - simpl. destruct (CNBC_row_item_no_is_finite m u r Hno) as [Hnan Hval].
    destruct (Float.is_nan (CNBC.Value r)) eqn:Hr.
    + destruct (CNBC.row_item m u r) as [[it|]|e] eqn:Hit.
      * exfalso. apply (Hnan eq_refl it). reflexivity.
      * destruct (IH c) as [Htb Hex]. split; [exact Htb|].
        intros Hex'. apply Hex. inversion Hex' as [? ? Hh|? ? Ht]; [congruence|exact Ht].
      * split; [reflexivity|]. eauto.
    + destruct (Hval eq_refl) as [e ->]. split; [reflexivity|]. eauto.
Qed.

(** X3. [store_data_in_dynamodb] of CNBC.py calls
    [pd.Series(...).is_finite()] on every value that is not NaN.  With a
    pandas that has no such method the call raises [AttributeError], which
    the handler around it does not catch: the function puts nothing
    whatever the rows, it raises as soon as a row has a value that is not
    NaN, and the process then ends with status 1 and the table as it
    was. *)
Theorem store_without_is_finite_puts_nothing `{CNBC.Pandas} :
  CNBC.has_is_finite = false ->
  (forall tb df metric unit,
     snd (CNBC.store_data_in_dynamodb tb df metric unit) = tb /\
     (Exists (fun r => Float.is_nan (CNBC.Value r) = false) df ->
      exists e, fst (CNBC.store_data_in_dynamodb tb df metric unit) = Raise e)) /\
  (forall w,
     CNBC.boto3_ok w = true ->
     Exists (fun r => Float.is_nan (CNBC.Value r) = false)
       (fst (CNBC.fetch_cnbc_data (CNBC.net w) (CNBC.SYMBOL_TO_FETCH w)
               (CNBC.TIME_RANGE_TO_FETCH w))) ->
     status (CNBC.main w) = 1 /\ final (CNBC.main w) = CNBC.table0 w).
Proof.
  intros Hno.
  assert (Hstore : forall tb df metric unit,
     snd (CNBC.store_data_in_dynamodb tb df metric unit) = tb /\
     (Exists (fun r => Float.is_nan (CNBC.Value r) = false) df ->
      exists e, fst (CNBC.store_data_in_dynamodb tb df metric unit) = Raise e)).
  { intros tb df metric unit. unfold CNBC.store_data_in_dynamodb.
    destruct df as [|r rows]; [|apply CNBC_store_rows_no_is_finite, Hno].
    split; [reflexivity|]. intros Hex. inversion Hex. }
  split; [exact Hstore|].
  intros w Hok Hex. unfold CNBC.main. rewrite Hok. simpl.
  destruct (CNBC.fetch_cnbc_data _ _ _) as [df evs]. simpl in Hex.
  destruct (Hstore (CNBC.table0 w) df (CNBC.METRIC_ID_FOR_DYNAMODB w) (CNBC.UNIT_FOR_METRIC w))
    as [Htb Hraise].
  destruct (Hraise Hex) as [e He].
  destruct df as [|r rows]; [inversion Hex|].
  destruct (CNBC.store_data_in_dynamodb _ _ _ _) as [res tb']. simpl in *. subst.
  split; reflexivity.
Qed.

(** A run of CNBC.py on one bar of close [1.71%], with such a pandas. *)
Lemma store_without_is_finite_puts_nothing_witness :
  status (@CNBC.main (merge_pandas false)
            (CNBC.World "US10YTIP" "1D" "CNBC" "Close" "%" true
               (fun _ => Body (JObj [("data", JObj [("chartData", JObj [("priceBars",
                  JArr [JObj [("tradeTimeinMills", JStr "1704189600000");
                              ("close", JStr "1.71%")]])])])]))
               ∅)) = 1 /\
  final (@CNBC.main (merge_pandas false)
            (CNBC.World "US10YTIP" "1D" "CNBC" "Close" "%" true
               (fun _ => Body (JObj [("data", JObj [("chartData", JObj [("priceBars",
                  JArr [JObj [("tradeTimeinMills", JStr "1704189600000");
                              ("close", JStr "1.71%")]])])])]))
               ∅)) = ∅.
Proof.
  apply (proj2 (@store_without_is_finite_puts_nothing (merge_pandas false) eq_refl)).
  - reflexivity.
  - vm_compute. left. reflexivity.
Defined.

(* ===================================================================== *)
(** * What can stop the loop over the bars *)
(* ===================================================================== *)

Lemma Json_int_raise j e :
  Json.int j = Raise e -> e = ValueError \/ e = TypeError \/ e = OverflowError.
Proof.
  destruct j as [|b|z|f|s|l|kv]; simpl; try discriminate; try (intros [= <-]; auto).
  - destruct (Float.trunc f); [discriminate|]. intros [= <-].
    destruct (Float.is_nan f); auto.
  - destruct (Json.int_of_string s); simpl; [discriminate|]. intros [= <-]. auto.
Qed.

Lemma fromtimestamp_raise x e :
  DateTime.fromtimestamp x = Raise e -> e = ValueError \/ e = OverflowError \/ e = OSError.
Proof.
  unfold DateTime.fromtimestamp.
  destruct (Float.modf x) as [[i [n d]]|].
  - destruct (Float.round_to_int _) as [u|]; [|intros [= <-]; auto].
    destruct (negb (DateTime.time_t_fits i)); [intros [= <-]; auto|].
    destruct (negb (DateTime.gmtime_fits _)); [intros [= <-]; auto|].
    destruct (_ && _); [discriminate|]. intros [= <-]. auto.
  - intros [= <-]. destruct (Float.is_nan x); auto.
Qed.

Lemma close_value_raise s e : CNBC.close_value s = Raise e -> e = ValueError.
Proof.
  unfold CNBC.close_value.
  destruct (Text.contains s "%"); destruct (Float.of_string _); simpl; congruence.
Qed.

Lemma CNBC_process_bar_raise kv e :
  CNBC.process_bar (JObj kv) = Raise e -> e = OverflowError \/ e = OSError.
Proof.
  unfold CNBC.process_bar. intros Hr. apply try_except_raise in Hr as [Hr Hc].
  simpl in Hr. destruct (Json.is_none _); [discriminate|].
  apply bind_raise in Hr as [Hr | (ms & _ & Hr)].
  { apply Json_int_raise in Hr as [-> | [-> | ->]]; try discriminate Hc. auto. }
  apply bind_raise in Hr as [Hr | (x & _ & Hr)].
  { destruct (Float.int_truediv ms 1000); [discriminate|]. injection Hr as <-. auto. }
  apply bind_raise in Hr as [Hr | (dt & _ & Hr)].
  { apply fromtimestamp_raise in Hr as [-> | [-> | ->]]; try discriminate Hc; auto. }
  simpl in Hr. apply try_except_raise in Hr as [Hr Hc'].
  apply bind_raise in Hr as [Hr | (v & _ & Hr)]; [|discriminate].
  destruct (Json.str _) as [s|].
  - apply close_value_raise in Hr. subst e. discriminate.
  - injection Hr as <-. discriminate.
Qed.

Lemma History_process_bar_raise kv e :
  History.process_bar (JObj kv) = Raise e -> e = OverflowError \/ e = OSError.
Proof.
  unfold History.process_bar. intros Hr. apply try_except_raise in Hr as [Hr Hc].
  simpl in Hr. destruct (Json.is_none _); [discriminate|].
  apply bind_raise in Hr as [Hr | (ms & _ & Hr)].
  { apply Json_int_raise in Hr as [-> | [-> | ->]]; try discriminate Hc. auto. }
  apply bind_raise in Hr as [Hr | (x & _ & Hr)].
  { destruct (Float.int_truediv ms 1000); [discriminate|]. injection Hr as <-. auto. }
  apply bind_raise in Hr as [Hr | (dt & _ & Hr)].
  { apply fromtimestamp_raise in Hr as [-> | [-> | ->]]; try discriminate Hc; auto. }
  simpl in Hr. apply try_except_raise in Hr as [Hr Hc'].
  apply bind_raise in Hr as [Hr | (v & _ & Hr)]; [|discriminate].
  destruct (Json.str _) as [s|].
  - apply close_value_raise in Hr. subst e. discriminate.
  - injection Hr as <-. discriminate.
Qed.

(** X4. What leaves the loop over the bars of [fetch_cnbc_data], in both
    CNBC scripts.  The handler of a bar catches [ValueError] and
    [TypeError]; for a bar that is an object the only exceptions that get
    past it are [OverflowError] and [OSError], raised when the time is too
    large for a float or for the platform; a bar that is not an object
    raises [AttributeError]. *)
Theorem process_bar_escapes :
  (forall kv e, CNBC.process_bar (JObj kv) = Raise e -> e = OverflowError \/ e = OSError) /\
  (forall kv e, History.process_bar (JObj kv) = Raise e -> e = OverflowError \/ e = OSError) /\
  (forall bar, Json.is_dict bar = false ->
     CNBC.process_bar bar = Raise AttributeError /\
     History.process_bar bar = Raise AttributeError).
Proof.
  split; [exact CNBC_process_bar_raise|]. split; [exact History_process_bar_raise|].
  intros bar Hd. destruct bar; try discriminate Hd; split; reflexivity.
Qed.

(** A bar whose time is the float infinity. *)
Lemma process_bar_escapes_witness :
  CNBC.process_bar
    (JObj [("tradeTimeinMills", JFloat (S754_infinity false)); ("close", JStr "1.71")])
  = Raise OverflowError /\
  (OverflowError = OverflowError \/ OverflowError = OSError).
Proof.
  split; [vm_compute; reflexivity|].
  apply (proj1 process_bar_escapes
           [("tradeTimeinMills", JFloat (S754_infinity false)); ("close", JStr "1.71")]).
  vm_compute. reflexivity.
Defined.

(* ===================================================================== *)
(** * One bad day record *)
(* ===================================================================== *)

Lemma process_days_not_dict days d :
  d ∈ days -> Json.is_dict d = false -> exists e, CMESOFR.process_days days = Raise e.
Proof.
  intros Hin Hd. induction Hin as [d days|d d' days Hin IH].
  - simpl. destruct d; try discriminate Hd; simpl; eauto.
  - simpl. destruct (CMESOFR.process_day d') as [r|e]; simpl; [|eauto].
    destruct (IH Hd) as [e ->]. simpl. eauto.
Qed.

(** X5. In [fetch_sofr_strip_rates_with_selenium] one day record, among
    the first five, that is not an object empties the result: the
    exception is caught around the whole loop, the DataFrame stays empty,
    the days before it are lost with it, and the process ends with status
    0 and the table untouched. *)
Theorem one_bad_day_discards_all `{CMESOFR.Pandas} (kv : list (string * json))
  (daily_strips : json) (days : list json) (d : json) :
  Json.lookup "resultsStrip" kv = Some daily_strips ->
  Json.iterate daily_strips = Ok days ->
  d ∈ take 5 days ->
  Json.is_dict d = false ->
  CMESOFR.fetch_sofr_strip_rates_with_selenium (CMESOFR.PageText (Some (JObj kv)))
  = ([], [BrowserGet]) /\
  forall boto3_ok tb,
    CMESOFR.main (CMESOFR.World boto3_ok (CMESOFR.PageText (Some (JObj kv))) tb)
    = Exit 0 [BrowserGet] tb.
Proof.
  intros Hkv Hit Hin Hd.
  assert (Hfetch : CMESOFR.fetch_sofr_strip_rates_with_selenium
                     (CMESOFR.PageText (Some (JObj kv))) = ([], [BrowserGet])).
  { unfold CMESOFR.fetch_sofr_strip_rates_with_selenium, CMESOFR.parse_strips.
    rewrite Hkv, Hit. simpl.
    destruct (process_days_not_dict _ _ Hin Hd) as [e ->]. reflexivity. }
  split; [exact Hfetch|]. intros ok tb. unfold CMESOFR.main. simpl CMESOFR.browser.
  rewrite Hfetch. reflexivity.
Qed.

(** Two good days and a third that is a text: nothing is fetched. *)
Lemma one_bad_day_discards_all_witness :
  @CMESOFR.fetch_sofr_strip_rates_with_selenium iso_pandas
    (CMESOFR.PageText (Some (JObj [("resultsStrip",
       JArr [JObj [("date", JStr "2024-01-03"); ("overnight", JStr "5.31")];
             JObj [("date", JStr "2024-01-02"); ("overnight", JStr "5.32")];
             JStr "2023-12-29"])])))
  = ([], [BrowserGet]).
Proof.
  apply (@one_bad_day_discards_all iso_pandas
           [("resultsStrip",
             JArr [JObj [("date", JStr "2024-01-03"); ("overnight", JStr "5.31")];
                   JObj [("date", JStr "2024-01-02"); ("overnight", JStr "5.32")];
                   JStr "2023-12-29"])]
           (JArr [JObj [("date", JStr "2024-01-03"); ("overnight", JStr "5.31")];
                  JObj [("date", JStr "2024-01-02"); ("overnight", JStr "5.32")];
                  JStr "2023-12-29"])
           [JObj [("date", JStr "2024-01-03"); ("overnight", JStr "5.31")];
            JObj [("date", JStr "2024-01-02"); ("overnight", JStr "5.32")];
            JStr "2023-12-29"]
           (JStr "2023-12-29")).
  - reflexivity.
  - reflexivity.
  - simpl. right. right. left.
  - reflexivity.
Defined.

(* ===================================================================== *)
(** * A response with no usable bar *)
(* ===================================================================== *)

Lemma price_bars_of_path kv p :
  price_bars_path (JObj kv) = Some p ->
  CNBC.price_bars (JObj kv) = Ok (if Json.truthy p then Some p else None).
Proof.
  unfold price_bars_path.
  destruct (Json.lookup "data" kv) as [[| | | | | |dkv]|] eqn:Hd; try discriminate.
  destruct (Json.lookup "chartData" dkv) as [[| | | | | |ckv]|] eqn:Hc; try discriminate.
  intros Hp.
  assert (Htd : Json.truthy (JObj dkv) = true) by (destruct dkv; [discriminate Hc|reflexivity]).
  assert (Htc : Json.truthy (JObj ckv) = true) by (destruct ckv; [discriminate Hp|reflexivity]).
  unfold CNBC.price_bars, Json.get. rewrite Hd.
  change (default JNull (Some (JObj dkv))) with (JObj dkv).
  cbn [mbind result_bind Json.is_dict]. rewrite Htd, Hc.
  change (default JNull (Some (JObj ckv))) with (JObj ckv).
  cbn [andb mbind result_bind Json.is_dict]. rewrite Htc, Hp. reflexivity.
Qed.

Lemma CNBC_process_bars_skipped bars :
  Forall (fun bar => CNBC.process_bar bar = Ok None) bars -> CNBC.process_bars bars = Ok [].
Proof.
  induction 1 as [|bar bars Hb _ IH]; [reflexivity|]. simpl. rewrite Hb, IH. reflexivity.
Qed.

(** X6. CNBC.py on a first response that has the [priceBars] path but no
    usable bar: the bars are falsy (an empty list, a null), or every bar
    is skipped.  The process makes that one request, does not retry, does
    not call the store and ends with status 0, the table untouched. *)
Theorem no_usable_bar_no_write `{CNBC.Pandas} (w : CNBC.world) (kv : list (string * json))
  (p : json) :
  CNBC.boto3_ok w = true ->
  CNBC.net w 0%nat = Body (JObj kv) ->
  price_bars_path (JObj kv) = Some p ->
  Json.truthy p = false \/
  (exists bars, p = JArr bars /\ Forall (fun bar => CNBC.process_bar bar = Ok None) bars) ->
  CNBC.main w
  = Exit 0 [Get (CNBC.SYMBOL_TO_FETCH w) (CNBC.TIME_RANGE_TO_FETCH w)] (CNBC.table0 w).
Proof.
  intros Hok Hnet Hp Hcase.
  assert (Hatt : CNBC.attempt (CNBC.net w 0%nat) = Ok []).
  { rewrite Hnet. unfold CNBC.attempt. rewrite (price_bars_of_path kv p Hp).
    destruct Hcase as [Hf | (bars & -> & Hskip)]; [rewrite Hf; reflexivity|].
    destruct (Json.truthy (JArr bars)); [|reflexivity]. simpl.
    rewrite (CNBC_process_bars_skipped bars Hskip). reflexivity. }
  unfold CNBC.main. rewrite Hok. simpl.
  rewrite fetch_cnbc_data_unfold, Hatt. reflexivity.
Qed.

(** The market is closed: every close is [UNCH]. *)
Lemma no_usable_bar_no_write_witness :
  @CNBC.main (merge_pandas true)
    (CNBC.World "US10YTIP" "1D" "CNBC" "Close" "%" true
       (fun _ => Body (JObj [("data", JObj [("chartData", JObj [("priceBars",
          JArr [JObj [("tradeTimeinMills", JStr "1704189600000"); ("close", JStr "UNCH")];
                JObj [("tradeTimeinMills", JStr "1704189660000"); ("close", JStr "UNCH")]])])])]))
       ∅)
  = Exit 0 [Get "US10YTIP" "1D"] ∅.
Proof.
  apply (@no_usable_bar_no_write (merge_pandas true)
           (CNBC.World "US10YTIP" "1D" "CNBC" "Close" "%" true
              (fun _ => Body (JObj [("data", JObj [("chartData", JObj [("priceBars",
                 JArr [JObj [("tradeTimeinMills", JStr "1704189600000"); ("close", JStr "UNCH")];
                       JObj [("tradeTimeinMills", JStr "1704189660000"); ("close", JStr "UNCH")]])])])]))
              ∅)
           [("data", JObj [("chartData", JObj [("priceBars",
              JArr [JObj [("tradeTimeinMills", JStr "1704189600000"); ("close", JStr "UNCH")];
                    JObj [("tradeTimeinMills", JStr "1704189660000"); ("close", JStr "UNCH")]])])])]
           (JArr [JObj [("tradeTimeinMills", JStr "1704189600000"); ("close", JStr "UNCH")];
                  JObj [("tradeTimeinMills", JStr "1704189660000"); ("close", JStr "UNCH")]])).
  - reflexivity.
  - reflexivity.
  - reflexivity.
  - right. eexists. split; [reflexivity|]. repeat constructor.
Defined.

(* ===================================================================== *)
(** * The term rates of a day *)
(* ===================================================================== *)

Lemma rates_of_append_rate t t' x g :
  rates_of t (CMESOFR.append_rate t' x g)
  = if String.eqb t' t then (rates_of t g ++ [x])%list else rates_of t g.
Proof.
  induction g as [|[k l] g IH]; simpl.
  - destruct (String.eqb t' t); reflexivity.
  - destruct (String.eqb_spec k t') as [-> | Hkt']; simpl.
    + destruct (String.eqb t' t); reflexivity.
    + destruct (String.eqb_spec k t) as [-> | Hkt]; [|exact IH].
      destruct (String.eqb_spec t' t) as [-> | _]; [congruence|reflexivity].
Qed.

Lemma keys_append_rate t x g :
  NoDup (map fst g) -> Forall (fun p => snd p <> []) g ->
  NoDup (map fst (CMESOFR.append_rate t x g)) /\
  Forall (fun p => snd p <> []) (CMESOFR.append_rate t x g) /\
  (forall k, k ∈ map fst (CMESOFR.append_rate t x g) -> k = t \/ k ∈ map fst g).
Proof.
  induction g as [|[k l] g IH]; simpl; intros Hnd Hne.
  - split; [apply NoDup_singleton|]. split; [repeat constructor; discriminate|].
    intros k Hk. left. apply list_elem_of_singleton in Hk. exact Hk.
  - apply NoDup_cons in Hnd as [Hk Hnd]. apply Forall_cons in Hne as [Hl Hne].
    destruct (String.eqb_spec k t) as [-> | Hkt]; simpl.
    + split; [apply NoDup_cons; auto|]. split.
      * constructor; [|exact Hne]. simpl. destruct l; discriminate.
      * intros k' Hk'. right. exact Hk'.
    + destruct (IH Hnd Hne) as (Hnd' & Hne' & Hin). split; [|split].
      * apply NoDup_cons. split; [|exact Hnd'].
        intros Hk'. apply Hin in Hk' as [Hk' | Hk']; [congruence|contradiction].
      * constructor; assumption.
      * intros k' Hk'. apply elem_of_cons in Hk' as [-> | Hk']; [right; left|].
        apply Hin in Hk' as [Hk' | Hk']; [auto|right; right; exact Hk'].
Qed.

Lemma group_by_term_rates items acc g :
  CMESOFR.group_by_term items acc = Ok g ->
  NoDup (map fst acc) -> Forall (fun p => snd p <> []) acc ->
  NoDup (map fst g) /\ Forall (fun p => snd p <> []) g /\
  forall t, t <> "" -> rates_of t g = (rates_of t acc ++ List.filter (has_term t) items)%list.
Proof.
  revert acc. induction items as [|item items IH]; intros acc.
  - simpl. intros [= <-] Hnd Hne. split; [exact Hnd|]. split; [exact Hne|].
    intros t _. rewrite app_nil_r. reflexivity.
  - cbn [CMESOFR.group_by_term]. destruct item as [| | | | | |kv]; try discriminate.
    cbn [Json.get mbind result_bind].
    assert (Hskip : CMESOFR.group_by_term items acc = Ok g ->
              (forall t, t <> "" -> has_term t (JObj kv) = false) ->
              NoDup (map fst acc) -> Forall (fun p => snd p <> []) acc ->
              NoDup (map fst g) /\ Forall (fun p => snd p <> []) g /\
              forall t, t <> "" ->
                rates_of t g
                = (rates_of t acc ++ List.filter (has_term t) (JObj kv :: items))%list).
    { intros Hg Hno Hnd Hne. destruct (IH acc Hg Hnd Hne) as (H1 & H2 & H3).
      split; [exact H1|]. split; [exact H2|]. intros t Ht.
      cbn [List.filter]. rewrite (Hno t Ht). apply H3, Ht. }
    unfold has_term in Hskip.
    destruct (Json.lookup "term" kv) as [term|] eqn:Hterm; simpl default.
    + destruct term as [|b|z|f|s|l|o]; cbn [Json.truthy].
      * intros Hg. apply Hskip; auto.
      * destruct b; intros Hg; apply Hskip; auto.
      * destruct (negb (z =? 0)); intros Hg; apply Hskip; auto.
      * destruct f; intros Hg; apply Hskip; auto.
      * destruct (String.eqb_spec s "") as [-> | Hs]; cbn [negb].
        -- intros Hg. apply Hskip; [exact Hg|].
           intros t Ht. destruct (String.eqb_spec "" t); congruence.
        -- intros Hg Hnd Hne.
           destruct (keys_append_rate s (JObj kv) acc Hnd Hne) as (Hnd' & Hne' & _).
           destruct (IH _ Hg Hnd' Hne') as (H1 & H2 & H3).
           split; [exact H1|]. split; [exact H2|]. intros t Ht.
           rewrite (H3 t Ht), rates_of_append_rate. cbn [List.filter has_term].
           rewrite Hterm. destruct (String.eqb s t); [|reflexivity].
           rewrite <- app_assoc. reflexivity.
      * destruct l; [|discriminate]. intros Hg. apply Hskip; auto.
      * destruct o; [|discriminate]. intros Hg. apply Hskip; auto.
    + cbn [Json.truthy]. intros Hg. apply Hskip; auto.
Qed.

Lemma rates_of_absent t g : t ∉ map fst g -> rates_of t g = [].
Proof.
  induction g as [|[k l] g IH]; [reflexivity|]. simpl. intros Hk.
  destruct (String.eqb_spec k t) as [-> | _]; [exfalso; apply Hk; left|].
  apply IH. intros Hin. apply Hk. right. exact Hin.
Qed.

Lemma fill_term_rates_lookup date g tr0 tr t :
  CMESOFR.fill_term_rates date g tr0 = Ok tr ->
  NoDup (map fst g) -> Forall (fun p => snd p <> []) g ->
  CMESOFR.expected_term t = true ->
  match rates_of t g with
  | [] => tr !! t = tr0 !! t
  | L => exists sel p,
           CMESOFR.selected_rate_info date L = Ok sel /\ CMESOFR.price_of sel = Ok p /\
           tr !! t = match p with Some f => Some f | None => tr0 !! t end
  end.
Proof.
  intros Hfill Hnd Hne Ht. revert tr0 Hfill.
  induction g as [|[k L] g IH]; intros tr0; cbn [CMESOFR.fill_term_rates rates_of].
  - intros [= <-]. reflexivity.
  - apply NoDup_cons in Hnd as [Hk Hnd]. apply Forall_cons in Hne as [HL Hne]. simpl in HL.
    destruct (CMESOFR.expected_term k) eqn:Hek; cbn [negb].
    + destruct (CMESOFR.selected_rate_info date L) as [sel|e] eqn:Hsel; [|discriminate].
      cbn [mbind result_bind].
      destruct (CMESOFR.price_of sel) as [p|e] eqn:Hp; [|discriminate].
      cbn [mbind result_bind]. intros Hfill. specialize (IH Hnd Hne _ Hfill).
      destruct (String.eqb_spec k t) as [-> | Hkt].
      * rewrite (rates_of_absent t g Hk) in IH.
        destruct L as [|r L]; [congruence|]. exists sel, p. split; [exact Hsel|].
        split; [exact Hp|]. rewrite IH. destruct p as [f|]; [|reflexivity].
        apply lookup_insert_eq.
      * destruct (rates_of t g) as [|r' L'].
        -- rewrite IH. destruct p as [f|]; [|reflexivity].
           apply lookup_insert_ne. exact Hkt.
        -- destruct IH as (sel' & p' & H1 & H2 & H3). exists sel', p'.
           split; [exact H1|]. split; [exact H2|]. rewrite H3.
           destruct p' as [f'|]; [reflexivity|].
           destruct p as [f|]; [|reflexivity]. apply lookup_insert_ne. exact Hkt.
    + intros Hfill. specialize (IH Hnd Hne _ Hfill).
      destruct (String.eqb_spec k t) as [-> | Hkt]; [congruence|]. exact IH.
Qed.

Lemma expected_term_nonempty t : CMESOFR.expected_term t = true -> t <> "".
Proof. intros Ht ->. discriminate Ht. Qed.

Lemma term_rates_lookup date day_data rkv items tr t :
  Json.lookup "rates" day_data = Some (JObj rkv) ->
  Json.lookup "sofrRatesFixing" rkv = Some (JArr items) ->
  CMESOFR.term_rates date day_data = Ok tr ->
  CMESOFR.expected_term t = true ->
  term_rate_is date items t (tr !! t).
Proof.
  intros Hr Hf Htr Ht. unfold CMESOFR.term_rates in Htr. rewrite Hr in Htr.
  cbn [CMESOFR.rates_fixing mbind result_bind] in Htr. rewrite Hf in Htr.
  cbn [Json.iterate mbind result_bind] in Htr.
  destruct (CMESOFR.group_by_term items []) as [g|e] eqn:Hg; [|discriminate].
  cbn [mbind result_bind] in Htr.
  destruct (group_by_term_rates items [] g Hg) as (Hnd & Hne & Hrates);
    [constructor|constructor|].
  pose proof (fill_term_rates_lookup date g ∅ tr t Htr Hnd Hne Ht) as Hfill.
  rewrite (Hrates t (expected_term_nonempty t Ht)) in Hfill. simpl in Hfill.
  unfold term_rate_is. destruct (List.filter (has_term t) items) as [|r L].
  - rewrite Hfill. apply lookup_empty.
  - destruct Hfill as (sel & p & H1 & H2 & H3). exists sel. split; [exact H1|].
    rewrite H3, H2. destruct p; [reflexivity|]. rewrite lookup_empty. reflexivity.
Qed.

(** X7. The four term columns of a day in CMESOFR.py.  When the day has
    a list of fixings and is normalized, the rate of each of the terms 1M,
    3M, 6M and 1Y is absent if no fixing carries that term, and is
    otherwise the price, as [price_of] reads it, of the fixing that
    [selected_rate_info] chooses among the fixings carrying the term,
    taken in the order of the page.  Fixings of another term play no
    part. *)
Theorem term_columns_of_a_day (day_data rkv : list (string * json)) (items : list json)
  (row : CMESOFR.row json) :
  Json.lookup "rates" day_data = Some (JObj rkv) ->
  Json.lookup "sofrRatesFixing" rkv = Some (JArr items) ->
  CMESOFR.process_day (JObj day_data) = Ok row ->
  let date := default JNull (Json.lookup "date" day_data) in
  term_rate_is date items "1M" (CMESOFR.SOFR_1M row) /\
  term_rate_is date items "3M" (CMESOFR.SOFR_3M row) /\
  term_rate_is date items "6M" (CMESOFR.SOFR_6M row) /\
  term_rate_is date items "1Y" (CMESOFR.SOFR_1Y row).
Proof.
  intros Hr Hf Hrow date. unfold CMESOFR.process_day in Hrow. fold date in Hrow.
  destruct (CMESOFR.term_rates date day_data) as [tr|e] eqn:Htr; [|discriminate].
  cbn [mbind result_bind] in Hrow. injection Hrow as <-. cbn [CMESOFR.SOFR_1M CMESOFR.SOFR_3M CMESOFR.SOFR_6M CMESOFR.SOFR_1Y].
  repeat split; apply (term_rates_lookup date day_data rkv items tr _ Hr Hf Htr); reflexivity.
Qed.

(** The day of the four fixings: the one-month rate is the 10:00 price
    5.33, the three-month rate 5.36, and there is no rate of six months
    or of one year. *)
Lemma term_columns_of_a_day_witness :
  term_rate_is (JStr "2024-01-02") four_fixings "1M"
    (Some (S754_finite false 6001046503471186 (-50))) /\
  term_rate_is (JStr "2024-01-02") four_fixings "3M"
    (Some (S754_finite false 6034823500676465 (-50))) /\
  term_rate_is (JStr "2024-01-02") four_fixings "6M" None /\
  term_rate_is (JStr "2024-01-02") four_fixings "1Y" None.
Proof.
  apply (term_columns_of_a_day
           [("date", JStr "2024-01-02"); ("rates", JObj [("sofrRatesFixing", JArr four_fixings)])]
           [("sofrRatesFixing", JArr four_fixings)] four_fixings
           (CMESOFR.Row (JStr "2024-01-02") None
              (Some (S754_finite false 6001046503471186 (-50)))
              (Some (S754_finite false 6034823500676465 (-50))) None None
              JNull JNull JNull JNull)).
  - reflexivity.
  - reflexivity.
  - vm_compute. reflexivity.
Defined.

(* ===================================================================== *)
(** * Whole numbers as floats *)
(* ===================================================================== *)

Lemma round_half_even_one a : Float.round_half_even a 1 = a.
Proof.
  unfold Float.round_half_even. rewrite Z.div_1_r, Z.mod_1_r. reflexivity.
Qed.

(** A whole number below [2^53] is a float: [of_ratio] gives the
    mantissa and the exponent of the number itself. *)
Lemma of_ratio_int sg n :
  0 < n < 2 ^ 53 ->
  exists M E, Float.of_ratio sg n 1 = S754_finite sg M E /\
              -52 <= E <= 0 /\ Zpos M = n * 2 ^ (- E).
Proof.
  intros [Hn0 Hn]. pose proof (Z.log2_spec n Hn0) as [Hl1 Hl2].
  pose proof (Z.log2_nonneg n) as Hl0. set (k := Z.log2 n) in *.
  rewrite Z.pow_succ_r in Hl2 by exact Hl0.
  assert (Hk : k <= 52).
  { destruct (Z_le_gt_dec k 52) as [Hle | Hgt]; [exact Hle|].
    assert (2 ^ 53 <= 2 ^ k) by (apply Z.pow_le_mono_r; lia). lia. }
  assert (Hilog : Float.ilog2 n 1 = k).
  { unfold Float.ilog2. change (Z.log2 1) with 0. rewrite Z.sub_0_r. fold k.
    replace (0 <=? k) with true by (symmetry; apply Z.leb_le; lia).
    replace (n <? 1 * 2 ^ k) with false by (symmetry; apply Z.ltb_ge; lia). reflexivity. }
  set (m := n * 2 ^ (52 - k)).
  assert (Hpow : 2 ^ k * 2 ^ (52 - k) = 2 ^ 52).
  { rewrite <- Z.pow_add_r by lia. f_equal. lia. }
  assert (Hp0 : 0 < 2 ^ (52 - k)) by (apply Z.pow_pos_nonneg; lia).
  assert (Hm : 2 ^ 52 <= m < 2 ^ 53).
  { unfold m. change (2 ^ 53) with (2 * 2 ^ 52). rewrite <- Hpow. nia. }
  assert (Hscale : Float.scale2 n 1 (k - 52) = (m, 1)).
  { unfold Float.scale2, m. destruct (Z.leb_spec 0 (k - 52)) as [Hz | Hneg].
    - replace (k - 52) with 0 by lia. replace (52 - k) with 0 by lia.
      change (2 ^ 0) with 1. f_equal; lia.
    - replace (- (k - 52)) with (52 - k) by lia. reflexivity. }
  unfold Float.of_ratio.
  replace (n <=? 0) with false by (symmetry; apply Z.leb_gt; lia).
  rewrite Hilog. replace (Z.max (k - 52) (-1074)) with (k - 52) by lia.
  rewrite Hscale, round_half_even_one.
  replace (m =? 2 ^ 53) with false by (symmetry; apply Z.eqb_neq; lia).
  destruct m as [|p|p] eqn:Hmp; try lia.
  replace (k - 52 <=? 971) with true by (symmetry; apply Z.leb_le; lia).
  exists p, (k - 52). split; [reflexivity|]. split; [lia|].
  replace (- (k - 52)) with (52 - k) by lia. symmetry. exact Hmp.
Qed.

(** The float of a whole number, cut back to a whole number. *)
Lemma trunc_of_int sg M E n :
  E <= 0 -> Zpos M = n * 2 ^ (- E) ->
  Float.trunc (S754_finite sg M E) = Some (if sg then - n else n).
Proof.
  intros HE HM. unfold Float.trunc, Float.modf.
  assert (Hp : 0 < 2 ^ (- E)) by (apply Z.pow_pos_nonneg; lia).
  destruct (Z.leb_spec 0 E) as [Hz | Hneg].
  - replace E with 0 in * by lia. change (2 ^ (- 0)) with 1 in HM. change (2 ^ 0) with 1.
    rewrite HM. simpl. destruct sg; f_equal; lia.
  - simpl. rewrite HM, Z.div_mul by lia. destruct sg; f_equal; lia.
Qed.



(** [dt.timestamp()] at a whole second. *)
Lemma timestamp_seconds s :
  s <> 0 -> DateTime.timestamp (s * 1000000) = Float.of_ratio (s <? 0) (Z.abs s) 1.
Proof.
  intros Hs. unfold DateTime.timestamp.
  replace (s * 1000000 <? 0) with (s <? 0)
    by (destruct (Z.ltb_spec s 0); symmetry; [apply Z.ltb_lt|apply Z.ltb_ge]; lia).
  replace (Z.abs (s * 1000000)) with (Z.abs s * 1000000) by lia.
  change 1000000 with (1 * 1000000) at 2.
  rewrite of_ratio_scale by lia. reflexivity.
Qed.

(** [int(datetime_obj.timestamp() * 1000)] at a whole second. *)
Lemma db_timestamp_seconds s :
  Z.abs (1000 * s) < 2 ^ 53 -> CNBC.db_timestamp (s * 1000000) = Ok (1000 * s).
Proof.
  intros Hs. destruct (Z.eq_dec s 0) as [-> | Hs0]; [reflexivity|].
  unfold CNBC.db_timestamp. rewrite (timestamp_seconds s Hs0).
  destruct (of_ratio_int (s <? 0) (Z.abs s)) as (M & E & Hx & HE & HM); [lia|].
  rewrite Hx. unfold Float.mul.
  replace (0 <=? E + -43) with false by (symmetry; apply Z.leb_gt; lia).
  rewrite xorb_false_r, HM.
  replace (Z.abs s * 2 ^ (- E) * 8796093022208000)
    with (1000 * Z.abs s * 2 ^ (- (E + -43))).
  2:{ replace (- (E + -43)) with (- E + 43) by lia. rewrite Z.pow_add_r by lia.
      change (2 ^ 43) with 8796093022208. ring. }
  assert (Hp : 0 < 2 ^ (- (E + -43))) by (apply Z.pow_pos_nonneg; lia).
  rewrite <- (Z.mul_1_l (2 ^ (- (E + -43)))) at 2.
  rewrite of_ratio_scale by lia.
  destruct (of_ratio_int (s <? 0) (1000 * Z.abs s)) as (M' & E' & Hx' & HE' & HM'); [lia|].
  rewrite Hx', (trunc_of_int _ _ _ (1000 * Z.abs s)) by (lia || exact HM'). simpl.
  f_equal. destruct (Z.ltb_spec s 0); lia.
Qed.



(* ===================================================================== *)
(** * Times at a whole second come back as they were *)
(* ===================================================================== *)




(** X9. [convert_date_to_utc_timestamp_ms] on a date at a whole second
    [s], whatever its zone, is [1000 * s] exactly, for every [s] with
    [1000 * s] below [2^53] in size; storing a row of that date changes
    no key of another timestamp. *)
Theorem whole_second_date_converts_exactly (s off : Z) :
  Z.abs (1000 * s) < 2 ^ 53 ->
  CMESOFR.convert_date_to_utc_timestamp_ms (Some (CMESOFR.Stamp (s * 1000000) off))
  = Ok (Some (1000 * s)) /\
  forall r tb m z,
    CMESOFR.Date r = Some (CMESOFR.Stamp (s * 1000000) off) ->
    z <> 1000 * s ->
    snd (CMESOFR.store_sofr_data_in_dynamodb true tb [r]) !! (m, z) = tb !! (m, z).
Proof.
  intros Hs.
  assert (Hconv : CMESOFR.convert_date_to_utc_timestamp_ms
                    (Some (CMESOFR.Stamp (s * 1000000) off)) = Ok (Some (1000 * s))).
  { unfold CMESOFR.convert_date_to_utc_timestamp_ms. cbn [CMESOFR.instant].
    rewrite (db_timestamp_seconds s Hs). reflexivity. }
  split; [exact Hconv|].
  intros r tb m z Hr Hz. unfold CMESOFR.store_sofr_data_in_dynamodb.
  apply CMESOFR_store_rows_frame. right. intros r' Hr'.
  apply list_elem_of_singleton in Hr'. subst r'. rewrite Hr, Hconv. congruence.
Qed.

(** Midnight of 2024-01-02. *)
Lemma whole_second_date_converts_exactly_witness :
  CMESOFR.convert_date_to_utc_timestamp_ms (Some (CMESOFR.Stamp (1704153600 * 1000000) 0))
  = Ok (Some (1000 * 1704153600)).
Proof.
  apply (whole_second_date_converts_exactly 1704153600 0). vm_compute. reflexivity.
Defined.

(* ===================================================================== *)
(** * [Decimal(str(x))] never fails on a float *)
(* ===================================================================== *)





(* ===================================================================== *)
(** * The time of a row always converts *)
(* ===================================================================== *)












(* ===================================================================== *)
(** * The rows CNBC.py skips *)
(* ===================================================================== *)







(* ===================================================================== *)
(** * What stops the store of CMESOFR.py *)
(* ===================================================================== *)









(* ===================================================================== *)
(** * What the table holds after a store *)
(* ===================================================================== *)

Lemma CNBC_row_item_value `{CNBC.Pandas} m u r it :
  CNBC.row_item m u r = Ok (Some it) ->
  PyDecimal.Decimal (Float.repr (CNBC.Value r)) = Ok (value it).
Proof.
  unfold CNBC.row_item.
  destruct (CNBC.db_timestamp (CNBC.DateTime r)) as [ts|]; simpl; [|discriminate].
  destruct (CNBC.row_value r) as [[v|]|] eqn:Hv; simpl; try discriminate.
  intros [= <-]. simpl. unfold CNBC.row_value in Hv. apply try_except_emits in Hv.
  destruct (Float.is_nan (CNBC.Value r)); [discriminate|].
  destruct (CNBC.series_is_finite (CNBC.Value r)) as [[|]|]; simpl in Hv; try discriminate.
  destruct (PyDecimal.Decimal _) as [d|]; simpl in Hv; [|discriminate]. congruence.
Qed.

Lemma History_row_item_value m u r it :
  History.row_item m u r = Ok (Some it) ->
  PyDecimal.Decimal (Float.repr (History.Close_Price r)) = Ok (value it).
Proof.
  unfold History.row_item.
  destruct (CNBC.db_timestamp (History.DateTime r)) as [ts|]; simpl; [|discriminate].
  destruct (try_except _ _ _) as [[v|]|] eqn:Hv; simpl; try discriminate.
  intros [= <-]. simpl. apply try_except_emits in Hv.
  destruct (PyDecimal.Decimal _) as [d|]; simpl in Hv; [|discriminate]. congruence.
Qed.

Lemma CNBC_store_rows_post `{CNBC.Pandas} m u rows c tb k it :
  snd (CNBC.store_rows m u rows c tb) !! k = Some it ->
  tb !! k = Some it \/
  exists r, r ∈ rows /\ CNBC.row_item m u r = Ok (Some it) /\ key it = k.
Proof.
  revert c tb. induction rows as [|r rows IH]; intros c tb; simpl; [auto|].
  destruct (CNBC.row_item m u r) as [[it'|]|e] eqn:Hr; simpl.
  - intros Hk. apply IH in Hk as [Hk | (r' & Hin & Hit & Hkey)].
    + unfold put_item in Hk. destruct (decide (key it' = k)) as [Heq | Hne].
      * rewrite Heq, lookup_insert_eq in Hk. injection Hk as ->.
        right. exists r. split; [left|]. auto.
      * rewrite lookup_insert_ne in Hk by exact Hne. auto.
    + right. exists r'. split; [right; exact Hin|]. auto.
  - intros Hk. apply IH in Hk as [Hk | (r' & Hin & Hit & Hkey)]; [auto|].
    right. exists r'. split; [right; exact Hin|]. auto.
  - auto.
Qed.

Lemma History_store_rows_post m u rows c tb k it :
  snd (History.store_rows m u rows c tb) !! k = Some it ->
  tb !! k = Some it \/
  exists r, r ∈ rows /\ History.row_item m u r = Ok (Some it) /\ key it = k.
Proof.
  revert c tb. induction rows as [|r rows IH]; intros c tb; simpl; [auto|].
  destruct (History.row_item m u r) as [[it'|]|e] eqn:Hr; simpl.
  - intros Hk. apply IH in Hk as [Hk | (r' & Hin & Hit & Hkey)].
    + unfold put_item in Hk. destruct (decide (key it' = k)) as [Heq | Hne].
      * rewrite Heq, lookup_insert_eq in Hk. injection Hk as ->.
        right. exists r. split; [left|]. auto.
      * rewrite lookup_insert_ne in Hk by exact Hne. auto.
    + right. exists r'. split; [right; exact Hin|]. auto.
  - intros Hk. apply IH in Hk as [Hk | (r' & Hin & Hit & Hkey)]; [auto|].
    right. exists r'. split; [right; exact Hin|]. auto.
  - auto.
Qed.

Lemma CMESOFR_store_cells_post ts sd cells c tb k it :
  snd (CMESOFR.store_cells ts sd cells c tb) !! k = Some it ->
  tb !! k = Some it \/
  exists cell m u v, (cell, m, u) ∈ cells /\ CMESOFR.cell_value cell = Ok (Some v) /\
                     it = Item m ts v sd u /\ k = (m, ts).
Proof.
  revert c tb. induction cells as [|[[cell m] u] cells IH]; intros c tb; simpl; [auto|].
  destruct (CMESOFR.cell_value cell) as [[v|]|e] eqn:Hv.
  - intros Hk. apply IH in Hk as [Hk | (cell' & m' & u' & v' & Hin & Hcv & Hit & Hkey)].
    + unfold put_item in Hk.
      destruct (decide (key (Item m ts v sd u) = k)) as [Heq | Hne].
      * rewrite Heq, lookup_insert_eq in Hk. injection Hk as <-.
        right. exists cell, m, u, v. split; [left|]. rewrite <- Heq. auto.
      * rewrite lookup_insert_ne in Hk by exact Hne. auto.
    + right. exists cell', m', u', v'. split; [right; exact Hin|]. auto.
  - intros Hk. apply IH in Hk as [Hk | (cell' & m' & u' & v' & Hin & Hcv & Hit & Hkey)];
      [auto|].
    right. exists cell', m', u', v'. split; [right; exact Hin|]. auto.
  - auto.
Qed.

Lemma metric_mapping_units r cell m u :
  (cell, m, u) ∈ CMESOFR.metric_mapping r -> m ∈ sofr_metrics /\ u = sofr_unit m.
Proof.
  unfold CMESOFR.metric_mapping, sofr_metrics. intros Hin.
  repeat (apply elem_of_cons in Hin as [[= -> -> ->] | Hin];
          [split; [set_solver|reflexivity]|]).
  inversion Hin.
Qed.

Lemma CMESOFR_store_rows_post rows c tb k it :
  snd (CMESOFR.store_rows rows c tb) !! k = Some it ->
  tb !! k = Some it \/
  (k = (metricId it, timestamp it) /\ metricId it ∈ sofr_metrics /\
   unit it = sofr_unit (metricId it) /\
   exists r ts, r ∈ rows /\ CMESOFR.Date r = Some ts /\
                CNBC.db_timestamp (CMESOFR.instant ts) = Ok (timestamp it) /\
                sourceDate it
                = DateTime.strftime_date (CMESOFR.instant ts + CMESOFR.utcoffset ts)).
Proof.
  revert c tb. induction rows as [|r rows IH]; intros c tb; [simpl; auto|].
  cbn [CMESOFR.store_rows].
  assert (Hrest : forall c' tb',
            snd (CMESOFR.store_rows rows c' tb') !! k = Some it ->
            tb' !! k = Some it \/
            (k = (metricId it, timestamp it) /\ metricId it ∈ sofr_metrics /\
             unit it = sofr_unit (metricId it) /\
             exists r' ts, r' ∈ r :: rows /\ CMESOFR.Date r' = Some ts /\
                CNBC.db_timestamp (CMESOFR.instant ts) = Ok (timestamp it) /\
                sourceDate it
                = DateTime.strftime_date (CMESOFR.instant ts + CMESOFR.utcoffset ts))).
  { intros c' tb' Hk. apply IH in Hk as [Hk | (H1 & H2 & H3 & r' & ts & Hin & H4)]; [auto|].
    right. split; [exact H1|]. split; [exact H2|]. split; [exact H3|].
    exists r', ts. split; [right; exact Hin|exact H4]. }
  unfold CMESOFR.convert_date_to_utc_timestamp_ms.
  destruct (CMESOFR.Date r) as [ts|] eqn:Hd; [|apply Hrest].
  destruct (CNBC.db_timestamp (CMESOFR.instant ts)) as [z|e] eqn:Hz;
    cbn [mbind result_bind]; [|auto].
  assert (Hcells : forall tb1,
            tb1 !! k = Some it ->
            (exists c1, snd (CMESOFR.store_cells z
                               (DateTime.strftime_date (CMESOFR.instant ts + CMESOFR.utcoffset ts))
                               (CMESOFR.metric_mapping r) c1 tb) = tb1) ->
            tb !! k = Some it \/
            (k = (metricId it, timestamp it) /\ metricId it ∈ sofr_metrics /\
             unit it = sofr_unit (metricId it) /\
             exists r' ts', r' ∈ r :: rows /\ CMESOFR.Date r' = Some ts' /\
                CNBC.db_timestamp (CMESOFR.instant ts') = Ok (timestamp it) /\
                sourceDate it
                = DateTime.strftime_date (CMESOFR.instant ts' + CMESOFR.utcoffset ts'))).
  { intros tb1 Hk [c1 Htb1]. rewrite <- Htb1 in Hk.
    apply CMESOFR_store_cells_post in Hk
      as [Hk | (cell & m & u & v & Hin & Hcv & -> & ->)]; [auto|].
    apply metric_mapping_units in Hin as [Hm ->]. right. simpl.
    split; [reflexivity|]. split; [exact Hm|]. split; [reflexivity|].
    exists r, ts. split; [left|]. auto. }
  destruct (CMESOFR.store_cells z _ (CMESOFR.metric_mapping r) c tb) as [[c'|e] tb1] eqn:Hs.
  - intros Hk. apply Hrest in Hk as [Hk | Hk]; [|auto].
    apply (Hcells tb1 Hk). exists c. rewrite Hs. reflexivity.
  - simpl. intros Hk. apply (Hcells tb1 Hk). exists c. rewrite Hs. reflexivity.
Qed.

(** X13. What the table holds after a store.  An item found under a key
    is the item that was there before, or it was made from a row: it lies
    under its own metric and timestamp, the timestamp is the converted
    time of the row, the source date is the text of that time, and the
    metric and the unit are those of the call (for CMESOFR.py one of the
    nine metrics, with the unit [%] except for SOFR_Index, which has
    none). *)
Theorem table_after_a_store `{CNBC.Pandas} :
  (forall tb df metric u k it,
     snd (CNBC.store_data_in_dynamodb tb df metric u) !! k = Some it ->
     tb !! k = Some it \/
     (k = (metric, timestamp it) /\ metricId it = metric /\ unit it = Some u /\
      exists r, r ∈ df /\
        CNBC.db_timestamp (CNBC.DateTime r) = Ok (timestamp it) /\
        PyDecimal.Decimal (Float.repr (CNBC.Value r)) = Ok (value it) /\
        sourceDate it = DateTime.strftime_seconds_tz (CNBC.DateTime r))) /\
  (forall tb rows metric u k it,
     snd (History.store_yield_data_in_dynamodb tb (Some rows) metric u) !! k = Some it ->
     tb !! k = Some it \/
     (k = (metric, timestamp it) /\ metricId it = metric /\ unit it = Some u /\
      exists r, r ∈ rows /\
        CNBC.db_timestamp (History.DateTime r) = Ok (timestamp it) /\
        PyDecimal.Decimal (Float.repr (History.Close_Price r)) = Ok (value it) /\
        sourceDate it = DateTime.strftime_seconds (History.DateTime r))) /\
  (forall handle tb df k it,
     snd (CMESOFR.store_sofr_data_in_dynamodb handle tb df) !! k = Some it ->
     tb !! k = Some it \/
     (k = (metricId it, timestamp it) /\ metricId it ∈ sofr_metrics /\
      unit it = sofr_unit (metricId it) /\
      exists r ts, r ∈ df /\ CMESOFR.Date r = Some ts /\
        CNBC.db_timestamp (CMESOFR.instant ts) = Ok (timestamp it) /\
        sourceDate it
        = DateTime.strftime_date (CMESOFR.instant ts + CMESOFR.utcoffset ts))).
Proof.
  split; [|split].
  - intros tb df metric u k it. unfold CNBC.store_data_in_dynamodb.
    destruct df as [|r0 rows]; [auto|]. intros Hk.
    apply CNBC_store_rows_post in Hk as [Hk | (r & Hin & Hit & Hkey)]; [auto|].
    right. pose proof (CNBC_row_item_value _ _ _ _ Hit) as Hv.
    apply CNBC_row_item_fields in Hit as (Hm & Hu & Hts & Hsd).
    unfold key in Hkey. rewrite Hm in Hkey. split; [congruence|]. split; [exact Hm|].
    split; [exact Hu|]. exists r. auto.
  - intros tb rows metric u k it. unfold History.store_yield_data_in_dynamodb.
    destruct rows as [|r0 rows]; [auto|]. intros Hk.
    apply History_store_rows_post in Hk as [Hk | (r & Hin & Hit & Hkey)]; [auto|].
    right. pose proof (History_row_item_value _ _ _ _ Hit) as Hv.
    apply History_row_item_fields in Hit as (Hm & Hu & Hts & Hsd).
    unfold key in Hkey. rewrite Hm in Hkey. split; [congruence|]. split; [exact Hm|].
    split; [exact Hu|]. exists r. auto.
  - intros handle tb df k it. unfold CMESOFR.store_sofr_data_in_dynamodb.
    destruct df as [|r0 rows]; [auto|]. destruct handle; [|auto].
    apply CMESOFR_store_rows_post.
Qed.

(** The item of the bar of 2024-01-02 10:00:00 UTC. *)
Lemma table_after_a_store_witness :
  let it := Item "CNBC_US10YTIP_1D_Close" 1704189600000 (PyDecimal.Finite false 171 (-2))
              "2024-01-02 10:00:00 UTC" (Some "%") in
  let df := [CNBC.Row 1704189600000000 (S754_finite false 7701155362803548 (-52))] in
  (∅ : table) !! ("CNBC_US10YTIP_1D_Close", 1704189600000) = Some it \/
  (("CNBC_US10YTIP_1D_Close", 1704189600000) = ("CNBC_US10YTIP_1D_Close", timestamp it) /\
   metricId it = "CNBC_US10YTIP_1D_Close" /\ unit it = Some "%" /\
   exists r, r ∈ df /\
     CNBC.db_timestamp (CNBC.DateTime r) = Ok (timestamp it) /\
     PyDecimal.Decimal (Float.repr (CNBC.Value r)) = Ok (value it) /\
     sourceDate it = DateTime.strftime_seconds_tz (CNBC.DateTime r)).
Proof.
  intros it df.
  apply (proj1 (@table_after_a_store (merge_pandas true)) ∅ df
           "CNBC_US10YTIP_1D_Close" "%" ("CNBC_US10YTIP_1D_Close", 1704189600000) it).
  vm_compute. reflexivity.
Defined.

(* ===================================================================== *)
(** * The error of one rounding *)
(* ===================================================================== *)

(** In the normal range [of_ratio] gives a number, within half a unit in
    the last place of the quotient: [2^(l - 53)] when the quotient lies
    between [2^l] and [2^(l+1)]. *)
Lemma of_ratio_round s n d :
  0 < n -> 0 < d -> -1022 <= Float.ilog2 n d <= 1022 ->
  exists m e,
    Float.of_ratio s n d = S754_finite s m e /\
    Float.ilog2 n d - 52 <= e /\
    (Rabs (IZR n / IZR d - F2R (Zpos m) e) <= powerRZ 2 (Float.ilog2 n d - 53))%R.
Proof.
  intros Hn Hd HL. pose proof (ilog2_spec n d Hn Hd) as [Hlow Hup].
  set (l := Float.ilog2 n d) in *.
  unfold Float.of_ratio. fold l.
  replace (n <=? 0) with false by (symmetry; apply Z.leb_gt; lia).
  replace (Z.max (l - 52) (-1074)) with (l - 52) by lia.
  set (e0 := l - 52).
  destruct (Float.scale2 n d e0) as [a b] eqn:Hab.
  destruct (scale2_value n d e0 a b Hd Hab) as [Hb Hv].
  pose proof (round_half_even_near_R a b Hb) as Hr.
  pose proof (round_half_even_floor a b Hb) as Hfl.
  set (m0 := Float.round_half_even a b) in *.
  pose proof (pow2_pos e0) as He0.
  assert (Hd' : (0 < IZR d)%R) by (apply IZR_lt; exact Hd).
  assert (Hb' : (0 < IZR b)%R) by (apply IZR_lt; exact Hb).
  assert (Hhalf : powerRZ 2 (l - 53) = (powerRZ 2 e0 / 2)%R).
  { unfold e0. replace (l - 52) with (l - 53 + 1) by lia. rewrite pow2_succ. lra. }
  assert (Hl52 : powerRZ 2 l = (4503599627370496 * powerRZ 2 e0)%R).
  { unfold e0. replace l with (52 + (l - 52)) at 1 by lia.
    rewrite powerRZ_add by lra. rewrite <- (IZR_pow 2 52) by lia. reflexivity. }
  assert (Hclose : (Rabs (IZR n / IZR d - IZR m0 * powerRZ 2 e0) <= powerRZ 2 e0 / 2)%R).
  { rewrite Hv in Hr.
    replace (IZR n / IZR d - IZR m0 * powerRZ 2 e0)%R
      with ((IZR n / IZR d / powerRZ 2 e0 - IZR m0) * powerRZ 2 e0)%R by (field; lra).
    rewrite Rabs_mult, (Rabs_pos_eq (powerRZ 2 e0)) by lra.
    apply Rle_trans with (1 / 2 * powerRZ 2 e0)%R; [|lra].
    apply Rmult_le_compat_r; [lra|exact Hr]. }
  assert (Hge : 2 ^ 52 * b <= a).
  { apply le_IZR. rewrite mult_IZR. change (IZR (2 ^ 52)) with 4503599627370496%R.
    assert (Hq : (4503599627370496 <= IZR a / IZR b)%R).
    { rewrite Hv. apply Rmult_le_reg_r with (r := powerRZ 2 e0); [exact He0|].
      apply Rmult_le_reg_r with (r := IZR d); [exact Hd'|].
      replace (IZR n / IZR d / powerRZ 2 e0 * powerRZ 2 e0 * IZR d)%R with (IZR n)
        by (field; lra).
      rewrite <- Hl52. exact Hlow. }
    apply Rmult_le_compat_r with (r := IZR b) in Hq; [|lra].
    replace (IZR a / IZR b * IZR b)%R with (IZR a) in Hq by (field; lra). exact Hq. }
  assert (Hdiv : 2 ^ 52 <= a / b) by (apply Z.div_le_lower_bound; lia).
  assert (Hm0 : 2 ^ 52 <= m0) by (destruct Hfl as [-> | ->]; lia).
  destruct (Z.eqb_spec m0 (2 ^ 53)) as [Hm | Hm].
  - change (2 ^ 52) with (Zpos 4503599627370496).
    replace (e0 + 1 <=? 971) with true by (symmetry; apply Z.leb_le; unfold e0; lia).
    exists 4503599627370496%positive, (e0 + 1). split; [reflexivity|]. split; [lia|].
    rewrite Hhalf. unfold F2R. rewrite pow2_succ. rewrite Hm in Hclose.
    change (2 ^ 53) with 9007199254740992 in Hclose.
    replace (IZR (Zpos 4503599627370496) * (2 * powerRZ 2 e0))%R
      with (IZR 9007199254740992 * powerRZ 2 e0)%R by lra.
    exact Hclose.
  - destruct m0 as [|p|p] eqn:Hp; try lia.
    replace (e0 <=? 971) with true by (symmetry; apply Z.leb_le; unfold e0; lia).
    exists p, e0. split; [reflexivity|]. split; [lia|]. rewrite Hhalf. exact Hclose.
Qed.

(** Where the binary logarithm of a quotient lies. *)
Lemma ilog2_bounds n d lo hi :
  0 < n -> 0 < d ->
  (powerRZ 2 lo * IZR d <= IZR n)%R -> (IZR n < powerRZ 2 hi * IZR d)%R ->
  lo <= Float.ilog2 n d < hi.
Proof.
  intros Hn Hd Hlo Hhi. pose proof (ilog2_spec n d Hn Hd) as [Hl Hu].
  set (l := Float.ilog2 n d) in *.
  assert (Hd' : (0 < IZR d)%R) by (apply IZR_lt; exact Hd).
  split.
  - destruct (Z_lt_le_dec l lo) as [Hlt | Hge]; [|lia].
    exfalso. assert (Hp : (powerRZ 2 (l + 1) <= powerRZ 2 lo)%R) by (apply pow2_le; lia).
    nra.
  - destruct (Z_lt_le_dec l hi) as [Hlt | Hge]; [exact Hlt|].
    exfalso. assert (Hp : (powerRZ 2 hi <= powerRZ 2 l)%R) by (apply pow2_le; lia).
    nra.
Qed.

(* ===================================================================== *)
(** * Whole part and fraction of a float *)
(* ===================================================================== *)

(** [modf] of a positive float: the whole part and the fraction, exactly. *)
Lemma modf_value m e :
  exists i n d,
    Float.modf (S754_finite false m e) = Some (i, (n, d)) /\
    0 <= i /\ 0 <= n < d /\ (0 < n -> e < 0 /\ d = 2 ^ (- e)) /\
    (IZR i + IZR n / IZR d = F2R (Zpos m) e)%R.
Proof.
  unfold Float.modf, F2R. destruct (Z.leb_spec 0 e) as [He | He].
  - exists (1 * (Zpos m * 2 ^ e)), 0, 1. split; [reflexivity|].
    assert (0 < 2 ^ e) by (apply Z.pow_pos_nonneg; lia).
    split; [nia|]. split; [lia|]. split; [lia|].
    rewrite Z.mul_1_l, mult_IZR, IZR_pow by lia. lra.
  - set (d := 2 ^ (- e)).
    assert (Hd : 0 < d) by (apply Z.pow_pos_nonneg; lia).
    exists (1 * (Zpos m / d)), (1 * (Zpos m mod d)), d. split; [reflexivity|].
    pose proof (Z.div_mod (Zpos m) d ltac:(lia)) as Hdm.
    pose proof (Z.mod_pos_bound (Zpos m) d Hd) as Hmod.
    assert (Hq : 0 <= Zpos m / d) by (apply Z.div_pos; lia).
    split; [lia|]. split; [lia|]. split; [intros _; split; [exact He|reflexivity]|].
    rewrite !Z.mul_1_l.
    assert (Hd' : (0 < IZR d)%R) by (apply IZR_lt; exact Hd).
    assert (Hpow : powerRZ 2 e = (/ IZR d)%R).
    { unfold d. rewrite IZR_pow by lia. replace e with (- (- e)) at 1 by lia.
      rewrite powerRZ_neg' by lra. reflexivity. }
    rewrite Hpow. rewrite Hdm at 3. rewrite plus_IZR, mult_IZR. field. lra.
Qed.

(** [int(x)] of a positive float is its floor. *)
Lemma trunc_floor m e :
  exists z, Float.trunc (S754_finite false m e) = Some z /\
            (IZR z <= F2R (Zpos m) e < IZR z + 1)%R.
Proof.
  destruct (modf_value m e) as (i & n & d & Hm & Hi & Hn & _ & Hv).
  exists i. unfold Float.trunc. rewrite Hm. split; [reflexivity|].
  assert (Hd' : (0 < IZR d)%R) by (apply IZR_lt; lia).
  assert (H0 : (0 <= IZR n / IZR d)%R).
  { apply Rmult_le_pos; [apply IZR_le; lia|]. left. apply Rinv_0_lt_compat. exact Hd'. }
  assert (H1 : (IZR n / IZR d < 1)%R).
  { apply Rmult_lt_reg_r with (r := IZR d); [exact Hd'|].
    replace (IZR n / IZR d * IZR d)%R with (IZR n) by (field; lra).
    rewrite Rmult_1_l. apply IZR_lt. lia. }
  lra.
Qed.

(** Rounding a positive float to the whole number it is nearest to. *)
Lemma round_to_int_near m e k :
  (Rabs (F2R (Zpos m) e - IZR k) < 1 / 2)%R ->
  Float.round_to_int (S754_finite false m e) = Some k.
Proof.
  intros Hk. destruct (modf_value m e) as (i & n & d & Hm & Hi & Hn & _ & Hv).
  unfold Float.round_to_int. rewrite Hm. f_equal.
  assert (Hd : 0 < d) by lia.
  pose proof (round_half_even_near_R n d Hd) as Hr.
  set (r := Float.round_half_even n d) in *.
  rewrite <- Hv in Hk.
  assert (Hlt : (Rabs (IZR (i + r) - IZR k) < 1)%R).
  { rewrite plus_IZR.
    replace (IZR i + IZR r - IZR k)%R
      with ((IZR i + IZR n / IZR d - IZR k) - (IZR n / IZR d - IZR r))%R by ring.
    eapply Rle_lt_trans; [apply Rabs_triang|]. rewrite Rabs_Ropp. lra. }
  rewrite <- minus_IZR in Hlt.
  assert (Hz : i + r - k = 0).
  { destruct (Z.eq_dec (i + r - k) 0) as [Hz | Hz]; [exact Hz|exfalso].
    assert (1 <= Z.abs (i + r - k)) by lia.
    rewrite <- abs_IZR in Hlt. apply lt_IZR in Hlt. lia. }
  lia.
Qed.

(* ===================================================================== *)
(** * Milliseconds to a datetime and back *)
(* ===================================================================== *)

Lemma pow2_Z k : 0 <= k -> powerRZ 2 k = IZR (2 ^ k).
Proof. intros Hk. rewrite IZR_pow by exact Hk. reflexivity. Qed.

Lemma pow2_neg k : 0 <= k -> powerRZ 2 (- k) = (/ IZR (2 ^ k))%R.
Proof. intros Hk. rewrite powerRZ_neg' by lra. rewrite pow2_Z by exact Hk. reflexivity. Qed.

Section Milliseconds.

(** A time in milliseconds before 2^33 seconds (the year 2242). *)
Variable ms : Z.
Hypothesis ms_range : 0 < ms < 8589934592000.

(** [timestamp_ms / 1000]: a float within [2^(-21)] of the quotient. *)
Lemma seconds_float :
  exists m1 e1,
    Float.of_ratio false ms 1000 = S754_finite false m1 e1 /\
    -62 <= e1 /\
    (Rabs (IZR ms / 1000 - F2R (Zpos m1) e1) <= / 2097152)%R.
Proof.
  assert (Hms : (1 <= IZR ms < 8589934592000)%R).
  { split; [apply IZR_le; lia|apply IZR_lt; lia]. }
  assert (HL : -10 <= Float.ilog2 ms 1000 < 33).
  { apply ilog2_bounds; try lia.
    - assert (H10 : powerRZ 2 (-10) = (/ 1024)%R) by (apply (pow2_neg 10); lia).
      rewrite H10. lra.
    - assert (H33 : powerRZ 2 33 = 8589934592%R) by (apply (pow2_Z 33); lia).
      rewrite H33. lra. }
  destruct (of_ratio_round false ms 1000) as (m1 & e1 & Hx & He & Herr); try lia.
  exists m1, e1. split; [exact Hx|]. split; [lia|].
  eapply Rle_trans; [exact Herr|].
  assert (H21 : powerRZ 2 (-21) = (/ 2097152)%R) by (apply (pow2_neg 21); lia).
  rewrite <- H21. apply pow2_le. lia.
Qed.

(** [datetime.fromtimestamp] of that float is the instant itself, to
    the microsecond. *)
Lemma fromtimestamp_ms m1 e1 :
  -62 <= e1 ->
  (Rabs (IZR ms / 1000 - F2R (Zpos m1) e1) <= / 2097152)%R ->
  DateTime.fromtimestamp (S754_finite false m1 e1) = Ok (ms * 1000).
Proof.
  intros He Herr. apply Rabs_le_bounds in Herr as [Herr1 Herr2].
  assert (Hms : (1 <= IZR ms < 8589934592000)%R).
  { split; [apply IZR_le; lia|apply IZR_lt; lia]. }
  destruct (modf_value m1 e1) as (i & n & d & Hm & Hi & Hn & Hfrac & Hv).
  set (X1 := F2R (Zpos m1) e1) in *.
  assert (Hd' : (0 < IZR d)%R) by (apply IZR_lt; lia).
  assert (Hf0 : (0 <= IZR n / IZR d)%R).
  { apply Rmult_le_pos; [apply IZR_le; lia|]. left. apply Rinv_0_lt_compat. exact Hd'. }
  assert (Hf1 : (IZR n / IZR d < 1)%R).
  { apply Rmult_lt_reg_r with (r := IZR d); [exact Hd'|].
    replace (IZR n / IZR d * IZR d)%R with (IZR n) by (field; lra).
    rewrite Rmult_1_l. apply IZR_lt. lia. }
  assert (Hus : Float.round_to_int (Float.of_ratio false (n * 1000000) d)
                = Some (ms * 1000 - i * 1000000)).
  { destruct (Z.eq_dec n 0) as [Hn0 | Hn0].
    - subst n. change (Float.round_to_int (Float.of_ratio false (0 * 1000000) d)) with (Some 0).
      f_equal. replace (IZR 0 / IZR d)%R with 0%R in Hv by (unfold Rdiv; ring).
      assert (Hz : (Rabs (IZR (ms - 1000 * i)) < 1)%R).
      { rewrite minus_IZR, mult_IZR. apply Rabs_def1; lra. }
      rewrite <- abs_IZR in Hz. apply lt_IZR in Hz. lia.
    - destruct Hfrac as [He1 Hd]; [lia|].
      assert (Hd62 : (IZR d <= 4611686018427387904)%R).
      { rewrite Hd. apply IZR_le. change 4611686018427387904 with (2 ^ 62).
        apply Z.pow_le_mono_r; lia. }
      assert (Hn1 : (1 <= IZR n)%R) by (apply IZR_le; lia).
      assert (HL : -62 <= Float.ilog2 (n * 1000000) d < 20).
      { apply ilog2_bounds; try lia.
        - assert (H62 : powerRZ 2 (-62) = (/ 4611686018427387904)%R)
            by (apply (pow2_neg 62); lia).
          rewrite H62, mult_IZR.
          apply Rmult_le_reg_l with (r := 4611686018427387904%R); [lra|].
          replace (4611686018427387904 * (/ 4611686018427387904 * IZR d))%R with (IZR d)
            by (field; lra).
          nra.
        - assert (H20 : powerRZ 2 20 = 1048576%R) by (apply (pow2_Z 20); lia).
          rewrite H20, mult_IZR. assert (IZR n < IZR d)%R by (apply IZR_lt; lia). nra. }
      destruct (of_ratio_round false (n * 1000000) d) as (m2 & e2 & Hy & _ & Hyerr); try lia.
      rewrite Hy. apply round_to_int_near.
      assert (Hbound : (powerRZ 2 (Float.ilog2 (n * 1000000) d - 53) <= / 17179869184)%R).
      { assert (H34 : powerRZ 2 (-34) = (/ 17179869184)%R) by (apply (pow2_neg 34); lia).
        rewrite <- H34. apply pow2_le. lia. }
      apply Rabs_le_bounds in Hyerr as [Hy1 Hy2].
      rewrite mult_IZR in Hy1, Hy2. rewrite minus_IZR, !mult_IZR.
      replace (IZR n * 1000000 / IZR d)%R with (IZR n / IZR d * 1000000)%R in Hy1, Hy2
        by (field; lra).
      apply Rabs_def1; lra. }
  unfold DateTime.fromtimestamp. rewrite Hm.
  replace (n <? 0) with false by (symmetry; apply Z.ltb_ge; lia).
  replace (Z.abs n) with n by lia. rewrite Hus. cbv beta iota zeta.
  replace (i * 1000000 + (ms * 1000 - i * 1000000)) with (ms * 1000) by lia.
  assert (Hi33 : i < 8589934592).
  { assert (Hms' : (IZR ms <= 8589934591999)%R) by (apply IZR_le; lia).
    apply lt_IZR. lra. }
  pose proof (Z.div_mod (ms * 1000) 1000000 ltac:(lia)) as Hdm.
  pose proof (Z.mod_pos_bound (ms * 1000) 1000000 ltac:(lia)) as Hmod.
  unfold DateTime.time_t_fits, DateTime.gmtime_fits, DateTime.min_seconds,
    DateTime.max_seconds.
  replace (- 2 ^ 63 <=? i) with true by (symmetry; apply Z.leb_le; lia).
  replace (i <? 2 ^ 63) with true by (symmetry; apply Z.ltb_lt; lia).
  replace (-67768040609740800 <=? ms * 1000 / 1000000) with true
    by (symmetry; apply Z.leb_le; lia).
  replace (ms * 1000 / 1000000 <=? 67767976233532799) with true
    by (symmetry; apply Z.leb_le; lia).
  replace (-62135596800 <=? ms * 1000 / 1000000) with true
    by (symmetry; apply Z.leb_le; lia).
  replace (ms * 1000 / 1000000 <=? 253402300799) with true
    by (symmetry; apply Z.leb_le; lia).
  reflexivity.
Qed.

(** [int(datetime_obj.timestamp() * 1000)] of that instant: the
    milliseconds, or one less. *)
Lemma db_timestamp_ms :
  exists z, CNBC.db_timestamp (ms * 1000) = Ok z /\ ms - 1 <= z <= ms.
Proof.
  destruct seconds_float as (m1 & e1 & Hx & He & Herr).
  apply Rabs_le_bounds in Herr as [Herr1 Herr2].
  assert (Hms : (1 <= IZR ms <= 8589934591999)%R).
  { split; apply IZR_le; lia. }
  set (X1 := F2R (Zpos m1) e1) in *.
  assert (Hround : forall n3 d3,
            0 < n3 -> 0 < d3 -> (IZR n3 / IZR d3 = X1 * 1000)%R ->
            exists z, Float.trunc (Float.of_ratio false n3 d3) = Some z /\ ms - 1 <= z <= ms).
  { intros n3 d3 Hn3 Hd3 Hv.
    assert (Hd' : (0 < IZR d3)%R) by (apply IZR_lt; exact Hd3).
    assert (Hn : IZR n3 = (X1 * 1000 * IZR d3)%R) by (rewrite <- Hv; field; lra).
    assert (HL : -1 <= Float.ilog2 n3 d3 < 43).
    { apply ilog2_bounds; try lia.
      - assert (H1 : powerRZ 2 (-1) = (/ 2)%R) by (apply (pow2_neg 1); lia).
        rewrite H1, Hn. nra.
      - assert (H43 : powerRZ 2 43 = 8796093022208%R) by (apply (pow2_Z 43); lia).
        rewrite H43, Hn. nra. }
    destruct (of_ratio_round false n3 d3) as (m3 & e3 & Hy & _ & Hyerr); try lia.
    assert (Hbound : (powerRZ 2 (Float.ilog2 n3 d3 - 53) <= / 2048)%R).
    { assert (H11 : powerRZ 2 (-11) = (/ 2048)%R) by (apply (pow2_neg 11); lia).
      rewrite <- H11. apply pow2_le. lia. }
    apply Rabs_le_bounds in Hyerr as [Hy1 Hy2]. rewrite Hv in Hy1, Hy2.
    destruct (trunc_floor m3 e3) as (z & Hz & Hz1 & Hz2).
    exists z. rewrite Hy. split; [exact Hz|].
    split.
    - assert (Hlt : (IZR (ms - 2) < IZR z)%R) by (rewrite minus_IZR; lra).
      apply lt_IZR in Hlt. lia.
    - assert (Hlt : (IZR z < IZR (ms + 1))%R) by (rewrite plus_IZR; lra).
      apply lt_IZR in Hlt. lia. }
  unfold CNBC.db_timestamp, DateTime.timestamp.
  replace (ms * 1000 <? 0) with false by (symmetry; apply Z.ltb_ge; lia).
  replace (Z.abs (ms * 1000)) with (ms * 1000) by lia.
  change 1000000 with (1000 * 1000). rewrite of_ratio_scale by lia. rewrite Hx.
  unfold Float.mul. cbn [xorb].
  assert (HK : (8796093022208000 = 1000 * 8796093022208)%R) by lra.
  destruct (Z.leb_spec 0 (e1 + -43)) as [Hpos | Hneg].
  - assert (Hp : 0 < 2 ^ (e1 + -43)) by (apply Z.pow_pos_nonneg; lia).
    destruct (Hround (Zpos m1 * 8796093022208000 * 2 ^ (e1 + -43)) 1) as (z & Hz & Hzr);
      [nia|lia| |].
    + rewrite !mult_IZR, IZR_pow by lia. unfold X1, F2R.
      assert (H43 : powerRZ 2 43 = 8796093022208%R) by (apply (pow2_Z 43); lia).
      assert (He1 : powerRZ 2 e1 = (powerRZ 2 (e1 + -43) * 8796093022208)%R).
      { rewrite <- H43, <- powerRZ_add by lra. f_equal. lia. }
      rewrite He1. field.
    + exists z. rewrite Hz. split; [reflexivity|exact Hzr].
  - assert (Hp : 0 < 2 ^ (- (e1 + -43))) by (apply Z.pow_pos_nonneg; lia).
    destruct (Hround (Zpos m1 * 8796093022208000) (2 ^ (- (e1 + -43)))) as (z & Hz & Hzr);
      [lia|lia| |].
    + rewrite !mult_IZR, IZR_pow by lia. unfold X1, F2R.
      replace (- (e1 + -43)) with (43 - e1) by lia. rewrite powerRZ_sub_r by lra.
      assert (H43 : powerRZ 2 43 = 8796093022208%R) by (apply (pow2_Z 43); lia).
      rewrite H43. pose proof (pow2_pos e1). field. lra.
    + exists z. rewrite Hz. split; [reflexivity|exact Hzr].
Qed.

End Milliseconds.

Lemma process_bar_at kv tv ms x dt text v :
  Json.lookup "tradeTimeinMills" kv = Some tv ->
  Json.int tv = Ok ms ->
  Float.int_truediv ms 1000 = Some x ->
  DateTime.fromtimestamp x = Ok dt ->
  Json.lookup "close" kv = Some (JStr text) ->
  CNBC.close_value text = Ok v ->
  CNBC.process_bar (JObj kv) = Ok (Some (CNBC.Row dt v)) /\
  History.process_bar (JObj kv) = Ok (Some (History.Row dt v)).
Proof.
  intros Htv Hint Hx Hdt Hclose Hv.
  assert (Hnone : Json.is_none tv = false) by (destruct tv; try reflexivity; discriminate Hint).
  unfold CNBC.process_bar, History.process_bar, Json.get, Json.get_default.
  rewrite Htv, Hclose.
  change (default JNull (Some tv)) with tv.
  change (default (JStr "0") (Some (JStr text))) with (JStr text).
  cbn [mbind result_bind]. rewrite Hnone, Hint. cbn [mbind result_bind].
  rewrite Hx. cbn [of_option mbind result_bind]. rewrite Hdt.
  cbn [mbind result_bind Json.str]. rewrite Hv. split; reflexivity.
Qed.

Lemma bar_time_ms ms :
  0 <= ms < 8589934592000 ->
  (exists x, Float.int_truediv ms 1000 = Some x /\ DateTime.fromtimestamp x = Ok (ms * 1000)) /\
  (exists z, CNBC.db_timestamp (ms * 1000) = Ok z /\ ms - 1 <= z <= ms).
Proof.
  intros Hms. destruct (Z.eq_dec ms 0) as [-> | Hnz].
  { split; [exists (S754_zero false)|exists 0]; split; reflexivity || lia. }
  assert (Hr : 0 < ms < 8589934592000) by lia.
  split; [|apply (db_timestamp_ms ms Hr)].
  destruct (seconds_float ms Hr) as (m1 & e1 & Hx & He & Herr).
  exists (S754_finite false m1 e1). split; [|apply (fromtimestamp_ms ms Hr m1 e1 He Herr)].
  unfold Float.int_truediv. change (1000 =? 0) with false. cbv iota.
  replace (ms <? 0) with false by (symmetry; apply Z.ltb_ge; lia).
  replace (Z.abs ms) with ms by lia. change (Z.abs 1000) with 1000.
  change (xorb false (1000 <? 0)) with false. rewrite Hx. reflexivity.
Qed.

(** X14. A bar before the year 2242 is stored at most one millisecond
    early.  When [tradeTimeinMills] reads as [ms], from 0 up to [2^33]
    seconds, and the close reads as a float, both CNBC scripts make the
    row of exactly that instant, to the microsecond; and
    [int(datetime_obj.timestamp() * 1000)], the timestamp of its item, is
    [ms] or [ms - 1], never later and never further off. *)
Theorem stored_time_is_at_most_one_ms_early `{CNBC.Pandas} (kv : list (string * json))
  (tv : json) (ms : Z) (text : string) (v : Float.t) :
  Json.lookup "tradeTimeinMills" kv = Some tv ->
  Json.int tv = Ok ms ->
  0 <= ms < 8589934592000 ->
  Json.lookup "close" kv = Some (JStr text) ->
  CNBC.close_value text = Ok v ->
  CNBC.process_bar (JObj kv) = Ok (Some (CNBC.Row (ms * 1000) v)) /\
  History.process_bar (JObj kv) = Ok (Some (History.Row (ms * 1000) v)) /\
  exists z,
    CNBC.db_timestamp (ms * 1000) = Ok z /\ ms - 1 <= z <= ms /\
    (forall metric u it,
       CNBC.row_item metric u (CNBC.Row (ms * 1000) v) = Ok (Some it) -> timestamp it = z) /\
    (forall metric u it,
       History.row_item metric u (History.Row (ms * 1000) v) = Ok (Some it) ->
       timestamp it = z).
Proof.
  intros Htv Hint Hms Hclose Hv.
  destruct (bar_time_ms ms Hms) as [(x & Hx & Hdt) (z & Hz & Hzr)].
  destruct (process_bar_at kv tv ms x (ms * 1000) text v Htv Hint Hx Hdt Hclose Hv) as [Hc Hh].
  split; [exact Hc|]. split; [exact Hh|]. exists z. split; [exact Hz|]. split; [exact Hzr|].
  split.
  - intros metric u it Hit. apply CNBC_row_item_fields in Hit as (_ & _ & Hts & _).
    simpl in Hts. rewrite Hz in Hts. congruence.
  - intros metric u it Hit. apply History_row_item_fields in Hit as (_ & _ & Hts & _).
    simpl in Hts. rewrite Hz in Hts. congruence.
Qed.

(** The bar of 2004-01-10 13:37:04.001 UTC becomes the row of that
    instant. *)
Lemma stored_time_is_at_most_one_ms_early_witness :
  CNBC.process_bar (JObj [("tradeTimeinMills", JInt 1073741824001); ("close", JStr "1.71")])
  = Ok (Some (CNBC.Row (1073741824001 * 1000) (S754_finite false 7701155362803548 (-52)))).
Proof.
  apply (@stored_time_is_at_most_one_ms_early (merge_pandas true)
           [("tradeTimeinMills", JInt 1073741824001); ("close", JStr "1.71")]
           (JInt 1073741824001) 1073741824001 "1.71"
           (S754_finite false 7701155362803548 (-52))).
  - reflexivity.
  - reflexivity.
  - lia.
  - reflexivity.
  - vm_compute. reflexivity.
Defined.

(* ===================================================================== *)
(** * The rows that are fetched can be stored *)
(* ===================================================================== *)






(* ===================================================================== *)
(** * What is put is found *)
(* ===================================================================== *)











